(** * e-com-project: synthetic data generator, SQLite loader and report

    A shallow embedding of the three scripts of the repository
    ([generate_data.py], [ingest_to_sqlite.py], [run_queries.py]) and the
    properties of the data set they produce, load and print. *)

From Stdlib Require Import ZArith NArith String Ascii Lia.
From stdpp Require Import base tactics option list strings gmap sorting.

Local Open Scope Z_scope.

(** ** Python exceptions and results *)

Inductive exn : Type :=
  | ValueError (msg : string)
  | IndexError (msg : string)
  | KeyError (key : string)
  | InvalidOperation
  | FileNotFoundError (path : string)
  | IntegrityError (msg : string)
  | SystemExit (msg : string).

Inductive result (A : Type) : Type :=
  | Ok (a : A)
  | Raise (e : exn).
Arguments Ok {A} a.
Arguments Raise {A} e.

(** ** Rendering and reading integers: [str(int)] and digit strings *)

Module PyStr.

Definition digit_char (d : Z) : ascii := ascii_of_N (48 + Z.to_N d).

Definition digit_val (c : ascii) : option Z :=
  let n := Z.of_N (N_of_ascii c) in
  if (48 <=? n) && (n <=? 57) then Some (n - 48) else None.

(** Most significant digit first, prepended to [acc]; [fuel] bounds the
    number of digits. *)
Fixpoint digits_acc (fuel : nat) (n : Z) (acc : string) : string :=
  match fuel with
  | O => acc
  | S f =>
      let acc' := String (digit_char (n mod 10)) acc in
      if n <? 10 then acc' else digits_acc f (n / 10) acc'
  end.

Definition str_nonneg (n : Z) : string :=
  digits_acc (S (Z.to_nat (Z.log2 n))) n EmptyString.

(** [str(n)] for a Python int. *)
Definition str_int (n : Z) : string :=
  if n <? 0 then String "-" (str_nonneg (- n)) else str_nonneg n.

(** Left-to-right reading of a digit string, starting from [acc]. *)
Fixpoint read_digits (s : string) (acc : Z) : option Z :=
  match s with
  | EmptyString => Some acc
  | String c r =>
      match digit_val c with
      | Some d => read_digits r (10 * acc + d)
      | None => None
      end
  end.

(** [int(text)] for the plain form [[+-]digits], the one [str] of an int has:
    surrounding blanks and underscores between digits, which [int] also
    accepts, are [ValueError] here. *)
Definition int_of_string (s : string) : option Z :=
  match s with
  | EmptyString => None
  | String c r =>
      if Ascii.eqb c "-" then
        match r with EmptyString => None | _ => Z.opp <$> read_digits r 0 end
      else if Ascii.eqb c "+" then
        match r with EmptyString => None | _ => read_digits r 0 end
      else read_digits s 0
  end.

(** The Python values that rows hold: ints and strings; [str(v)]. *)
Inductive value : Type :=
  | VInt (n : Z)
  | VStr (s : string).

Definition str_value (v : value) : string :=
  match v with VInt n => str_int n | VStr s => s end.

(** [str.ljust(width)]: pad with spaces on the right, never truncate. *)
Definition spaces (n : nat) : string := string_of_list_ascii (replicate n " "%char).
Definition ljust (s : string) (width : nat) : string :=
  (s ++ spaces (width - String.length s))%string.

(** [sep.join(parts)]. *)
Fixpoint join (sep : string) (parts : list string) : string :=
  match parts with
  | [] => EmptyString
  | [p] => p
  | p :: rest => (p ++ sep ++ join sep rest)%string
  end.

Definition lower_char (c : ascii) : ascii :=
  let n := N_of_ascii c in
  if (65 <=? n)%N && (n <=? 90)%N then ascii_of_N (n + 32) else c.

Fixpoint lower (s : string) : string :=
  match s with
  | EmptyString => EmptyString
  | String c r => String (lower_char c) (lower r)
  end.

End PyStr.

(** ** [decimal.Decimal] restricted to finite values

    A finite [Decimal] is [coef * 10 ^ exp].  Arithmetic below is exact; the
    default context of Python keeps 28 significant digits, and every
    coefficient that the generator computes stays far below [10 ^ 28]
    (see [DatasetFacts.total_cents_small]), so no context rounding applies. *)

Module Dec.

Record Decimal : Type := mkDecimal { coef : Z; exp : Z }.

Definition pow10 (k : Z) : Z := 10 ^ k.

(** [Decimal.__add__]: align to the smaller exponent, add coefficients. *)
Definition add (a b : Decimal) : Decimal :=
  let e := Z.min (exp a) (exp b) in
  mkDecimal (coef a * pow10 (exp a - e) + coef b * pow10 (exp b - e)) e.

(** [Decimal.__mul__] with a Python int on the right. *)
Definition mul_int (a : Decimal) (n : Z) : Decimal :=
  mkDecimal (coef a * n) (exp a).

(** [d.quantize(Decimal("0.01"), rounding=ROUND_HALF_UP)]: the coefficient of
    the result, whose exponent is -2.  Ties go away from zero.  (Python keeps
    the sign of a negative value that rounds to zero; the coefficient does
    not, and no value here is negative.) *)
Definition quantize_cents (d : Decimal) : Z :=
  if -2 <=? exp d then coef d * pow10 (exp d + 2)
  else
    let q := pow10 (-2 - exp d) in
    Z.sgn (coef d) * ((2 * Z.abs (coef d) + q) / (2 * q)).

Definition quantize (d : Decimal) : Decimal := mkDecimal (quantize_cents d) (-2).

(** [str(d)] for a Decimal of exponent -2: integer digits, a dot and two
    fractional digits. *)
Definition str_cents (c : Z) : string :=
  let a := Z.abs c in
  let body :=
    (PyStr.str_nonneg (a / 100) ++
     String "." (String (PyStr.digit_char (a mod 100 / 10))
                (String (PyStr.digit_char (a mod 10)) EmptyString)))%string in
  if c <? 0 then String "-" body else body.

(** Split a string at its first dot. *)
Fixpoint split_dot (s : string) : string * option string :=
  match s with
  | EmptyString => (EmptyString, None)
  | String c r =>
      if Ascii.eqb c "." then (EmptyString, Some r)
      else let '(a, b) := split_dot r in (String c a, b)
  end.

(** [Decimal(s)] for the plain form [[-]digits[.digits]], the only one the
    generator produces; anything else is [InvalidOperation] here. *)
Definition of_string (s : string) : option Decimal :=
  let '(neg, body) :=
    match s with
    | String c r =>
        if Ascii.eqb c "-" then (true, r)
        else if Ascii.eqb c "+" then (false, r) else (false, s)
    | EmptyString => (false, s)
    end in
  let '(ip, fp) := split_dot body in
  let frac := default EmptyString fp in
  if (String.length ip + String.length frac =? 0)%nat then None
  else
    n ← PyStr.read_digits (ip ++ frac) 0;
    Some (mkDecimal (if neg then - n else n) (- Z.of_nat (String.length frac))).

End Dec.

(** [money(value)]: quantize to cents, half up, and render.  [quantize]
    raises [InvalidOperation] when the rounded coefficient needs more than
    the 28 digits of the context; [fits_context] says that it does not, and
    [money] is the result of the call in that case only. *)
Definition money (value : Dec.Decimal) : string :=
  Dec.str_cents (Dec.quantize_cents value).

Definition fits_context (value : Dec.Decimal) : Prop :=
  Z.abs (Dec.quantize_cents value) < 10 ^ 28.

(** ** Binary floating point: [float] and [REAL]

    A Python [float] and a SQLite [REAL] are IEEE-754 binary64 values: a
    zero, an infinity, or [m * 2 ^ e] with a sign, where [m < 2 ^ 53] and
    [2 ^ 52 <= m] unless [e = -1074].  Not-a-number is left out: no
    conversion below makes one.  Conversions round to nearest, ties to even. *)

Module Float.

Inductive binary64 : Type :=
  | Zero (neg : bool)
  | Finite (neg : bool) (m e : Z)
  | Infinity (neg : bool).

(** The integer nearest to [p / q], a tie going to the even one. *)
Definition round_half_even (p q : Z) : Z :=
  let d := p / q in
  let r := p mod q in
  if 2 * r <? q then d
  else if q <? 2 * r then d + 1
  else if Z.even d then d else d + 1.

(** The binary exponent of [p / q]: the [t] with [2 ^ t <= p / q < 2 ^ (t + 1)]. *)
Definition exponent_of (p q : Z) : Z :=
  let t := Z.log2 p - Z.log2 q in
  if q * 2 ^ Z.max 0 t <=? p * 2 ^ Z.max 0 (- t) then t else t - 1.

Definition normal (neg : bool) (m e : Z) : binary64 :=
  if 971 <? e then Infinity neg else Finite neg m e.

(** The binary64 value nearest to [p / q], for [0 <= p] and [0 < q]. *)
Definition of_ratio (neg : bool) (p q : Z) : binary64 :=
  if p =? 0 then Zero neg
  else
    let e := Z.max (exponent_of p q - 52) (-1074) in
    let m := round_half_even (p * 2 ^ Z.max 0 (- e)) (q * 2 ^ Z.max 0 e) in
    if m =? 0 then Zero neg
    else if m =? 2 ^ 53 then normal neg (2 ^ 52) (e + 1)
    else normal neg m e.

(** [a / b] on Python ints with [0 < b]: the quotient, correctly rounded.
    (Python raises [OverflowError] where this gives an infinity.) *)
Definition div_int (a b : Z) : binary64 := of_ratio (a <? 0) (Z.abs a) b.

(** [int(x)]: toward zero.  ([int] of an infinity raises [OverflowError].) *)
Definition trunc (x : binary64) : Z :=
  match x with
  | Finite neg m e =>
      let v := if 0 <=? e then m * 2 ^ e else m / 2 ^ (- e) in
      if neg then - v else v
  | _ => 0
  end.

(** [float(text)] for the plain form [[-]digits[.digits]] that [Dec.of_string]
    reads, the only one the exporter writes: the value of the text,
    correctly rounded.  Exponents, [inf], [nan], underscores and surrounding
    blanks, which [float] also accepts, are [ValueError] here. *)
Definition of_string (s : string) : option binary64 :=
  d ← Dec.of_string s;
  Some (of_ratio (match s with String "-" _ => true | _ => false end)
          (Z.abs (Dec.coef d) * 10 ^ Z.max 0 (Dec.exp d))
          (10 ^ Z.max 0 (- Dec.exp d))).

(** The magnitude of [x] in cents, a half cent going up. *)
Definition cents (x : binary64) : Z :=
  match x with
  | Finite _ m e =>
      if 0 <=? e then 100 * m * 2 ^ e else (200 * m + 2 ^ (- e)) / 2 ^ (- e + 1)
  | _ => 0
  end.

(** SQLite's [printf('%.2f', x)] on a [REAL].  SQLite adds half a cent and
    cuts after the second fractional digit, working in extended precision on
    at most 16 significant digits, after nudging [x] up by 3e-16 of itself;
    the result is the magnitude rounded half up to cents, as here, unless
    [x] is within that nudge of a half cent (2.675 prints 2.68) or has more
    than 16 digits.  The float of a two-decimal text of fewer than 2 ^ 30
    cents is no such value: it is within 2 ^ -53 of itself of a whole number
    of cents, and has at most 12 digits. *)
Definition printf_2f (x : binary64) : string :=
  match x with
  | Zero _ => "0.00"
  | Finite neg _ _ => ((if neg then "-" else "") ++ Dec.str_cents (cents x))%string
  | Infinity neg => if neg then "-Inf" else "Inf"
  end.

End Float.

(** ** The [random] module, driven by a tape of draws

    The process-wide generator seeded by [random.seed(42)] is threaded
    explicitly: a computation consumes a tape of raw draws and may raise.
    Theorems quantify over every tape, hence over every seed. *)

Module Rng.

Definition Rand (A : Type) : Type := list N → result (A * list N).

Definition ret {A} (x : A) : Rand A := λ tape, Ok (x, tape).

Definition bind {A B} (m : Rand A) (f : A → Rand B) : Rand B :=
  λ tape,
    match m tape with
    | Ok (x, tape') => f x tape'
    | Raise e => Raise e
    end.

Definition throw {A} (e : exn) : Rand A := λ _, Raise e.

Definition of_option {A} (e : exn) (o : option A) : Rand A :=
  match o with Some x => ret x | None => throw e end.

(** One raw draw reduced below [n]; an exhausted tape keeps giving 0. *)
Definition randbelow (n : N) : Rand N :=
  λ tape,
    match tape with
    | [] => Ok (0%N, [])
    | d :: rest => Ok ((d mod n)%N, rest)
    end.

(** The message of [randrange(start, stop)] on an empty range, as CPython
    words it up to version 3.11: start, stop and width.  (Later versions
    word it differently; the theorems state the class of the exception.) *)
Definition empty_range (start stop : Z) : string :=
  ("empty range for randrange() (" ++ PyStr.str_int start ++ ", "
   ++ PyStr.str_int stop ++ ", " ++ PyStr.str_int (stop - start) ++ ")")%string.

(** [random.randint(a, b)], that is [randrange(a, b + 1)]: uniform on
    [a..b], [ValueError] when empty. *)
Definition randint (a b : Z) : Rand Z :=
  if b <? a then throw (ValueError (empty_range a (b + 1)))
  else bind (randbelow (Z.to_N (b - a + 1))) (λ r, ret (a + Z.of_N r)).

(** [random.choice(seq)]: [IndexError] on an empty sequence. *)
Definition choice {A} (seq : list A) : Rand A :=
  match seq with
  | [] => throw (IndexError "Cannot choose from an empty sequence")
  | _ =>
      bind (randbelow (N.of_nat (length seq))) (λ i,
      of_option (IndexError "list index out of range") (seq !! N.to_nat i))
  end.

(** The selection loop of [random.sample]: draw a position of the pool,
    take its element, move the last element of the pool into the vacancy
    and shrink the pool by one.  (For populations of more than 21 elements
    CPython draws positions of the whole population and redraws those
    already taken; the samples it can return are the same.) *)
Fixpoint sample_loop {A} (k : nat) (pool : list A) : Rand (list A) :=
  match k with
  | O => ret []
  | S k' =>
      bind (randbelow (N.of_nat (length pool))) (λ j,
      match pool !! N.to_nat j, last pool with
      | Some x, Some y =>
          bind (sample_loop k' (take (length pool - 1) (<[N.to_nat j := y]> pool)))
               (λ rest, ret (x :: rest))
      | _, _ => throw (IndexError "list index out of range")
      end)
  end.

(** [random.sample(population, k)]: [k] elements at distinct positions. *)
Definition sample {A} (population : list A) (k : Z) : Rand (list A) :=
  if (k <? 0) || (Z.of_nat (length population) <? k)
  then throw (ValueError "Sample larger than population or is negative")
  else sample_loop (Z.to_nat k) population.

(** [random.choices(population, weights)[0]] with weights given in
    hundredths: one draw below the total weight, then the first element whose
    cumulative weight exceeds it. *)
Fixpoint pick_weighted {A} (xs : list (A * N)) (r : N) : option A :=
  match xs with
  | [] => None
  | (x, w) :: rest => if (r <? w)%N then Some x else pick_weighted rest (r - w)%N
  end.

Definition choices1 {A} (population : list (A * N)) : Rand A :=
  let total := foldr (λ xw acc, (xw.2 + acc)%N) 0%N population in
  if (total =? 0)%N then throw (ValueError "Total of weights must be greater than zero")
  else bind (randbelow total) (λ r,
       of_option (IndexError "list index out of range") (pick_weighted population r)).

(** [random.uniform(a, b)] for integers [a <= b]: a float in [[a, b]], kept as
    the exact decimal value that [Decimal(float)] gives it.  Every double in
    [[20, 1200]] is a multiple of [2 ^ -48 = 5 ^ 48 * 10 ^ -48], so the grid
    below covers every value the call can return. *)
Definition uniform (a b : Z) : Rand Dec.Decimal :=
  bind (randbelow (Z.to_N ((b - a) * 2 ^ 48 + 1))) (λ m,
  ret (Dec.mkDecimal ((a * 2 ^ 48 + Z.of_N m) * 5 ^ 48) (-48))).

(** [for x in xs: s = body(x, s)]. *)
Fixpoint for_each {A S} (xs : list A) (body : A → S → Rand S) (s : S) : Rand S :=
  match xs with
  | [] => ret s
  | x :: rest => bind (body x s) (for_each rest body)
  end.

(** What a computation does on every tape.  [always m P]: a result of [m]
    satisfies [P].  [succeeds m]: [m] returns a result.  [fails m P]: [m]
    raises an exception that satisfies [P]. *)
Definition always {A} (m : Rand A) (P : A → Prop) : Prop :=
  ∀ tape x tape', m tape = Ok (x, tape') → P x.

Definition succeeds {A} (m : Rand A) : Prop :=
  ∀ tape, ∃ x tape', m tape = Ok (x, tape').

Definition fails {A} (m : Rand A) (P : exn → Prop) : Prop :=
  ∀ tape, ∃ e, m tape = Raise e ∧ P e.

End Rng.

Notation "x <~ m ; k" := (Rng.bind m (λ x, k))
  (at level 20, m at level 100, k at level 200, only parsing).
Notation "' pat <~ m ; k" := (Rng.bind m (λ x, match x with pat => k end))
  (at level 20, pat pattern, m at level 100, k at level 200, only parsing).

(** ** Dates and times

    A [datetime] is a number of microseconds since 1970-01-01 00:00:00.  The
    string fields that the source fills with [strftime] are kept as the
    instant they denote, in the unit the format keeps: a day number for
    ["%Y-%m-%d"], a number of seconds for ["%Y-%m-%d %H:%M:%S"]; [Calendar]
    renders them when rows are exported. *)

Module Clock.

Definition us_per_second : Z := 1000000.
Definition seconds_per_hour : Z := 3600.
Definition seconds_per_day : Z := 86400.

Definition timedelta_days (d : Z) : Z := d * seconds_per_day * us_per_second.
Definition timedelta_hours (h : Z) : Z := h * seconds_per_hour * us_per_second.
Definition timedelta_seconds (s : Z) : Z := s * us_per_second.

(** [int(delta.total_seconds())]: [total_seconds] divides the microseconds of
    the timedelta by [10 ** 6] into a float, which [int] truncates.  (A
    timedelta is below 10 ^ 9 days, so the quotient is finite.) *)
Definition total_seconds_int (delta : Z) : Z :=
  Float.trunc (Float.div_int delta us_per_second).

(** Below this span, 2 ^ 34 seconds, the float quotient has the whole
    seconds of the timedelta; from it on it can be one second more. *)
Definition exact_span : Z := 2 ^ 34 * us_per_second.

(** [dt.strftime("%Y-%m-%d")] keeps the day. *)
Definition day_of (dt : Z) : Z := dt / (seconds_per_day * us_per_second).

(** [dt.strftime("%Y-%m-%d %H:%M:%S")] keeps the second. *)
Definition second_of (dt : Z) : Z := dt / us_per_second.

End Clock.

(** ** [generate_data.py] *)

(** The five dataclasses.  Money fields are the strings [money] returns. *)

Module User.
Record t : Type := mk
  { user_id : Z; name : string; email : string; phone : string; created_at : Z }.
End User.

Module Product.
Record t : Type := mk
  { product_id : Z; name : string; category : string; price : string; stock : Z }.
End Product.

Module Order.
Record t : Type := mk
  { order_id : Z; user_id : Z; order_date : Z; total_amount : string }.
End Order.

Module OrderItem.
Record t : Type := mk
  { order_item_id : Z; order_id : Z; product_id : Z; quantity : Z;
    unit_price : string }.
End OrderItem.

Module Payment.
Record t : Type := mk
  { payment_id : Z; order_id : Z; amount : string; method : string;
    status : string; paid_at : Z }.
End Payment.

Module Generate.

Import Rng.

(** [random_date(start, end)]. *)
Definition random_date (start end_ : Z) : Rand Z :=
  let delta := end_ - start in
  r <~ randint 0 (Clock.total_seconds_int delta) ;
  ret (start + Clock.timedelta_seconds r).

(** [range(1, count + 1)]. *)
Definition range1 (count : Z) : list Z := seqZ 1 count.

Definition first_names : list string :=
  ["Ava"; "Liam"; "Noah"; "Olivia"; "Ethan"; "Sophia"; "Mason"; "Emma";
   "Isabella"; "Lucas"; "Mia"; "Elijah"]%string.

Definition last_names : list string :=
  ["Thompson"; "Rodriguez"; "Patel"; "Chen"; "Walker"; "Nguyen"; "Johnson";
   "Garcia"; "Wright"; "Kim"; "Davis"; "Bennett"]%string.

(** [generate_users(count)]; [today] is what [datetime.utcnow()] returns. *)
Definition generate_users (today : Z) (count : Z) : Rand (list User.t) :=
  for_each (range1 count) (λ uid users,
    first <~ choice first_names ;
    last <~ choice last_names ;
    let name := (first ++ " " ++ last)%string in
    let email :=
      PyStr.lower (first ++ "." ++ last ++ PyStr.str_int uid ++ "@example.com")%string in
    a <~ randint 200 999 ;
    b <~ randint 1000 9999 ;
    let phone := ("555-" ++ PyStr.str_int a ++ "-" ++ PyStr.str_int b)%string in
    created_at <~ random_date (today - Clock.timedelta_days 365)
                              (today - Clock.timedelta_days 10) ;
    ret (users ++ [User.mk uid name email phone (Clock.day_of created_at)])) [].

Definition adjectives : list string :=
  ["Aurora"; "Summit"; "TrailRunner"; "Cypress"; "Horizon"; "Breeze";
   "Cascade"; "Drift"]%string.

Definition nouns : list string :=
  ["Laptop"; "Headphones"; "Smartwatch"; "Coffee Grinder"; "Standing Desk";
   "Air Purifier"; "Water Bottle"; "Wireless Mouse"]%string.

Definition categories : list string :=
  ["Electronics"; "Wearables"; "Kitchen"; "Furniture"; "Home"; "Outdoors";
   "Accessories"]%string.

(** [generate_products(count)]. *)
Definition generate_products (count : Z) : Rand (list Product.t) :=
  for_each (range1 count) (λ pid products,
    adjective <~ choice adjectives ;
    noun <~ choice nouns ;
    let name := (adjective ++ " " ++ noun)%string in
    category <~ choice categories ;
    base_price <~ uniform 20 1200 ;
    stock <~ randint 20 400 ;
    ret (products ++ [Product.mk pid name category (money base_price) stock])) [].

(** The state of the loop of [generate_orders]: the three output lists and
    the two running counters. *)
Record orders_state : Type := mkState
  { st_orders : list Order.t;
    st_items : list OrderItem.t;
    st_payments : list Payment.t;
    st_order_item_id : Z;
    st_payment_id : Z }.

(** The inner loop: one line item per chosen product, accumulating
    [line_total] as an exact decimal. *)
Definition add_items (oid : Z) (product_choices : list Product.t)
    (acc : Dec.Decimal * list OrderItem.t * Z)
  : Rand (Dec.Decimal * list OrderItem.t * Z) :=
  for_each product_choices (λ product '(line_total, items, order_item_id),
    qty <~ randint 1 3 ;
    unit_price <~ of_option InvalidOperation (Dec.of_string (Product.price product)) ;
    let line_total := Dec.add line_total (Dec.mul_int unit_price qty) in
    let item :=
      OrderItem.mk order_item_id oid (Product.product_id product) qty
                   (money unit_price) in
    ret (line_total, items ++ [item], order_item_id + 1)) acc.

Definition payment_statuses : list (string * N) :=
  [("Completed", 82%N); ("Pending", 12%N); ("Failed", 6%N)]%string.

Definition payment_methods : list string :=
  ["Credit Card"; "Debit Card"; "PayPal"; "Apple Pay"]%string.

(** The body of the loop of [generate_orders] for one [oid]. *)
Definition order_step (today : Z) (users : list User.t) (products : list Product.t)
    (oid : Z) (st : orders_state) : Rand orders_state :=
  let start_window := today - Clock.timedelta_days 120 in
  user <~ choice users ;
  order_date <~ random_date start_window (today - Clock.timedelta_days 1) ;
  k <~ randint 1 (Z.min 4 (Z.of_nat (length products))) ;
  product_choices <~ sample products k ;
  '(line_total, items, order_item_id) <~
     add_items oid product_choices
       (Dec.mkDecimal 0 (-2), st_items st, st_order_item_id st) ;
  let total_amount := money line_total in
  let order :=
    Order.mk oid (User.user_id user) (Clock.day_of order_date) total_amount in
  status <~ choices1 payment_statuses ;
  payment_method <~ choice payment_methods ;
  h <~ randint 1 48 ;
  let paid_at := Clock.second_of (order_date + Clock.timedelta_hours h) in
  let payment :=
    Payment.mk (st_payment_id st) oid total_amount payment_method status paid_at in
  ret (mkState (st_orders st ++ [order]) items (st_payments st ++ [payment])
               order_item_id (st_payment_id st + 1)).

(** [generate_orders(users, products, order_count)]. *)
Definition generate_orders (today : Z) (users : list User.t)
    (products : list Product.t) (order_count : Z)
  : Rand (list Order.t * list OrderItem.t * list Payment.t) :=
  st <~ for_each (range1 order_count) (order_step today users products)
                 (mkState [] [] [] 1 1) ;
  ret (st_orders st, st_items st, st_payments st).

(** The five collections of one run. *)
Record dataset : Type := mkDataset
  { users : list User.t;
    products : list Product.t;
    orders : list Order.t;
    order_items : list OrderItem.t;
    payments : list Payment.t }.

(** The generation part of [main]: users, then products, then orders, with
    the counts of the command line.  [today_users] and [today_orders] are the
    two readings of the clock. *)
Definition generate (today_users today_orders : Z)
    (user_count product_count order_count : Z) : Rand dataset :=
  users <~ generate_users today_users user_count ;
  products <~ generate_products product_count ;
  '(orders, order_items, payments) <~
     generate_orders today_orders users products order_count ;
  ret (mkDataset users products orders order_items payments).

End Generate.

(** ** Exporting the data set: [write_csv], [write_json] and [main] *)

Module Calendar.

(** Year, month and day of a day number counted from 1970-01-01, in the
    proleptic Gregorian calendar that [datetime] uses. *)
Definition civil_from_days (days : Z) : Z * Z * Z :=
  let z := days + 719468 in
  let era := z / 146097 in
  let doe := z - era * 146097 in
  let yoe := (doe - doe / 1460 + doe / 36524 - doe / 146096) / 365 in
  let doy := doe - (365 * yoe + yoe / 4 - yoe / 100) in
  let mp := (5 * doy + 2) / 153 in
  let d := doy - (153 * mp + 2) / 5 + 1 in
  let m := if mp <? 10 then mp + 3 else mp - 9 in
  let y := yoe + era * 400 + (if m <=? 2 then 1 else 0) in
  (y, m, d).

(** Decimal digits of [n], zero-padded on the left to [width]. *)
Definition zfill (width : nat) (n : Z) : string :=
  let s := PyStr.str_int n in
  (string_of_list_ascii (replicate (width - String.length s) "0"%char) ++ s)%string.

(** ["%Y-%m-%d"] of a day number. *)
Definition format_date (day : Z) : string :=
  let '(y, m, d) := civil_from_days day in
  (zfill 4 y ++ "-" ++ zfill 2 m ++ "-" ++ zfill 2 d)%string.

(** ["%Y-%m-%d %H:%M:%S"] of a number of seconds. *)
Definition format_datetime (secs : Z) : string :=
  let day := secs / Clock.seconds_per_day in
  let s := secs mod Clock.seconds_per_day in
  (format_date day ++ " " ++ zfill 2 (s / 3600) ++ ":" ++ zfill 2 (s mod 3600 / 60)
     ++ ":" ++ zfill 2 (s mod 60))%string.

End Calendar.

Module Fs.

(** What a file holds: the records of a delimited file, header first, each a
    list of fields, or the objects of a JSON array.  Quoting and line ends
    are the [csv] module's business: a file is kept as the records that the
    reader gets back, which are the records written when no field holds a
    carriage return and the header is not empty, as is the case of every
    file the generator writes. *)
Inductive content : Type :=
  | CsvFile (records : list (list string))
  | JsonFile (objects : list (list (string * PyStr.value))).

Record t : Type := mk { dirs : gset string; files : gmap string content }.

(** [os.makedirs(path, exist_ok=True)]. *)
Definition makedirs (path : string) (fs : t) : t :=
  mk ({[ path ]} ∪ dirs fs) (files fs).

(** [path.open("w")] followed by the writes: the file is replaced. *)
Definition write (path : string) (c : content) (fs : t) : t :=
  mk (dirs fs) (<[ path := c ]> (files fs)).

End Fs.

Module Exporter.

Import PyStr Fs.

Definition asdict_user (u : User.t) : list (string * value) :=
  [("user_id", VInt (User.user_id u)); ("name", VStr (User.name u));
   ("email", VStr (User.email u)); ("phone", VStr (User.phone u));
   ("created_at", VStr (Calendar.format_date (User.created_at u)))]%string.

Definition asdict_product (p : Product.t) : list (string * value) :=
  [("product_id", VInt (Product.product_id p)); ("name", VStr (Product.name p));
   ("category", VStr (Product.category p)); ("price", VStr (Product.price p));
   ("stock", VInt (Product.stock p))]%string.

Definition asdict_order (o : Order.t) : list (string * value) :=
  [("order_id", VInt (Order.order_id o)); ("user_id", VInt (Order.user_id o));
   ("order_date", VStr (Calendar.format_date (Order.order_date o)));
   ("total_amount", VStr (Order.total_amount o))]%string.

Definition asdict_order_item (i : OrderItem.t) : list (string * value) :=
  [("order_item_id", VInt (OrderItem.order_item_id i));
   ("order_id", VInt (OrderItem.order_id i));
   ("product_id", VInt (OrderItem.product_id i));
   ("quantity", VInt (OrderItem.quantity i));
   ("unit_price", VStr (OrderItem.unit_price i))]%string.

Definition asdict_payment (p : Payment.t) : list (string * value) :=
  [("payment_id", VInt (Payment.payment_id p)); ("order_id", VInt (Payment.order_id p));
   ("amount", VStr (Payment.amount p)); ("method", VStr (Payment.method p));
   ("status", VStr (Payment.status p));
   ("paid_at", VStr (Calendar.format_datetime (Payment.paid_at p)))]%string.

Fixpoint dict_get (key : string) (d : list (string * value)) : option value :=
  match d with
  | [] => None
  | (k, v) :: rest => if String.eqb k key then Some v else dict_get key rest
  end.

(** [writer.writerow(d)]: the fields of [d] in the order of [fieldnames].
    This is the call on a row whose keys are among [fieldnames], as the keys
    of the five dataclasses are: on a row with another key [DictWriter]
    raises [ValueError], which is not modelled. *)
Definition writerow (fieldnames : list string) (d : list (string * value)) : list string :=
  (λ f, from_option str_value EmptyString (dict_get f d)) <$> fieldnames.

(** [write_csv(path, rows, fieldnames)], on rows already passed to [asdict]. *)
Definition write_csv (path : string) (rows : list (list (string * value)))
    (fieldnames : list string) (fs : Fs.t) : Fs.t :=
  write path (CsvFile (fieldnames :: (writerow fieldnames <$> rows))) fs.

(** [write_json(path, rows)]. *)
Definition write_json (path : string) (rows : list (list (string * value)))
    (fs : Fs.t) : Fs.t :=
  write path (JsonFile rows) fs.

Definition data_dir : string := "data".

Definition users_fields : list string :=
  ["user_id"; "name"; "email"; "phone"; "created_at"]%string.
Definition products_fields : list string :=
  ["product_id"; "name"; "category"; "price"; "stock"]%string.
Definition orders_fields : list string :=
  ["order_id"; "user_id"; "order_date"; "total_amount"]%string.
Definition order_items_fields : list string :=
  ["order_item_id"; "order_id"; "product_id"; "quantity"; "unit_price"]%string.
Definition payments_fields : list string :=
  ["payment_id"; "order_id"; "amount"; "method"; "status"; "paid_at"]%string.

(** The command line of the generator. *)
Record args : Type := mkArgs
  { arg_users : Z; arg_products : Z; arg_orders : Z; arg_json : bool }.

Definition default_args : args := mkArgs 25 15 40 false.

Definition write_all_csv (ds : Generate.dataset) (fs : Fs.t) : Fs.t :=
  let fs := write_csv "data/users.csv" (asdict_user <$> Generate.users ds) users_fields fs in
  let fs := write_csv "data/products.csv" (asdict_product <$> Generate.products ds)
                      products_fields fs in
  let fs := write_csv "data/orders.csv" (asdict_order <$> Generate.orders ds)
                      orders_fields fs in
  let fs := write_csv "data/order_items.csv" (asdict_order_item <$> Generate.order_items ds)
                      order_items_fields fs in
  write_csv "data/payments.csv" (asdict_payment <$> Generate.payments ds) payments_fields fs.

Definition write_all_json (ds : Generate.dataset) (fs : Fs.t) : Fs.t :=
  let fs := write_json "data/users.json" (asdict_user <$> Generate.users ds) fs in
  let fs := write_json "data/products.json" (asdict_product <$> Generate.products ds) fs in
  let fs := write_json "data/orders.json" (asdict_order <$> Generate.orders ds) fs in
  let fs := write_json "data/order_items.json" (asdict_order_item <$> Generate.order_items ds) fs in
  write_json "data/payments.json" (asdict_payment <$> Generate.payments ds) fs.

(** [main()] of the generator: the final file system and either the line
    printed (with the directory as named, not resolved) or the exception
    that ended the run. *)
Definition main (a : args) (today_users today_orders : Z) (tape : list N) (fs : Fs.t)
  : Fs.t * result string :=
  let fs := makedirs data_dir fs in
  match Generate.generate today_users today_orders
          (arg_users a) (arg_products a) (arg_orders a) tape with
  | Raise e => (fs, Raise e)
  | Ok (ds, _) =>
      let fs := write_all_csv ds fs in
      let fs := if arg_json a then write_all_json ds fs else fs in
      (fs, Ok ("Data written to " ++ data_dir)%string)
  end.

End Exporter.

(** ** The relational store

    The five tables of [ensure_tables], rows as the tuples the loader binds.
    A [REAL] column holds a value of type [real]: binary floating point is
    not interpreted here, the conversions [float(text)] and
    [printf('%.2f', x)] are parameters of the loader and of the report. *)

Definition and_then {A B} (m : result A) (f : A → result B) : result B :=
  match m with Ok x => f x | Raise e => Raise e end.

Notation "x <- m ; k" := (and_then m (λ x, k))
  (at level 20, m at level 100, k at level 200, only parsing).

Module Db.

Section Store.

Variable real : Type.

Definition users_row : Type := Z * string * string * string * string.
Definition products_row : Type := Z * string * string * real * Z.
Definition orders_row : Type := Z * Z * string * real.
Definition order_items_row : Type := Z * Z * Z * Z * real.
Definition payments_row : Type := Z * Z * real * string * string * string.

Record store : Type := mkStore
  { users : list users_row;
    products : list products_row;
    orders : list orders_row;
    order_items : list order_items_row;
    payments : list payments_row }.

Definition empty : store := mkStore [] [] [] [] [].

Definition users_key (r : users_row) : Z := let '(k, _, _, _, _) := r in k.
Definition products_key (r : products_row) : Z := let '(k, _, _, _, _) := r in k.
Definition orders_key (r : orders_row) : Z := let '(k, _, _, _) := r in k.
Definition orders_user (r : orders_row) : Z := let '(_, u, _, _) := r in u.
Definition order_items_key (r : order_items_row) : Z := let '(k, _, _, _, _) := r in k.
Definition order_items_order (r : order_items_row) : Z := let '(_, o, _, _, _) := r in o.
Definition order_items_product (r : order_items_row) : Z := let '(_, _, p, _, _) := r in p.
Definition payments_key (r : payments_row) : Z := let '(k, _, _, _, _, _) := r in k.
Definition payments_order (r : payments_row) : Z := let '(_, o, _, _, _, _) := r in o.

Definition has_key {R} (key : R → Z) (k : Z) (rows : list R) : bool :=
  existsb (λ r, key r =? k) rows.

Definition unique_failed (column : string) : exn :=
  IntegrityError ("UNIQUE constraint failed: " ++ column).
Definition foreign_key_failed : exn :=
  IntegrityError "FOREIGN KEY constraint failed".

(** One [INSERT] per table: the primary key must be new and, with
    [PRAGMA foreign_keys = ON], every reference must resolve.  The values
    bound are integers that fit 64 bits and text, none of them [NULL], as
    the loader binds them for the files of the generator: [OverflowError]
    beyond 64 bits and the [NOT NULL] constraints are not modelled. *)
Definition insert_user (r : users_row) (s : store) : result store :=
  if has_key users_key (users_key r) (users s) then Raise (unique_failed "users.user_id")
  else Ok (mkStore (users s ++ [r]) (products s) (orders s) (order_items s) (payments s)).

Definition insert_product (r : products_row) (s : store) : result store :=
  if has_key products_key (products_key r) (products s)
  then Raise (unique_failed "products.product_id")
  else Ok (mkStore (users s) (products s ++ [r]) (orders s) (order_items s) (payments s)).

Definition insert_order (r : orders_row) (s : store) : result store :=
  if has_key orders_key (orders_key r) (orders s) then Raise (unique_failed "orders.order_id")
  else if negb (has_key users_key (orders_user r) (users s)) then Raise foreign_key_failed
  else Ok (mkStore (users s) (products s) (orders s ++ [r]) (order_items s) (payments s)).

Definition insert_order_item (r : order_items_row) (s : store) : result store :=
  if has_key order_items_key (order_items_key r) (order_items s)
  then Raise (unique_failed "order_items.order_item_id")
  else if negb (has_key orders_key (order_items_order r) (orders s)
                && has_key products_key (order_items_product r) (products s))
  then Raise foreign_key_failed
  else Ok (mkStore (users s) (products s) (orders s) (order_items s ++ [r]) (payments s)).

Definition insert_payment (r : payments_row) (s : store) : result store :=
  if has_key payments_key (payments_key r) (payments s)
  then Raise (unique_failed "payments.payment_id")
  else if negb (has_key orders_key (payments_order r) (orders s)) then Raise foreign_key_failed
  else Ok (mkStore (users s) (products s) (orders s) (order_items s) (payments s ++ [r])).

Inductive table : Type := Users | Products | Orders | OrderItems | Payments.

(** [DELETE FROM table]: every row goes, unless a row of another table still
    references one of them. *)
Definition delete_from (t : table) (s : store) : result store :=
  match t with
  | Payments => Ok (mkStore (users s) (products s) (orders s) (order_items s) [])
  | OrderItems => Ok (mkStore (users s) (products s) (orders s) [] (payments s))
  | Orders =>
      if existsb (λ r, has_key orders_key (order_items_order r) (orders s)) (order_items s)
         || existsb (λ r, has_key orders_key (payments_order r) (orders s)) (payments s)
      then Raise foreign_key_failed
      else Ok (mkStore (users s) (products s) [] (order_items s) (payments s))
  | Products =>
      if existsb (λ r, has_key products_key (order_items_product r) (products s)) (order_items s)
      then Raise foreign_key_failed
      else Ok (mkStore (users s) [] (orders s) (order_items s) (payments s))
  | Users =>
      if existsb (λ r, has_key users_key (orders_user r) (users s)) (orders s)
      then Raise foreign_key_failed
      else Ok (mkStore [] (products s) (orders s) (order_items s) (payments s))
  end.

(** A connection: what is committed to the database file, and the view of
    the open transaction.  Only [commit] makes the view durable; a process
    that ends on an exception leaves [durable]. *)
Record conn : Type := mkConn { durable : store; pending : store }.

(** [sqlite3.connect(path)]: a missing file is created as an empty database;
    [ensure_tables] then gives it the five (empty) tables. *)
Definition connect (file : option store) : conn :=
  let s := default empty file in mkConn s s.

Definition commit (c : conn) : conn := mkConn (pending c) (pending c).

End Store.

Arguments mkStore {real}.
Arguments users {real}.
Arguments products {real}.
Arguments orders {real}.
Arguments order_items {real}.
Arguments payments {real}.
Arguments empty {real}.
Arguments mkConn {real}.
Arguments durable {real}.
Arguments pending {real}.
Arguments connect {real}.
Arguments commit {real}.
Arguments delete_from {real}.
Arguments insert_user {real}.
Arguments insert_product {real}.
Arguments insert_order {real}.
Arguments insert_order_item {real}.
Arguments insert_payment {real}.

End Db.

(** ** [ingest_to_sqlite.py] *)

Module Ingest.

Section Loader.

Variable real : Type.
(** The builtins [int(text)] and [float(text)]; [None] is [ValueError]. *)
Variable py_int : string → option Z.
Variable py_float : string → option real.

Definition DATA_DIR : string := "data".

Definition int (s : string) : result Z :=
  match py_int s with
  | Some n => Ok n
  | None => Raise (ValueError ("invalid literal for int() with base 10: " ++ s))
  end.

Definition float (s : string) : result real :=
  match py_float s with
  | Some x => Ok x
  | None => Raise (ValueError ("could not convert string to float: " ++ s))
  end.

(** [ensure_tables(conn)]: [CREATE TABLE IF NOT EXISTS] touches no row; the
    function commits. *)
Definition ensure_tables (c : Db.conn real) : Db.conn real := Db.commit c.

(** [clear_tables(conn)]: delete children before parents, then commit. *)
Definition clear_tables (c : Db.conn real) : result (Db.conn real) :=
  s <- foldl (λ acc t, s <- acc; Db.delete_from t s) (Ok (Db.pending c))
        [Db.Payments; Db.OrderItems; Db.Orders; Db.Products; Db.Users];
  Ok (Db.commit (Db.mkConn (Db.durable c) s)).

(** [path.open()] and [csv.DictReader(f)]: one dict per record after the
    header.  This is the reader on records as wide as the header and not
    blank, as the exporter writes them: [DictReader] fills a shorter record
    with [None] and skips a blank one, which is not modelled (a missing key
    is a [KeyError] here).  A JSON document read as delimited text is
    outside the model (no row). *)
Definition dict_reader (fs : Fs.t) (path : string) : result (list (gmap string string)) :=
  match Fs.files fs !! path with
  | None => Raise (FileNotFoundError path)
  | Some (Fs.CsvFile []) => Ok []
  | Some (Fs.CsvFile (header :: records)) =>
      Ok ((λ r, list_to_map (zip header r)) <$> records)
  | Some (Fs.JsonFile _) => Ok []
  end.

(** [row[key]]. *)
Definition get (row : gmap string string) (key : string) : result string :=
  match row !! key with
  | Some v => Ok v
  | None => Raise (KeyError key)
  end.

(** The five generators.  Each yields its tuples lazily: the file is opened
    when the first tuple is asked for, and a row is converted when its turn
    comes; hence a list of results inside a result. *)
Definition load_users (fs : Fs.t) (path : string) : result (list (result (Db.users_row))) :=
  rows <- dict_reader fs path;
  Ok ((λ row,
         user_id <- and_then (get row "user_id") int;
         name <- get row "name";
         email <- get row "email";
         phone <- get row "phone";
         created_at <- get row "created_at";
         Ok (user_id, name, email, phone, created_at)) <$> rows).

Definition load_products (fs : Fs.t) (path : string)
  : result (list (result (Db.products_row real))) :=
  rows <- dict_reader fs path;
  Ok ((λ row,
         product_id <- and_then (get row "product_id") int;
         name <- get row "name";
         category <- get row "category";
         price <- and_then (get row "price") float;
         stock <- and_then (get row "stock") int;
         Ok (product_id, name, category, price, stock)) <$> rows).

Definition load_orders (fs : Fs.t) (path : string)
  : result (list (result (Db.orders_row real))) :=
  rows <- dict_reader fs path;
  Ok ((λ row,
         order_id <- and_then (get row "order_id") int;
         user_id <- and_then (get row "user_id") int;
         order_date <- get row "order_date";
         total_amount <- and_then (get row "total_amount") float;
         Ok (order_id, user_id, order_date, total_amount)) <$> rows).

Definition load_order_items (fs : Fs.t) (path : string)
  : result (list (result (Db.order_items_row real))) :=
  rows <- dict_reader fs path;
  Ok ((λ row,
         order_item_id <- and_then (get row "order_item_id") int;
         order_id <- and_then (get row "order_id") int;
         product_id <- and_then (get row "product_id") int;
         quantity <- and_then (get row "quantity") int;
         unit_price <- and_then (get row "unit_price") float;
         Ok (order_item_id, order_id, product_id, quantity, unit_price)) <$> rows).

Definition load_payments (fs : Fs.t) (path : string)
  : result (list (result (Db.payments_row real))) :=
  rows <- dict_reader fs path;
  Ok ((λ row,
         payment_id <- and_then (get row "payment_id") int;
         order_id <- and_then (get row "order_id") int;
         amount <- and_then (get row "amount") float;
         method <- get row "method";
         status <- get row "status";
         paid_at <- get row "paid_at";
         Ok (payment_id, order_id, amount, method, status, paid_at)) <$> rows).

(** [cur.executemany(sql, rows)]: pull a tuple, insert it, repeat. *)
Fixpoint insert_each {R} (insert : R → Db.store real → result (Db.store real))
    (rows : list (result R)) (s : Db.store real) : result (Db.store real) :=
  match rows with
  | [] => Ok s
  | r :: rest => row <- r; s' <- insert row s; insert_each insert rest s'
  end.

Definition executemany {R} (insert : R → Db.store real → result (Db.store real))
    (rows : result (list (result R))) (s : Db.store real) : result (Db.store real) :=
  rs <- rows; insert_each insert rs s.

(** The five [executemany] calls of [main], in order. *)
Definition insert_all (fs : Fs.t) (s : Db.store real) : result (Db.store real) :=
  s <- executemany Db.insert_user (load_users fs "data/users.csv") s;
  s <- executemany Db.insert_product (load_products fs "data/products.csv") s;
  s <- executemany Db.insert_order (load_orders fs "data/orders.csv") s;
  s <- executemany Db.insert_order_item (load_order_items fs "data/order_items.csv") s;
  executemany Db.insert_payment (load_payments fs "data/payments.csv") s.

Definition count_line (table : string) (n : nat) : string :=
  ("  " ++ table ++ ": " ++ PyStr.str_int (Z.of_nat n))%string.

(** [main()] of the loader: the database file when the process ends, and
    either the lines printed or the exception that ended the run. *)
Definition main (fs : Fs.t) (db : option (Db.store real))
  : option (Db.store real) * result (list string) :=
  if negb (bool_decide (DATA_DIR ∈ Fs.dirs fs))
  then (db, Raise (SystemExit ("Data directory not found at " ++ DATA_DIR)))
  else
    let conn := ensure_tables (Db.connect db) in
    match clear_tables conn with
    | Raise e => (Some (Db.durable conn), Raise e)
    | Ok conn =>
        match insert_all fs (Db.pending conn) with
        | Raise e => (Some (Db.durable conn), Raise e)
        | Ok s =>
            let conn := Db.commit (Db.mkConn (Db.durable conn) s) in
            let s := Db.durable conn in
            (Some s,
             Ok ["Rows inserted:"%string;
                 count_line "users" (length (Db.users s));
                 count_line "products" (length (Db.products s));
                 count_line "orders" (length (Db.orders s));
                 count_line "order_items" (length (Db.order_items s));
                 count_line "payments" (length (Db.payments s))])
        end
    end.

End Loader.

End Ingest.

(** ** [run_queries.py] *)

Module Report.

Import PyStr.

Definition index_error : exn := IndexError "list index out of range".

(** [widths[idx] = max(widths[idx], len(col))]. *)
Definition widen (widths : list nat) (idx : nat) (col : string) : result (list nat) :=
  match widths !! idx with
  | Some w => Ok (<[idx := Nat.max w (String.length col)]> widths)
  | None => Raise index_error
  end.

(** [for idx, col in enumerate(row): ...], from position [idx] on. *)
Fixpoint widen_row (row : list string) (idx : nat) (widths : list nat)
  : result (list nat) :=
  match row with
  | [] => Ok widths
  | col :: rest => widths' <- widen widths idx col; widen_row rest (S idx) widths'
  end.

(** [for row in str_rows: ...]. *)
Fixpoint widen_rows (str_rows : list (list string)) (widths : list nat)
  : result (list nat) :=
  match str_rows with
  | [] => Ok widths
  | row :: rest => widths' <- widen_row row 0 widths; widen_rows rest widths'
  end.

(** [col.ljust(widths[idx]) for idx, col in enumerate(row)], from [idx] on. *)
Fixpoint fmt_cells (widths : list nat) (idx : nat) (row : list string)
  : result (list string) :=
  match row with
  | [] => Ok []
  | col :: rest =>
      match widths !! idx with
      | Some w => cells <- fmt_cells widths (S idx) rest; Ok (ljust col w :: cells)
      | None => Raise index_error
      end
  end.

Definition fmt_row (widths : list nat) (row : list string) : result string :=
  cells <- fmt_cells widths 0 row; Ok (join " | " cells).

Fixpoint fmt_rows (widths : list nat) (str_rows : list (list string))
  : result (list string) :=
  match str_rows with
  | [] => Ok []
  | row :: rest =>
      line <- fmt_row widths row; lines <- fmt_rows widths rest; Ok (line :: lines)
  end.

(** ["-" * w]. *)
Definition dashes (w : nat) : string := string_of_list_ascii (replicate w "-"%char).

Definition newline : string := String (ascii_of_nat 10) EmptyString.

(** [format_table(headers, rows)]. *)
Definition format_table (headers : list string) (rows : list (list value))
  : result string :=
  let str_rows : list (list string) := (λ row : list value, str_value <$> row) <$> rows in
  widths <- widen_rows str_rows (String.length <$> headers);
  let divider := join "-+-" (dashes <$> widths) in
  head <- fmt_row widths headers;
  body <- fmt_rows widths str_rows;
  Ok (join newline (head :: divider :: body)).

Section Query.

Variable real : Type.
(** SQLite's [printf('%.2f', x)] on a [REAL]. *)
Variable printf_2f : real → string.

(** The sort key [u.user_id, o.order_id, oi.order_item_id]. *)
Definition key : Type := Z * Z * Z.

Definition key_le (a b : key) : bool :=
  let '(a1, a2, a3) := a in
  let '(b1, b2, b3) := b in
  (a1 <? b1) || ((a1 =? b1) && ((a2 <? b2) || ((a2 =? b2) && (a3 <=? b3)))).

Fixpoint insert_sorted {A} (x : key * A) (l : list (key * A)) : list (key * A) :=
  match l with
  | [] => [x]
  | y :: rest => if key_le x.1 y.1 then x :: l else y :: insert_sorted x rest
  end.

(** [ORDER BY]: a stable insertion sort on the key.  SQLite leaves the order
    of rows with equal keys open; two rows of the join share their key only
    when an order has several payments, and the order given here to such
    rows is one of those SQLite may return. *)
Definition order_by {A} (l : list (key * A)) : list (key * A) :=
  foldr insert_sorted [] l.

(** [LEFT JOIN payments pay ON pay.order_id = o.order_id]: the matching
    payments, or one absent payment when there is none. *)
Definition left_join_payments (s : Db.store real) (order_id : Z)
  : list (option (Db.payments_row real)) :=
  match filter (λ pay, Db.payments_order real pay = order_id) (Db.payments s) with
  | [] => [None]
  | ps => Some <$> ps
  end.

(** [COALESCE(x, 'N/A')]. *)
Definition coalesce (x : option string) : string := default "N/A"%string x.

(** The joined rows of the query of [fetch_report], each with its sort key. *)
Definition joined (s : Db.store real) : list (key * list value) :=
  '(order_item_id, oi_order, oi_product, quantity, unit_price) ← Db.order_items s;
  '(order_id, o_user, _, total_amount) ←
     filter (λ o, Db.orders_key real o = oi_order) (Db.orders s);
  '(user_id, name, _, _, _) ← filter (λ u, Db.users_key u = o_user) (Db.users s);
  '(_, product_name, _, _, _) ←
     filter (λ p, Db.products_key real p = oi_product) (Db.products s);
  pay ← left_join_payments s order_id;
  [((user_id, order_id, order_item_id),
    [VInt user_id; VStr name; VInt order_id; VStr product_name; VInt quantity;
     VStr (printf_2f unit_price); VStr (printf_2f total_amount);
     VStr (coalesce ((λ p, let '(_, _, _, _, status, _) := p in status) <$> pay));
     VStr (coalesce ((λ p, let '(_, _, _, method, _, _) := p in method) <$> pay))])].

(** [fetch_report(conn)]. *)
Definition fetch_report (s : Db.store real) : list (list value) :=
  snd <$> order_by (joined s).

Definition headers : list string :=
  ["user_id"; "name"; "order_id"; "product_name"; "quantity"; "unit_price";
   "total_amount"; "payment_status"; "payment_method"]%string.

Definition no_data_message : string :=
  "No data found. Verify the database has been populated.".

(** [main()] of the report: what is printed, one entry per [print], or the
    exception that ended the run.  [db] is the database file, if any. *)
Definition main (db : option (Db.store real)) : result (list string) :=
  match db with
  | None => Raise (SystemExit "Database not found. Run ingest_to_sqlite.py first.")
  | Some s =>
      let rows := fetch_report s in
      match rows with
      | [] => Ok [no_data_message]
      | _ => table <- format_table headers rows; Ok [table]
      end
  end.

End Query.

End Report.

(** ** The properties of a data set, in the words of the specification *)

Module Spec.

(** The line items and the payments that share the id of an order. *)
Definition items_of (ds : Generate.dataset) (o : Order.t) : list OrderItem.t :=
  filter (λ it, OrderItem.order_id it = Order.order_id o) (Generate.order_items ds).

Definition payments_of (ds : Generate.dataset) (o : Order.t) : list Payment.t :=
  filter (λ p, Payment.order_id p = Order.order_id o) (Generate.payments ds).

(** [round(item.unit_price * item.quantity, 2)], half up. *)
Definition item_amount (it : OrderItem.t) : option Dec.Decimal :=
  d ← Dec.of_string (OrderItem.unit_price it);
  Some (Dec.quantize (Dec.mul_int d (OrderItem.quantity it))).

(** [sum(...)], starting from the int 0 as Python's [sum] does. *)
Definition decimal_sum (ds : list Dec.Decimal) : Dec.Decimal :=
  foldl Dec.add (Dec.mkDecimal 0 0) ds.

(** [round(sum(round(item.unit_price * item.quantity, 2) for item in items), 2)]
    as a money string; [None] when a unit price is not a decimal. *)
Definition order_total (items : list OrderItem.t) : option string :=
  amounts ← mapM item_amount items;
  Some (money (decimal_sum amounts)).

(** "paid_at is later than the recorded order_date by 1 to 48 hours": the
    recorded date is a day, taken at its midnight; [paid_at] is in seconds. *)
Definition paid_within_48_hours (ds : Generate.dataset) : Prop :=
  ∀ o p, o ∈ Generate.orders ds → p ∈ Generate.payments ds →
    Payment.order_id p = Order.order_id o →
    1 * Clock.seconds_per_hour
    ≤ Payment.paid_at p - Order.order_date o * Clock.seconds_per_day
    ≤ 48 * Clock.seconds_per_hour.

(** The rendered cells: [str] of every value of every row. *)
Definition rendered (rows : list (list PyStr.value)) : list (list string) :=
  (λ row : list PyStr.value, PyStr.str_value <$> row) <$> rows.

(** The fixed-width table, column by column.  The cells of column [i]: the
    cell at position [i] of every row that has one. *)
Definition column (i : nat) (str_rows : list (list string)) : list string :=
  omap (λ row : list string, row !! i) str_rows.

(** The width of a column: the maximum of the length of its header and of
    the lengths of its cells. *)
Definition column_width (header : string) (cells : list string) : nat :=
  max_list (String.length header :: (String.length <$> cells)).

Definition widths (headers : list string) (str_rows : list (list string)) : list nat :=
  imap (λ i header, column_width header (column i str_rows)) headers.

(** A line: every cell left-justified to the width of its column, the cells
    separated by [" | "]. *)
Definition line (ws : list nat) (row : list string) : string :=
  PyStr.join " | " (zip_with PyStr.ljust row ws).

(** The divider: one run of dashes per column, as long as the column is
    wide, the runs joined by ["-+-"]. *)
Definition divider (ws : list nat) : string :=
  PyStr.join "-+-" ((λ w, string_of_list_ascii (replicate w "-"%char)) <$> ws).

(** The table: the header line, the divider, then one line per row. *)
Definition fixed_width_table (headers : list string) (str_rows : list (list string))
  : string :=
  let ws := widths headers str_rows in
  PyStr.join Report.newline (line ws headers :: divider ws :: (line ws <$> str_rows)).

(** [ORDER BY u.user_id, o.order_id, oi.order_item_id]: the first key comes
    strictly before the second. *)
Definition key_before (a b : Report.key) : Prop :=
  a.1.1 < b.1.1 ∨ (a.1.1 = b.1.1 ∧ (a.1.2 < b.1.2 ∨ (a.1.2 = b.1.2 ∧ a.2 < b.2))).

(** The report row of a generated line item: the user who placed its order,
    the order, the product, the quantity, the unit price and the order total
    as generated, and the status and method of the payment. *)
Definition report_row (it : OrderItem.t) (o : Order.t) (u : User.t) (p : Product.t)
    (y : Payment.t) : list PyStr.value :=
  [PyStr.VInt (User.user_id u); PyStr.VStr (User.name u);
   PyStr.VInt (Order.order_id o); PyStr.VStr (Product.name p);
   PyStr.VInt (OrderItem.quantity it); PyStr.VStr (OrderItem.unit_price it);
   PyStr.VStr (Order.total_amount o); PyStr.VStr (Payment.status y);
   PyStr.VStr (Payment.method y)].

(** [row] reproduces the line item [it] of the data set: it is the report
    row of [it] with its order, the user of the order, its product and the
    payment of the order. *)
Definition reproduces (ds : Generate.dataset) (it : OrderItem.t)
    (row : list PyStr.value) : Prop :=
  ∃ o u p y,
    o ∈ Generate.orders ds ∧ Order.order_id o = OrderItem.order_id it ∧
    u ∈ Generate.users ds ∧ User.user_id u = Order.user_id o ∧
    p ∈ Generate.products ds ∧ Product.product_id p = OrderItem.product_id it ∧
    y ∈ Generate.payments ds ∧ Payment.order_id y = Order.order_id o ∧
    row = report_row it o u p y.

(** A data set that some run of the generator returns. *)
Definition generated (ds : Generate.dataset) : Prop :=
  ∃ today_users today_orders user_count product_count order_count tape tape',
    Generate.generate today_users today_orders user_count product_count order_count tape
    = Ok (ds, tape').

End Spec.

(** ** Invariants of the loop of [generate_orders] *)

Module Inv.

Import Generate.

(** A money string of between [lo] and [hi] cents. *)
Definition priced (lo hi : Z) (s : string) : Prop :=
  ∃ c, lo ≤ c ≤ hi ∧ s = Dec.str_cents c.

(** The cents a money string stands for. *)
Definition cents_of (s : string) : Z :=
  from_option Dec.coef 0 (Dec.of_string s).

(** Cents of a list of line items: the sum of unit price times quantity. *)
Definition items_cents (its : list OrderItem.t) : Z :=
  foldr (λ it acc, cents_of (OrderItem.unit_price it) * OrderItem.quantity it + acc) 0 its.

Definition wf_products (products : list Product.t) : Prop :=
  Forall (λ p, priced 2000 120000 (Product.price p)) products ∧
  NoDup (Product.product_id <$> products).

(** The line item that [add_items] makes of a chosen product. *)
Definition item_for (oid : Z) (p : Product.t) (it : OrderItem.t) : Prop :=
  OrderItem.order_id it = oid ∧
  OrderItem.product_id it = Product.product_id p ∧
  OrderItem.unit_price it = Product.price p ∧
  1 ≤ OrderItem.quantity it ≤ 3.

(** An order together with its own line items. *)
Definition order_ok (products : list Product.t) (o : Order.t) (its : list OrderItem.t) : Prop :=
  (1 ≤ length its ≤ 4)%nat ∧
  (length its ≤ length products)%nat ∧
  NoDup (OrderItem.product_id <$> its) ∧
  Forall (λ it, ∃ p, p ∈ products ∧ item_for (Order.order_id o) p it) its ∧
  Order.total_amount o = Dec.str_cents (items_cents its).

(** An order together with its payment. *)
Definition pay_ok (o : Order.t) (p : Payment.t) : Prop :=
  Payment.order_id p = Order.order_id o ∧
  Payment.amount p = Order.total_amount o ∧
  ∃ h t, 1 ≤ h ≤ 48 ∧ 0 ≤ t < Clock.seconds_per_day ∧
         Payment.paid_at p
         = Order.order_date o * Clock.seconds_per_day + t + h * Clock.seconds_per_hour.

(** What one turn of the loop adds to the state. *)
Definition step_rel (users : list User.t) (products : list Product.t) (oid : Z)
    (st st' : orders_state) : Prop :=
  ∃ o its p,
    st_orders st' = st_orders st ++ [o] ∧
    st_items st' = st_items st ++ its ∧
    st_payments st' = st_payments st ++ [p] ∧
    st_payment_id st' = st_payment_id st + 1 ∧
    st_order_item_id st' = st_order_item_id st + Z.of_nat (length its) ∧
    OrderItem.order_item_id <$> its = seqZ (st_order_item_id st) (Z.of_nat (length its)) ∧
    Order.order_id o = oid ∧
    Order.user_id o ∈ User.user_id <$> users ∧
    Payment.payment_id p = st_payment_id st ∧
    order_ok products o its ∧
    pay_ok o p.

(** The state after the orders [pre] have been generated. *)
Definition loop_inv (users : list User.t) (products : list Product.t)
    (pre : list Z) (st : orders_state) : Prop :=
  Order.order_id <$> st_orders st = pre ∧
  Forall2 pay_ok (st_orders st) (st_payments st) ∧
  Payment.payment_id <$> st_payments st = seqZ 1 (Z.of_nat (length pre)) ∧
  st_payment_id st = 1 + Z.of_nat (length pre) ∧
  OrderItem.order_item_id <$> st_items st = seqZ 1 (Z.of_nat (length (st_items st))) ∧
  st_order_item_id st = 1 + Z.of_nat (length (st_items st)) ∧
  Forall (λ o, Order.user_id o ∈ User.user_id <$> users) (st_orders st) ∧
  Forall (λ it, OrderItem.order_id it ∈ pre) (st_items st) ∧
  Forall (λ o, order_ok products o
                 (filter (λ it, OrderItem.order_id it = Order.order_id o) (st_items st)))
         (st_orders st).


(** What a successful run of [generate] returns. *)
Definition run_ok (user_count product_count order_count : Z) (ds : dataset) : Prop :=
  User.user_id <$> users ds = range1 user_count ∧
  wf_products (products ds) ∧
  length (products ds) = Z.to_nat product_count ∧
  ∃ st, loop_inv (users ds) (products ds) (range1 order_count) st ∧
        orders ds = st_orders st ∧
        order_items ds = st_items st ∧
        payments ds = st_payments st.

End Inv.

(** ** Field ranges of orders and payments *)

Module Fields.

(** The window of [order_date]: 120 days to 1 day before the run. *)
Definition order_fields_ok (today : Z) (o : Order.t) : Prop :=
  Clock.day_of today - 120 ≤ Order.order_date o ≤ Clock.day_of today - 1.

(** The values of [status] and [method]. *)
Definition payment_fields_ok (p : Payment.t) : Prop :=
  Payment.status p ∈ ["Completed"; "Pending"; "Failed"]%string ∧
  Payment.method p ∈ ["Credit Card"; "Debit Card"; "PayPal"; "Apple Pay"]%string.

End Fields.

(** ** Integrity of a store *)

Module Integrity.

Section Store.

Variable real : Type.

(** No two rows of a table share their primary key. *)
Definition keys_unique (s : Db.store real) : Prop :=
  NoDup (Db.users_key <$> Db.users s) ∧
  NoDup (Db.products_key real <$> Db.products s) ∧
  NoDup (Db.orders_key real <$> Db.orders s) ∧
  NoDup (Db.order_items_key real <$> Db.order_items s) ∧
  NoDup (Db.payments_key real <$> Db.payments s).

(** Every foreign key is the primary key of a row of the table it
    references. *)
Definition references_ok (s : Db.store real) : Prop :=
  Forall (λ r, Db.orders_user real r ∈ Db.users_key <$> Db.users s) (Db.orders s) ∧
  Forall (λ r, Db.order_items_order real r ∈ Db.orders_key real <$> Db.orders s ∧
               Db.order_items_product real r ∈ Db.products_key real <$> Db.products s)
         (Db.order_items s) ∧
  Forall (λ r, Db.payments_order real r ∈ Db.orders_key real <$> Db.orders s)
         (Db.payments s).

Definition consistent (s : Db.store real) : Prop := keys_unique s ∧ references_ok s.

End Store.

End Integrity.

(** ** Sample runs *)

Module Examples.

Import Generate.

Definition empty_dataset : dataset := mkDataset [] [] [] [] [].

Definition dataset_of (r : result (dataset * list N)) : dataset :=
  match r with Ok (ds, _) => ds | Raise _ => empty_dataset end.

Definition rest_of (r : result (dataset * list N)) : list N :=
  match r with Ok (_, rest) => rest | Raise _ => [] end.

(** A tape from a linear congruential generator. *)
Fixpoint lcg (n : nat) (x : N) : list N :=
  match n with
  | O => []
  | S n' =>
      (x / 8)%N
      :: lcg n' ((x * 6364136223846793005 + 1442695040888963407) mod 2 ^ 64)%N
  end.

(** Two users, three products, three orders, from 2025-11-04 00:00:00.123456. *)
Definition tape1 : list N := lcg 80 42.

Definition now1 : Z := 1762214400123456.

Definition run1 : result (dataset * list N) :=
  Eval vm_compute in generate now1 now1 2 3 3 tape1.

Definition ds1 : dataset := Eval vm_compute in dataset_of run1.
Definition rest1 : list N := Eval vm_compute in rest_of run1.
Definition order1 : Order.t := Eval vm_compute in default (Order.mk 0 0 0 "") (head (orders ds1)).

(** One user, one product, one order placed at 23:59:59 (and 123456
    microseconds) and paid 48 hours later. *)
Definition tape_late : list N :=
  [0; 0; 0; 0; 0; 0; 0; 0; 0; 0; 0; 86399; 0; 0; 0; 0; 0; 47]%N.

Definition run_late : result (dataset * list N) :=
  Eval vm_compute in generate now1 now1 1 1 1 tape_late.

Definition ds_late : dataset := Eval vm_compute in dataset_of run_late.
Definition order_late : Order.t :=
  Eval vm_compute in default (Order.mk 0 0 0 "") (head (orders ds_late)).
Definition payment_late : Payment.t :=
  Eval vm_compute in default (Payment.mk 0 0 "" "" "" 0) (head (payments ds_late)).

(** A store left by an earlier load. *)
Definition old_store {real} : Db.store real :=
  Db.mkStore [(1, "Ava Thompson", "ava.thompson1@example.com", "555-200-1000",
               "2025-01-01")]%string [] [] [] [].

(** The export of [ds1], and the same without [payments.csv]. *)
Definition fs1 : Fs.t :=
  Eval vm_compute in
    (Exporter.main (Exporter.mkArgs 2 3 3 false) now1 now1 tape1 (Fs.mk ∅ ∅)).1.

Definition fs1_without_payments : Fs.t :=
  Eval vm_compute in Fs.mk (Fs.dirs fs1) (delete "data/payments.csv"%string (Fs.files fs1)).

(** Stand-ins for [int] and [float] on the text the exporter writes: digits,
    and a [REAL] that keeps the decimal value. *)
Definition int_of_digits (s : string) : option Z :=
  if String.eqb s "" then None else PyStr.read_digits s 0.

Definition decimal_float (s : string) : option Dec.Decimal := Dec.of_string s.

Definition decimal_printf_2f (x : Dec.Decimal) : string := money x.

(** The store and the output of loading [fs1] into a fresh database. *)
Definition loaded1 : option (Db.store Dec.Decimal) * result (list string) :=
  Eval vm_compute in Ingest.main Dec.Decimal int_of_digits decimal_float fs1 None.

Definition store1 : Db.store Dec.Decimal := Eval vm_compute in default Db.empty loaded1.1.

Definition output1 : list string :=
  Eval vm_compute in match loaded1.2 with Ok out => out | Raise _ => [] end.

End Examples.

(** * Reasoning about randomised computations *)

Module RngFacts.

Import Rng.

Lemma always_ret {A} (x : A) (P : A → Prop) : P x → always (ret x) P.
Proof. intros HP tape y tape' [= <- _]. exact HP. Qed.

Lemma always_throw {A} (e : exn) (P : A → Prop) : always (throw e) P.
Proof. intros tape y tape' [=]. Qed.

Lemma always_bind {A B} (m : Rand A) (f : A → Rand B) (P : A → Prop) (Q : B → Prop) :
  always m P → (∀ x, P x → always (f x) Q) → always (bind m f) Q.
Proof.
  intros Hm Hf tape y tape'. unfold bind.
  destruct (m tape) as [[x t1]|e] eqn:E; [|discriminate].
  intros Hy. exact (Hf x (Hm _ _ _ E) _ _ _ Hy).
Qed.

Lemma always_weaken {A} (m : Rand A) (P Q : A → Prop) :
  always m P → (∀ x, P x → Q x) → always m Q.
Proof. intros Hm HPQ tape x tape' E. apply HPQ, (Hm _ _ _ E). Qed.

Lemma always_of_option {A} (e : exn) (o : option A) :
  always (of_option e o) (λ x, o = Some x).
Proof. destruct o; [by apply always_ret | apply always_throw]. Qed.

Lemma always_randbelow (n : N) : (0 < n)%N → always (randbelow n) (λ r, (r < n)%N).
Proof.
  intros Hn [|d rest] x tape' [= <- _]; [done|].
  apply N.mod_lt. lia.
Qed.

Lemma always_randint (a b : Z) : always (randint a b) (λ r, a ≤ r ≤ b).
Proof.
  unfold randint. destruct (Z.ltb_spec b a); [apply always_throw|].
  eapply always_bind; [apply always_randbelow; lia|].
  intros r Hr. cbv beta in Hr. apply always_ret. lia.
Qed.

Lemma always_choice {A} (seq : list A) : always (choice seq) (λ x, x ∈ seq).
Proof.
  unfold choice. destruct seq as [|a seq]; [apply always_throw|].
  eapply always_bind; [apply always_randbelow; cbn [length]; lia|].
  intros i _. eapply always_weaken; [apply always_of_option|].
  intros x Hx. exact (list_elem_of_lookup_2 _ _ _ Hx).
Qed.

Lemma always_for_each {A S} (xs : list A) (body : A → S → Rand S) (s0 : S)
    (I : list A → S → Prop) :
  I [] s0 →
  (∀ pre x post s, xs = pre ++ x :: post → I pre s → always (body x s) (I (pre ++ [x]))) →
  always (for_each xs body s0) (I xs).
Proof.
  intros H0 Hstep.
  cut (∀ post pre s, xs = pre ++ post → I pre s → always (for_each post body s) (I xs)).
  { intros H. by apply (H xs [] s0). }
  induction post as [|x post IH]; intros pre s Hxs Hs; simpl.
  - apply always_ret. by rewrite Hxs, app_nil_r.
  - eapply always_bind; [by eapply Hstep|].
    intros s' Hs'. apply (IH (pre ++ [x])); [|done].
    by rewrite <- app_assoc.
Qed.

Lemma succeeds_ret {A} (x : A) : succeeds (ret x).
Proof. intros tape. by exists x, tape. Qed.

Lemma succeeds_bind {A B} (m : Rand A) (f : A → Rand B) (P : A → Prop) :
  succeeds m → always m P → (∀ x, P x → succeeds (f x)) → succeeds (bind m f).
Proof.
  intros Hm HP Hf tape. destruct (Hm tape) as (x & t1 & E).
  destruct (Hf x (HP _ _ _ E) t1) as (y & t2 & E2).
  exists y, t2. unfold bind. by rewrite E.
Qed.

Lemma succeeds_randbelow (n : N) : succeeds (randbelow n).
Proof. intros [|d rest]; simpl; eauto. Qed.

Lemma succeeds_randint (a b : Z) : a ≤ b → succeeds (randint a b).
Proof.
  intros Hab. unfold randint. destruct (Z.ltb_spec b a); [lia|].
  eapply succeeds_bind with (P := λ _, True);
    [apply succeeds_randbelow | done | intros; apply succeeds_ret].
Qed.

Lemma succeeds_choice {A} (seq : list A) : seq ≠ [] → succeeds (choice seq).
Proof.
  intros Hne. unfold choice. destruct seq as [|a seq]; [done|].
  eapply succeeds_bind; [apply succeeds_randbelow | apply always_randbelow; cbn [length]; lia|].
  intros i Hi. cbv beta in Hi.
  destruct (lookup_lt_is_Some_2 (a :: seq) (N.to_nat i)) as [x Hx]; [lia|].
  rewrite Hx. apply succeeds_ret.
Qed.

Lemma succeeds_for_each {A S} (xs : list A) (body : A → S → Rand S) (s0 : S)
    (I : list A → S → Prop) :
  I [] s0 →
  (∀ pre x post s, xs = pre ++ x :: post → I pre s → always (body x s) (I (pre ++ [x]))) →
  (∀ pre x post s, xs = pre ++ x :: post → I pre s → succeeds (body x s)) →
  succeeds (for_each xs body s0).
Proof.
  intros H0 Hstep Hok.
  cut (∀ post pre s, xs = pre ++ post → I pre s → succeeds (for_each post body s)).
  { intros H. by apply (H xs [] s0). }
  induction post as [|x post IH]; intros pre s Hxs Hs; simpl.
  - apply succeeds_ret.
  - eapply succeeds_bind; [by eapply Hok | by eapply Hstep |].
    intros s' Hs'. apply (IH (pre ++ [x])); [|done].
    by rewrite <- app_assoc.
Qed.

Lemma fails_throw {A} (e : exn) (P : exn → Prop) : P e → fails (throw (A := A) e) P.
Proof. intros HP tape. by exists e. Qed.

Lemma fails_bind_l {A B} (m : Rand A) (f : A → Rand B) (P : exn → Prop) :
  fails m P → fails (bind m f) P.
Proof.
  intros Hm tape. destruct (Hm tape) as (e & E & He).
  exists e. unfold bind. by rewrite E.
Qed.

Lemma fails_bind_r {A B} (m : Rand A) (f : A → Rand B) (Q : A → Prop) (P : exn → Prop) :
  succeeds m → always m Q → (∀ x, Q x → fails (f x) P) → fails (bind m f) P.
Proof.
  intros Hm HQ Hf tape. destruct (Hm tape) as (x & t1 & E).
  destruct (Hf x (HQ _ _ _ E) t1) as (e & E' & He).
  exists e. unfold bind. by rewrite E.
Qed.

End RngFacts.

(** * Money strings: reading back what [money] renders *)

Module DecFacts.

Import PyStr Dec.

Lemma digit_val_char (d : Z) : 0 ≤ d < 10 → digit_val (digit_char d) = Some d.
Proof.
  intros Hd.
  assert (Hcases : d = 0 ∨ d = 1 ∨ d = 2 ∨ d = 3 ∨ d = 4 ∨ d = 5 ∨ d = 6 ∨ d = 7
                   ∨ d = 8 ∨ d = 9) by lia.
  destruct Hcases as [->|[->|[->|[->|[->|[->|[->|[->|[->| ->]]]]]]]]]; reflexivity.
Qed.

Lemma digit_val_not (c c' : ascii) (d : Z) :
  digit_val c = Some d → digit_val c' = None → Ascii.eqb c c' = false.
Proof.
  intros Hc Hc'. destruct (Ascii.eqb_spec c c') as [->|]; [congruence|done].
Qed.

Lemma app_cons (c : ascii) (s t : string) :
  (String c s ++ t)%string = String c (s ++ t)%string.
Proof. reflexivity. Qed.

Lemma app_nil (t : string) : (EmptyString ++ t)%string = t.
Proof. reflexivity. Qed.

Lemma string_app_assoc (a b c : string) : ((a ++ b) ++ c = a ++ (b ++ c))%string.
Proof. induction a as [|x a IH]; [done|]. by rewrite !app_cons, IH. Qed.

Lemma digits_acc_app (fuel : nat) (n : Z) (acc : string) :
  digits_acc fuel n acc = (digits_acc fuel n EmptyString ++ acc)%string.
Proof.
  revert n acc. induction fuel as [|f IH]; intros n acc; simpl; [done|].
  destruct (n <? 10); [done|].
  rewrite (IH _ (String _ acc)), (IH _ (String _ EmptyString)).
  by rewrite string_app_assoc, app_cons, app_nil.
Qed.

Lemma read_digits_app (s t : string) (a : Z) :
  read_digits (s ++ t) a =
  match read_digits s a with Some v => read_digits t v | None => None end.
Proof.
  revert a. induction s as [|c s IH]; intros a; [done|].
  rewrite app_cons. simpl. destruct (digit_val c); [apply IH|done].
Qed.

Lemma read_digits_acc (fuel : nat) (n : Z) :
  0 ≤ n < 10 ^ Z.of_nat fuel → read_digits (digits_acc fuel n EmptyString) 0 = Some n.
Proof.
  revert n. induction fuel as [|f IH]; intros n Hn.
  - simpl in *. f_equal; lia.
  - cbn [digits_acc]. destruct (Z.ltb_spec n 10) as [Hlt|Hge].
    + simpl. rewrite Z.mod_small, digit_val_char by lia. f_equal; lia.
    + rewrite digits_acc_app, read_digits_app, IH.
      * simpl. rewrite digit_val_char by (apply Z.mod_pos_bound; lia).
        pose proof (Z.div_mod n 10). f_equal; lia.
      * rewrite Nat2Z.inj_succ, Z.pow_succ_r in Hn by lia.
        split; [apply Z.div_pos; lia | apply Z.div_lt_upper_bound; lia].
Qed.

Lemma log2_fuel (n : Z) : 0 ≤ n → n < 10 ^ Z.of_nat (S (Z.to_nat (Z.log2 n))).
Proof.
  intros Hn. destruct (decide (n = 0)) as [->|Hne]; [done|].
  pose proof (Z.log2_nonneg n).
  assert (n < 2 ^ Z.succ (Z.log2 n)) by (apply Z.log2_spec; lia).
  rewrite Nat2Z.inj_succ, Z2Nat.id by lia.
  eapply Z.lt_le_trans; [done|].
  apply Z.pow_le_mono_l. lia.
Qed.

(** Reading the digits of [str(n)] gives [n] back. *)
Lemma read_str_nonneg (n : Z) : 0 ≤ n → read_digits (str_nonneg n) 0 = Some n.
Proof.
  intros Hn. apply read_digits_acc. split; [done|by apply log2_fuel].
Qed.

Lemma str_nonneg_head (n : Z) :
  0 ≤ n → ∃ c r d, str_nonneg n = String c r ∧ digit_val c = Some d.
Proof.
  intros Hn. pose proof (read_str_nonneg n Hn) as Hr.
  unfold str_nonneg in *. set (f := Z.to_nat (Z.log2 n)) in *. clearbody f.
  destruct (digits_acc (S f) n EmptyString) as [|c r] eqn:E.
  - exfalso. cbn [digits_acc] in E. destruct (n <? 10); [done|].
    rewrite digits_acc_app in E. by destruct (digits_acc f (n / 10) EmptyString).
  - simpl in Hr. destruct (digit_val c) as [d|] eqn:Hd; [|done].
    by exists c, r, d.
Qed.

Lemma split_dot_digits (s t : string) (a v : Z) :
  read_digits s a = Some v → split_dot (s ++ String "." t) = (s, Some t).
Proof.
  revert a. induction s as [|c s IH]; intros a; [done|].
  rewrite app_cons. simpl. destruct (digit_val c) as [d|] eqn:Hc; [|done].
  intros Hr. rewrite (digit_val_not c "." d), (IH _ Hr); done.
Qed.

(** [Decimal(s)] reads back the cents that [str] rendered. *)
Lemma of_string_str_cents (c : Z) :
  0 ≤ c → of_string (str_cents c) = Some (mkDecimal c (-2)).
Proof.
  intros Hc. unfold str_cents. rewrite Z.abs_eq by done.
  destruct (Z.ltb_spec c 0); [lia|].
  assert (Hq : 0 ≤ c / 100) by (apply Z.div_pos; lia).
  destruct (str_nonneg_head _ Hq) as (ch & r & d & Hs & Hd).
  pose proof (read_str_nonneg _ Hq) as Hread.
  unfold of_string. rewrite Hs, app_cons.
  rewrite (digit_val_not ch "-" d), (digit_val_not ch "+" d) by done.
  rewrite <- app_cons, <- Hs. erewrite split_dot_digits by done. cbn [default].
  destruct (_ =? _)%nat eqn:E.
  { apply Nat.eqb_eq in E. simpl in E. lia. }
  rewrite read_digits_app, Hread. simpl.
  rewrite !digit_val_char.
  - simpl. f_equal. f_equal.
    clear E. Z.div_mod_to_equations. lia.
  - apply Z.mod_pos_bound. lia.
  - pose proof (Z.mod_pos_bound c 100).
    split; [apply Z.div_pos; lia | apply Z.div_lt_upper_bound; lia].
Qed.

Lemma str_cents_inj (c c' : Z) : 0 ≤ c → 0 ≤ c' → str_cents c = str_cents c' → c = c'.
Proof.
  intros Hc Hc' E. apply of_string_str_cents in Hc, Hc'.
  rewrite E in Hc. congruence.
Qed.

Lemma quantize_cents_exact (c : Z) : quantize_cents (mkDecimal c (-2)) = c.
Proof. unfold quantize_cents. simpl. unfold pow10. simpl. lia. Qed.

(** Re-rendering a price read from its money string gives the same string. *)
Lemma money_of_string (c : Z) (d : Decimal) :
  0 ≤ c → of_string (str_cents c) = Some d → money d = str_cents c.
Proof.
  intros Hc. rewrite of_string_str_cents by done. intros [= <-].
  unfold money. by rewrite quantize_cents_exact.
Qed.


Lemma half_up_bounds (x q lo hi : Z) :
  0 < q → lo * q ≤ x ≤ hi * q → lo ≤ (2 * x + q) / (2 * q) ≤ hi.
Proof.
  intros Hq Hx. split.
  - apply Z.div_le_lower_bound; lia.
  - apply Z.lt_succ_r, Z.div_lt_upper_bound; lia.
Qed.

Lemma quantize_cents_uniform (m : Z) :
  0 ≤ m ≤ 1180 * 2 ^ 48 →
  2000 ≤ quantize_cents (mkDecimal ((20 * 2 ^ 48 + m) * 5 ^ 48) (-48)) ≤ 120000.
Proof.
  intros Hm. unfold quantize_cents, pow10, coef, exp.
  change (-2 <=? -48) with false. cbv iota.
  change (-2 - -48) with 46.
  assert (Hp : 10 ^ 46 * 100 = 2 ^ 48 * 5 ^ 48) by (vm_compute; reflexivity).
  assert (0 < 5 ^ 48 ∧ 0 < 2 ^ 48 ∧ 0 < 10 ^ 46) as (H5 & H2 & H10) by (repeat split; apply Z.pow_pos_nonneg; lia).
  generalize dependent (10 ^ 46). generalize dependent (5 ^ 48). generalize dependent (2 ^ 48).
  intros p2 Hm H2 p5 H5 q Hp Hq.
  assert (Hx : 2000 * q ≤ (20 * p2 + m) * p5 ≤ 120000 * q) by nia.
  rewrite Z.sgn_pos, Z.abs_eq, Z.mul_1_l by nia.
  by apply half_up_bounds.
Qed.
End DecFacts.

(** * Binary floating point *)

Module FloatFacts.
Import Float.

Lemma round_half_even_bounds (p q : Z) :
  0 < q →
  2 * q * round_half_even p q - q ≤ 2 * p ≤ 2 * q * round_half_even p q + q.
Proof.
  intros Hq. unfold round_half_even.
  pose proof (Z.div_mod p q ltac:(lia)) as Hdm.
  pose proof (Z.mod_pos_bound p q Hq) as Hr.
  set (d := p / q) in *. set (r := p mod q) in *.
  destruct (Z.ltb_spec (2 * r) q); [nia|].
  destruct (Z.ltb_spec q (2 * r)); [nia|].
  destruct (Z.even d); nia.
Qed.

Lemma exponent_of_bounds (p q : Z) :
  Z.log2 p - Z.log2 q - 1 ≤ exponent_of p q ≤ Z.log2 p - Z.log2 q.
Proof. unfold exponent_of. destruct (_ <=? _); lia. Qed.

Lemma exponent_of_lt (p q B : Z) :
  0 < p → 0 < q → 0 ≤ B → p < q * 2 ^ B → exponent_of p q < B.
Proof.
  intros Hp Hq HB Hlt. unfold exponent_of.
  set (t := Z.log2 p - Z.log2 q).
  destruct (Z.leb_spec (q * 2 ^ Z.max 0 t) (p * 2 ^ Z.max 0 (- t))) as [Hc|Hc].
  - destruct (Z.lt_ge_cases t B) as [|Hge]; [done|exfalso].
    rewrite (Z.max_r 0 t), (Z.max_l 0 (- t)) in Hc by lia.
    assert (2 ^ B ≤ 2 ^ t) by (apply Z.pow_le_mono_r; lia).
    rewrite Z.pow_0_r in Hc. nia.
  - assert (t ≤ B); [|lia]. unfold t.
    destruct (Z.le_gt_cases t B) as [|Hgt]; [done|exfalso].
    (* p >= 2^lp, q < 2^(lq+1), so p / q > 2^(t-1) >= 2^B *)
    pose proof (Z.log2_spec p Hp) as [Hp1 _].
    pose proof (Z.log2_spec q Hq) as [_ Hq2].
    assert (Hsplit : 2 ^ Z.log2 p = 2 ^ (t - 1) * 2 ^ Z.succ (Z.log2 q)).
    { rewrite <- Z.pow_add_r by (pose proof (Z.log2_nonneg q); lia). f_equal. lia. }
    assert (2 ^ B ≤ 2 ^ (t - 1)) by (apply Z.pow_le_mono_r; lia).
    assert (0 < 2 ^ B) by (apply Z.pow_pos_nonneg; lia).
    nia.
Qed.

(** The value of a quotient below 2 ^ 51, read through [trunc] and [cents]:
    rounding is at the [k]-th binary digit after the point. *)
Lemma of_ratio_value (neg : bool) (p q : Z) :
  0 < p → 0 < q →
  -1074 ≤ exponent_of p q - 52 ≤ -2 →
  let k := 52 - exponent_of p q in
  let m := round_half_even (p * 2 ^ k) q in
  trunc (of_ratio neg p q) = (if neg then - (m / 2 ^ k) else m / 2 ^ k) ∧
  cents (of_ratio neg p q) = (200 * m + 2 ^ k) / 2 ^ (k + 1).
Proof.
  intros Hp Hq He k m. unfold of_ratio.
  rewrite (proj2 (Z.eqb_neq p 0)) by lia.
  rewrite (Z.max_l (exponent_of p q - 52)) by lia.
  rewrite (Z.max_r 0 (- (exponent_of p q - 52))) by lia.
  rewrite (Z.max_l 0 (exponent_of p q - 52)) by lia.
  rewrite Z.pow_0_r, Z.mul_1_r.
  replace (- (exponent_of p q - 52)) with k by (unfold k; lia).
  fold m.
  assert (Hk : 2 ≤ k) by (unfold k; lia).
  assert (HP : 0 < 2 ^ k) by (apply Z.pow_pos_nonneg; lia).
  destruct (Z.eqb_spec m 0) as [Hm0|Hm0].
  { cbn. rewrite Hm0. split.
    - rewrite Z.div_0_l by lia. by destruct neg.
    - symmetry. apply Z.div_small. rewrite Z.pow_add_r by lia. lia. }
  destruct (Z.eqb_spec m (2 ^ 53)) as [Hm|Hm].
  - unfold normal. rewrite (proj2 (Z.ltb_ge 971 _)) by lia.
    cbn [trunc cents]. rewrite (proj2 (Z.leb_gt 0 _)) by lia.
    replace (- (exponent_of p q - 52 + 1)) with (k - 1) by (unfold k; lia).
    replace (k - 1 + 1) with k by lia.
    assert (Hpow : 2 ^ k = 2 * 2 ^ (k - 1)).
    { rewrite <- Z.pow_succ_r by lia. f_equal. lia. }
    assert (HP' : 0 < 2 ^ (k - 1)) by (apply Z.pow_pos_nonneg; lia).
    rewrite Hm. change (2 ^ 53) with (2 * 2 ^ 52).
    rewrite (Z.pow_add_r 2 k 1), Hpow by lia.
    split.
    + rewrite Z.div_mul_cancel_l by lia. done.
    + replace (200 * (2 * 2 ^ 52) + 2 * 2 ^ (k - 1))
        with (2 * (200 * 2 ^ 52 + 2 ^ (k - 1))) by lia.
      replace (2 * 2 ^ (k - 1) * 2 ^ 1) with (2 * (2 * 2 ^ (k - 1))) by lia.
      rewrite Z.div_mul_cancel_l by lia. done.
  - unfold normal. rewrite (proj2 (Z.ltb_ge 971 _)) by lia.
    cbn [trunc cents]. rewrite (proj2 (Z.leb_gt 0 _)) by lia.
    replace (- (exponent_of p q - 52)) with k by (unfold k; lia). done.
Qed.


Lemma cents_of_ratio (c : Z) :
  0 < c < 2 ^ 30 → cents (of_ratio false c 100) = c.
Proof.
  intros Hc.
  pose proof (exponent_of_bounds c 100) as Hb.
  assert (Hl : 0 ≤ Z.log2 c < 30).
  { split; [apply Z.log2_nonneg|]. apply Z.log2_lt_pow2; lia. }
  change (Z.log2 100) with 6 in Hb.
  destruct (of_ratio_value false c 100) as [_ ->]; [lia..|].
  set (k := 52 - exponent_of c 100).
  assert (Hk : 28 ≤ k) by (unfold k; lia).
  assert (HP : 2 ^ 28 ≤ 2 ^ k) by (apply Z.pow_le_mono_r; lia).
  pose proof (round_half_even_bounds (c * 2 ^ k) 100 ltac:(lia)) as Hm.
  rewrite Z.pow_add_r by lia.
  set (P := 2 ^ k) in *. set (m := round_half_even (c * P) 100) in *.
  change (2 ^ 28) with 268435456 in HP. change (2 ^ 1) with 2.
  symmetry. apply (Z.div_unique _ _ _ (200 * m + P - c * (P * 2))); lia.
Qed.

Lemma trunc_div_int (n : Z) :
  - (2 ^ 34 * 1000000) < n < 2 ^ 34 * 1000000 →
  trunc (div_int n 1000000) = Z.quot n 1000000.
Proof.
  intros Hn. unfold div_int.
  destruct (decide (n = 0)) as [->|Hnz]; [done|].
  assert (Ha : 0 < Z.abs n < 2 ^ 34 * 1000000) by lia.
  pose proof (exponent_of_bounds (Z.abs n) 1000000) as Hb.
  pose proof (exponent_of_lt (Z.abs n) 1000000 34 ltac:(lia) ltac:(lia) ltac:(lia)
                ltac:(lia)) as Hlt.
  pose proof (Z.log2_nonneg (Z.abs n)) as Hl.
  change (Z.log2 1000000) with 19 in Hb.
  destruct (of_ratio_value (n <? 0) (Z.abs n) 1000000) as [-> _]; [lia..|].
  set (k := 52 - exponent_of (Z.abs n) 1000000).
  assert (Hk : 19 ≤ k) by (unfold k; lia).
  assert (HP : 2 ^ 19 ≤ 2 ^ k) by (apply Z.pow_le_mono_r; lia).
  pose proof (round_half_even_bounds (Z.abs n * 2 ^ k) 1000000 ltac:(lia)) as Hm.
  set (P := 2 ^ k) in *. set (m := round_half_even (Z.abs n * P) 1000000) in *.
  change (2 ^ 19) with 524288 in HP.
  pose proof (Z.div_mod (Z.abs n) 1000000 ltac:(lia)) as Hdm.
  pose proof (Z.mod_pos_bound (Z.abs n) 1000000 ltac:(lia)) as Hr.
  set (S := Z.abs n / 1000000) in *. set (r := Z.abs n mod 1000000) in *.
  assert (Hdiv : m / P = S).
  { symmetry. apply (Z.div_unique _ _ _ (m - P * S)); nia. }
  rewrite Hdiv. unfold S.
  destruct (Z.ltb_spec n 0).
  - rewrite <- (Z.opp_involutive n) at 2. rewrite Z.quot_opp_l by lia.
    rewrite Z.quot_div_nonneg by lia. f_equal. f_equal. lia.
  - rewrite Z.quot_div_nonneg by lia. f_equal. lia.
Qed.


Lemma round_half_even_nonneg (p q : Z) : 0 ≤ p → 0 < q → 0 ≤ round_half_even p q.
Proof.
  intros Hp Hq. unfold round_half_even.
  assert (0 ≤ p / q) by (apply Z.div_pos; lia).
  repeat case_match; lia.
Qed.

Lemma trunc_of_ratio_nonneg (p q : Z) : 0 ≤ p → 0 < q → 0 ≤ trunc (of_ratio false p q).
Proof.
  intros Hp Hq. unfold of_ratio.
  set (e := Z.max (exponent_of p q - 52) (-1074)).
  assert (Hm : 0 ≤ round_half_even (p * 2 ^ Z.max 0 (- e)) (q * 2 ^ Z.max 0 e)).
  { apply round_half_even_nonneg.
    - apply Z.mul_nonneg_nonneg; [done|]. apply Z.pow_nonneg. lia.
    - apply Z.mul_pos_pos; [done|]. apply Z.pow_pos_nonneg; lia. }
  set (m := round_half_even _ _) in *.
  assert (Hv : ∀ m' e', 0 ≤ m' → 0 ≤ trunc (normal false m' e')).
  { intros m' e' Hm'. unfold normal. destruct (971 <? e'); [done|]. cbn.
    destruct (Z.leb_spec 0 e').
    - apply Z.mul_nonneg_nonneg; [done|]. by apply Z.pow_nonneg.
    - apply Z.div_pos; [done|]. apply Z.pow_pos_nonneg; lia. }
  repeat case_match; try done; apply Hv; lia.
Qed.

(** The whole seconds of a timedelta of less than 2 ^ 34 seconds. *)
Lemma total_seconds_int_exact (delta : Z) :
  - Clock.exact_span < delta < Clock.exact_span →
  Clock.total_seconds_int delta = Z.quot delta Clock.us_per_second.
Proof. apply trunc_div_int. Qed.

Lemma total_seconds_int_nonneg (delta : Z) : 0 ≤ delta → 0 ≤ Clock.total_seconds_int delta.
Proof.
  intros Hd. unfold Clock.total_seconds_int, div_int.
  rewrite (proj2 (Z.ltb_ge delta 0)) by done. rewrite Z.abs_eq by done.
  by apply trunc_of_ratio_nonneg.
Qed.

(** A two-decimal text below 2 ^ 30 cents, made a float and printed by
    SQLite with two decimals, is the same text. *)
Lemma printf_2f_of_string (c : Z) :
  0 ≤ c < 2 ^ 30 →
  ∃ x, of_string (Dec.str_cents c) = Some x ∧ printf_2f x = Dec.str_cents c.
Proof.
  intros Hc. unfold of_string.
  rewrite DecFacts.of_string_str_cents by lia. cbn [mbind option_bind Dec.coef Dec.exp].
  assert (Hsign : match Dec.str_cents c with String "-" _ => true | _ => false end = false).
  { unfold Dec.str_cents. rewrite (proj2 (Z.ltb_ge c 0)) by lia.
    destruct (DecFacts.str_nonneg_head (Z.abs c / 100)) as (ch & r & d & -> & Hd).
    { apply Z.div_pos; lia. }
    rewrite DecFacts.app_cons.
    destruct (Ascii.eqb_spec ch "-") as [->|Hne]; [done|].
    destruct ch as [[] [] [] [] [] [] [] []]; done. }
  rewrite Hsign. eexists. split; [reflexivity|].
  change (10 ^ Z.max 0 (-2)) with 1. change (10 ^ Z.max 0 (- -2)) with 100.
  rewrite Z.abs_eq, Z.mul_1_r by lia.
  destruct (decide (c = 0)) as [->|Hnz]; [done|].
  pose proof (cents_of_ratio c ltac:(lia)) as Hcents.
  destruct (of_ratio false c 100) as [neg|neg m e|neg] eqn:E.
  - cbn in Hcents. lia.
  - assert (neg = false) as ->.
    { unfold of_ratio, normal in E. repeat case_match; congruence. }
    cbn [printf_2f]. rewrite Hcents. done.
  - cbn in Hcents. lia.
Qed.

End FloatFacts.

(** * The generator: what every run guarantees *)

Module GenerateFacts.

Import Rng RngFacts Generate.

(** ** [random.sample] returns elements at distinct positions *)

Lemma pool_shrink {A} (pool : list A) (j : nat) (x y : A) :
  pool !! j = Some x → last pool = Some y →
  x :: take (length pool - 1) (<[j := y]> pool) ≡ₚ pool.
Proof.
  intros Hj Hlast.
  destruct (last_Some pool y) as [[init ->] _]; [done|].
  rewrite length_app, Nat.add_sub. cbn [length].
  destruct (decide (j < length init)%nat) as [Hlt|Hge].
  - rewrite insert_app_l, take_app_length' by (by rewrite ?length_insert).
    rewrite lookup_app_l in Hj by done.
    apply list_elem_of_split_length in Hj as (a & b & -> & ->).
    rewrite insert_app_r_alt, Nat.sub_diag by done. cbn [insert list_insert].
    rewrite <- !app_assoc. cbn [app].
    rewrite <- (Permutation_middle a (b ++ [y]) x). constructor.
    apply Permutation_app_head, Permutation_cons_append.
  - assert (j = length init) as ->.
    { apply lookup_lt_Some in Hj. rewrite length_app in Hj. simpl in Hj. lia. }
    rewrite list_lookup_middle in Hj by done. injection Hj as <-.
    rewrite insert_app_r_alt, Nat.sub_diag by done. cbn [insert list_insert].
    rewrite take_app_length. apply Permutation_cons_append.
Qed.

Lemma always_sample_loop {A} (k : nat) (pool : list A) :
  always (sample_loop k pool) (λ res, res ⊆+ pool ∧ length res = k).
Proof.
  revert pool. induction k as [|k IH]; intros pool; cbn [sample_loop].
  - apply always_ret. split; [apply submseteq_nil_l|done].
  - eapply always_bind with (P := λ _, True); [done|]. intros j _.
    destruct (pool !! N.to_nat j) as [x|] eqn:Hj; [|apply always_throw].
    destruct (last pool) as [y|] eqn:Hl; [|apply always_throw].
    eapply always_bind; [apply IH|]. intros rest [Hsub Hlen].
    apply always_ret. split; [|simpl; by rewrite Hlen].
    rewrite <- (pool_shrink pool _ x y Hj Hl). by apply submseteq_skip.
Qed.

Lemma always_sample {A} (population : list A) (k : Z) :
  always (sample population k)
    (λ res, res ⊆+ population ∧ Z.of_nat (length res) = k).
Proof.
  unfold sample. destruct (_ || _) eqn:E; [apply always_throw|].
  apply orb_false_iff in E as [?%Z.ltb_ge ?%Z.ltb_ge].
  eapply always_weaken; [apply always_sample_loop|].
  intros res [? ?]. split; [done|lia].
Qed.

Lemma succeeds_sample_loop {A} (k : nat) (pool : list A) :
  (k ≤ length pool)%nat → succeeds (sample_loop k pool).
Proof.
  revert pool. induction k as [|k IH]; intros pool Hk; cbn [sample_loop].
  - apply succeeds_ret.
  - eapply succeeds_bind; [apply succeeds_randbelow | apply always_randbelow; lia |].
    intros j Hj. cbv beta in Hj.
    destruct (lookup_lt_is_Some_2 pool (N.to_nat j)) as [x ->]; [lia|].
    destruct (last pool) as [y|] eqn:Hl.
    2:{ apply last_None in Hl. subst pool. simpl in Hk. lia. }
    eapply succeeds_bind with (P := λ _, True); [|done|intros; apply succeeds_ret].
    apply IH. rewrite length_take, length_insert. lia.
Qed.

Lemma succeeds_sample {A} (population : list A) (k : Z) :
  0 ≤ k ≤ Z.of_nat (length population) → succeeds (sample population k).
Proof.
  intros Hk. unfold sample.
  destruct (Z.ltb_spec k 0); [lia|]. destruct (Z.ltb_spec (Z.of_nat (length population)) k); [lia|].
  apply succeeds_sample_loop. lia.
Qed.

Lemma always_uniform_money :
  always (uniform 20 1200)
    (λ d, ∃ c, 2000 ≤ c ≤ 120000 ∧ money d = Dec.str_cents c).
Proof.
  unfold uniform.
  eapply always_bind; [apply always_randbelow; lia|]. intros m Hm. cbv beta in Hm.
  apply always_ret. eexists. split; [|reflexivity].
  apply DecFacts.quantize_cents_uniform. lia.
Qed.

Lemma succeeds_uniform (a b : Z) : succeeds (uniform a b).
Proof.
  eapply succeeds_bind with (P := λ _, True);
    [apply succeeds_randbelow | done | intros; apply succeeds_ret].
Qed.

Import Inv.

(** Run the next call of a [bind] chain with the lemma that describes it. *)
Ltac run lem :=
  eapply always_bind; [apply lem | cbv beta].
Ltac skip_call :=
  eapply always_bind with (P := λ _, True); [done | intros ? _].

(** ** [generate_products] *)

Lemma always_generate_products (count : Z) :
  always (generate_products count)
    (λ ps, wf_products ps ∧ length ps = Z.to_nat count).
Proof.
  unfold generate_products.
  eapply always_weaken.
  - apply always_for_each with
      (I := λ pre ps, Product.product_id <$> ps = pre
                      ∧ Forall (λ p, priced 2000 120000 (Product.price p)) ps).
    + by split.
    + intros pre pid post ps _ [Hids Hpr].
      skip_call. skip_call. skip_call.
      run always_uniform_money. intros base_price (c & Hc & Hm).
      skip_call. apply always_ret. split.
      * by rewrite fmap_app, Hids.
      * apply Forall_app. split; [done|]. constructor; [|done].
        exists c. by split.
  - intros ps [Hids Hpr]. unfold range1 in Hids. split; [split; [done|]|].
    + rewrite Hids. apply NoDup_seqZ.
    + apply (f_equal length) in Hids. by rewrite length_fmap, length_seqZ in Hids.
Qed.

(** ** The inner loop of [generate_orders] *)

Lemma cents_of_str_cents (c : Z) : 0 ≤ c → cents_of (Dec.str_cents c) = c.
Proof. intros Hc. unfold cents_of. by rewrite DecFacts.of_string_str_cents. Qed.

Lemma items_cents_app (a b : list OrderItem.t) :
  items_cents (a ++ b) = items_cents a + items_cents b.
Proof. induction a as [|it a IH]; simpl; [done|]. rewrite IH. lia. Qed.

Lemma always_add_items (oid : Z) (choices : list Product.t) (c0 : Z)
    (items0 : list OrderItem.t) (id0 : Z) :
  Forall (λ p, priced 2000 120000 (Product.price p)) choices →
  always (add_items oid choices (Dec.mkDecimal c0 (-2), items0, id0))
    (λ '(line_total, items, order_item_id),
       ∃ new, items = items0 ++ new
              ∧ Forall2 (item_for oid) choices new
              ∧ OrderItem.order_item_id <$> new = seqZ id0 (Z.of_nat (length new))
              ∧ line_total = Dec.mkDecimal (c0 + items_cents new) (-2)
              ∧ order_item_id = id0 + Z.of_nat (length new)).
Proof.
  intros Hpr. unfold add_items.
  apply always_for_each with
    (I := λ pre '(line_total, items, order_item_id),
       ∃ new, items = items0 ++ new
              ∧ Forall2 (item_for oid) pre new
              ∧ OrderItem.order_item_id <$> new = seqZ id0 (Z.of_nat (length new))
              ∧ line_total = Dec.mkDecimal (c0 + items_cents new) (-2)
              ∧ order_item_id = id0 + Z.of_nat (length new)).
  - exists []. rewrite app_nil_r. repeat split; [constructor | f_equal; simpl; lia | simpl; lia].
  - intros pre product post [[line_total items] order_item_id] Hxs
      (new & -> & Hnew & Hids & -> & ->).
    assert (Hp : priced 2000 120000 (Product.price product)).
    { rewrite Forall_forall in Hpr. apply Hpr. rewrite Hxs.
      apply elem_of_app. right. by left. }
    destruct Hp as (c & Hc & Hprice).
    run always_randint. intros qty Hqty.
    run (always_of_option (A := Dec.Decimal)). intros unit_price Hup.
    rewrite Hprice, DecFacts.of_string_str_cents in Hup by lia.
    injection Hup as <-.
    apply always_ret.
    eexists (new ++ [_]). split; [by rewrite app_assoc|].
    split; [|split; [|split]].
    + apply Forall2_app; [done|]. constructor; [|constructor].
      unfold item_for; cbn. unfold money. rewrite DecFacts.quantize_cents_exact.
      by repeat split; try lia.
    + rewrite fmap_app, Hids, length_app. cbn.
      rewrite Nat2Z.inj_add, seqZ_app by lia. done.
    + unfold Dec.add, Dec.mul_int. cbn. f_equal.
      rewrite items_cents_app. cbn. unfold money.
      rewrite DecFacts.quantize_cents_exact, cents_of_str_cents by lia.
      unfold Dec.pow10. change (10 ^ (-2 - Z.min (-2) (-2))) with 1. lia.
    + rewrite length_app. cbn. lia.
Qed.

(** ** One turn of the loop of [generate_orders] *)

Lemma submseteq_NoDup {A} (l k : list A) : l ⊆+ k → NoDup k → NoDup l.
Proof.
  intros Hsub Hk. apply submseteq_Permutation in Hsub as [k' Hk'].
  rewrite Hk' in Hk. by apply NoDup_app in Hk as [? _].
Qed.

(** The second that [paid_at] keeps lies [h] hours and a time of day after
    the midnight of the day that [order_date] keeps. *)
Lemma paid_at_after_order_day (dt h : Z) :
  ∃ t, 0 ≤ t < Clock.seconds_per_day ∧
       Clock.second_of (dt + Clock.timedelta_hours h)
       = Clock.day_of dt * Clock.seconds_per_day + t + h * Clock.seconds_per_hour.
Proof.
  unfold Clock.second_of, Clock.day_of, Clock.timedelta_hours, Clock.seconds_per_day,
    Clock.seconds_per_hour, Clock.us_per_second.
  exists (dt / 1000000 - dt / (86400 * 1000000) * 86400).
  change (86400 * 1000000) with 86400000000.
  Z.div_mod_to_equations. lia.
Qed.

Lemma always_order_step (today : Z) (users : list User.t) (products : list Product.t)
    (oid : Z) (st : orders_state) :
  wf_products products →
  always (order_step today users products oid st) (step_rel users products oid st).
Proof.
  intros [Hpr Hnd]. unfold order_step.
  run (always_choice (A := User.t)). intros user Huser.
  skip_call. rename x into order_date.
  run always_randint. intros k Hk.
  run (always_sample (A := Product.t)). intros choices [Hsub Hlen].
  assert (Hin : ∀ p, p ∈ choices → p ∈ products).
  { intros p Hp. by eapply elem_of_submseteq. }
  run (always_add_items oid choices 0).
  { rewrite Forall_forall in Hpr |- *. auto. }
  intros [[line_total items] order_item_id] (new & -> & Hnew & Hids & -> & ->).
  skip_call. skip_call.
  run always_randint. intros h Hh.
  apply always_ret.
  pose proof (Forall2_length _ _ _ Hnew) as Hlen'.
  eexists _, new, _. cbn [st_orders st_items st_payments st_payment_id st_order_item_id].
  split_and!; try reflexivity; try done.
  - cbn. by apply list_elem_of_fmap_2.
  - unfold order_ok. cbn [Order.order_id Order.total_amount].
    split; [lia|]. split; [lia|]. split; [|split].
    + assert (OrderItem.product_id <$> new = Product.product_id <$> choices) as ->.
      { clear -Hnew. induction Hnew as [|p it ps its (_ & Hid & _) _ IH]; [done|].
        cbn. by rewrite Hid, IH. }
      eapply submseteq_NoDup; [|done]. by apply fmap_submseteq.
    + clear -Hnew Hin. induction Hnew as [|p it ps its Hit _ IH]; constructor.
      * exists p. split; [apply Hin; left|done].
      * apply IH. intros q Hq. apply Hin. by right.
    + unfold money. rewrite DecFacts.quantize_cents_exact. f_equal; lia.
  - split; [done|]. split; [done|]. cbn [Payment.paid_at Order.order_date].
    destruct (paid_at_after_order_day order_date h) as (t & Ht & Heq).
    by exists h, t.
Qed.

(** ** The loop invariant *)

Lemma filter_none {A} (P : A → Prop) `{!∀ x, Decision (P x)} (l : list A) :
  Forall (λ x, ¬ P x) l → filter P l = [].
Proof.
  induction 1 as [|x l Hx _ IH]; [done|]. by rewrite filter_cons_False.
Qed.

Lemma filter_all {A} (P : A → Prop) `{!∀ x, Decision (P x)} (l : list A) :
  Forall P l → filter P l = l.
Proof.
  induction 1 as [|x l Hx _ IH]; [done|]. by rewrite filter_cons_True, IH.
Qed.

Lemma loop_inv_init (users : list User.t) (products : list Product.t) :
  loop_inv users products [] (mkState [] [] [] 1 1).
Proof. unfold loop_inv. cbn. split_and!; done. Qed.

Lemma loop_inv_step (users : list User.t) (products : list Product.t)
    (pre : list Z) (x : Z) (st st' : orders_state) :
  x ∉ pre →
  loop_inv users products pre st →
  step_rel users products x st st' →
  loop_inv users products (pre ++ [x]) st'.
Proof.
  intros Hx (Hoids & Hpay & Hpids & Hpid & Hiids & Hiid & Husers & Hitems & Hok)
    (o & its & p & Eo & Ei & Ep & Epid & Eiid & Hnew & Hoid & Huser & Hp & Hord & Hpo).
  assert (Hits : Forall (λ it, OrderItem.order_id it = x) its).
  { destruct Hord as (_ & _ & _ & Hfor & _).
    eapply Forall_impl; [exact Hfor|]. intros it (q & _ & Hq & _). cbn in Hq. congruence. }
  unfold loop_inv. rewrite Eo, Ei, Ep, Epid, Eiid, !fmap_app, !length_app.
  rewrite !Nat2Z.inj_add. cbn [length fmap list_fmap].
  split_and!.
  - by rewrite Hoids, Hoid.
  - apply Forall2_app; [done|by constructor].
  - rewrite seqZ_app, Hpids by lia. cbn. by rewrite Hp, Hpid.
  - lia.
  - rewrite seqZ_app, Hiids, Hnew, Hiid by lia. done.
  - lia.
  - apply Forall_app. split; [done|by constructor].
  - apply Forall_app. split.
    + eapply Forall_impl; [exact Hitems|]. intros it Hit.
      apply elem_of_app. by left.
    + eapply Forall_impl; [exact Hits|]. intros it ->.
      apply elem_of_app. right. by apply list_elem_of_singleton.
  - apply Forall_app. split.
    + rewrite Forall_forall in Hok |- *. intros o' Ho'.
      rewrite filter_app, (filter_none _ its), app_nil_r; [by apply Hok|].
      eapply Forall_impl; [exact Hits|]. intros it -> Heq.
      apply Hx. rewrite Heq, <- Hoids. by apply list_elem_of_fmap_2.
    + constructor; [|done].
      rewrite filter_app, (filter_none _ (st_items st)), (filter_all _ its); [done|..].
      * eapply Forall_impl; [exact Hits|]. intros it ->. done.
      * eapply Forall_impl; [exact Hitems|]. intros it Hit Heq.
        apply Hx. by rewrite <- Hoid, <- Heq.
Qed.

Lemma always_generate_orders (today : Z) (users : list User.t)
    (products : list Product.t) (order_count : Z) :
  wf_products products →
  always (generate_orders today users products order_count)
    (λ '(orders, items, payments),
       ∃ st, loop_inv users products (range1 order_count) st
             ∧ orders = st_orders st ∧ items = st_items st ∧ payments = st_payments st).
Proof.
  intros Hwf. unfold generate_orders.
  eapply always_bind.
  - apply always_for_each with (I := loop_inv users products).
    + apply loop_inv_init.
    + intros pre x post st Hxs Hinv.
      eapply always_weaken; [by apply always_order_step|].
      intros st' Hstep. eapply loop_inv_step; [|done..].
      pose proof (NoDup_seqZ 1 order_count) as Hnd. fold (range1 order_count) in Hnd.
      rewrite Hxs in Hnd. apply NoDup_app in Hnd as (_ & Hnd & _).
      intros Hin. apply (Hnd x Hin). by left.
  - intros st Hst. apply always_ret. by exists st.
Qed.

Lemma always_generate_users (today count : Z) :
  always (generate_users today count) (λ us, User.user_id <$> us = range1 count).
Proof.
  unfold generate_users.
  apply always_for_each with (I := λ pre us, User.user_id <$> us = pre); [done|].
  intros pre uid post us _ Hus.
  do 5 skip_call. apply always_ret. by rewrite fmap_app, Hus.
Qed.

(** Every run of [generate] that returns, returns a data set that satisfies
    the invariants. *)
Lemma always_generate (today_users today_orders user_count product_count order_count : Z) :
  always (generate today_users today_orders user_count product_count order_count)
    (run_ok user_count product_count order_count).
Proof.
  unfold generate.
  run always_generate_users. intros us Hus.
  run always_generate_products. intros ps [Hwf Hlen].
  run (always_generate_orders today_orders us ps order_count); [done|].
  intros [[os its] pays] (st & Hinv & -> & -> & ->).
  apply always_ret. unfold run_ok. cbn. split_and!; [done..|]. by exists st.
Qed.

Lemma generate_run_ok (today_users today_orders user_count product_count order_count : Z)
    (tape tape' : list N) (ds : dataset) :
  generate today_users today_orders user_count product_count order_count tape
  = Ok (ds, tape') →
  run_ok user_count product_count order_count ds.
Proof. apply always_generate. Qed.

(** ** When generation returns, and when it raises *)

Lemma succeeds_random_date (start end_ : Z) : start ≤ end_ → succeeds (random_date start end_).
Proof.
  intros Hle. unfold random_date.
  eapply succeeds_bind with (P := λ _, True); [|done|intros; apply succeeds_ret].
  apply succeeds_randint. apply FloatFacts.total_seconds_int_nonneg. lia.
Qed.

Lemma succeeds_generate_users (today count : Z) : succeeds (generate_users today count).
Proof.
  unfold generate_users.
  apply succeeds_for_each with (I := λ _ _, True); [done|..].
  { intros. by apply always_weaken with (P := λ _, True). }
  intros _ uid _ us _ _.
  eapply succeeds_bind with (P := λ _, True); [by apply succeeds_choice|done|intros first _].
  eapply succeeds_bind with (P := λ _, True); [by apply succeeds_choice|done|intros last _].
  eapply succeeds_bind with (P := λ _, True); [by apply succeeds_randint|done|intros a _].
  eapply succeeds_bind with (P := λ _, True); [by apply succeeds_randint|done|intros b _].
  eapply succeeds_bind with (P := λ _, True); [|done|intros; apply succeeds_ret].
  apply succeeds_random_date. unfold Clock.timedelta_days, Clock.seconds_per_day,
    Clock.us_per_second. lia.
Qed.

Lemma succeeds_generate_products (count : Z) : succeeds (generate_products count).
Proof.
  unfold generate_products.
  apply succeeds_for_each with (I := λ _ _, True); [done|..].
  { intros. by apply always_weaken with (P := λ _, True). }
  intros _ pid _ ps _ _.
  eapply succeeds_bind with (P := λ _, True); [by apply succeeds_choice|done|intros ? _].
  eapply succeeds_bind with (P := λ _, True); [by apply succeeds_choice|done|intros ? _].
  eapply succeeds_bind with (P := λ _, True); [by apply succeeds_choice|done|intros ? _].
  eapply succeeds_bind with (P := λ _, True); [apply succeeds_uniform|done|intros ? _].
  eapply succeeds_bind with (P := λ _, True); [by apply succeeds_randint|done|
                                               intros; apply succeeds_ret].
Qed.

Lemma succeeds_add_items (oid : Z) (choices : list Product.t)
    (acc : Dec.Decimal * list OrderItem.t * Z) :
  Forall (λ p, priced 2000 120000 (Product.price p)) choices →
  succeeds (add_items oid choices acc).
Proof.
  intros Hpr. unfold add_items.
  apply succeeds_for_each with (I := λ _ _, True); [done|..].
  { intros. by apply always_weaken with (P := λ _, True). }
  intros pre product post [[line_total items] order_item_id] Hxs _.
  assert (Hp : priced 2000 120000 (Product.price product)).
  { rewrite Forall_forall in Hpr. apply Hpr. rewrite Hxs.
    apply elem_of_app. right. by left. }
  destruct Hp as (c & Hc & Hprice).
  eapply succeeds_bind with (P := λ _, True); [by apply succeeds_randint|done|intros qty _].
  rewrite Hprice, DecFacts.of_string_str_cents by lia. cbn [of_option].
  eapply succeeds_bind with (P := λ _, True);
    [apply succeeds_ret|done|intros; apply succeeds_ret].
Qed.

Lemma succeeds_choices1_statuses : succeeds (choices1 payment_statuses).
Proof.
  unfold choices1. change (foldr _ _ payment_statuses) with 100%N. cbn [N.eqb].
  eapply succeeds_bind; [apply succeeds_randbelow|apply always_randbelow; lia|].
  intros r Hr. cbv beta in Hr. unfold payment_statuses. cbn [pick_weighted].
  destruct (N.ltb_spec r 82); [apply succeeds_ret|].
  destruct (N.ltb_spec (r - 82) 12); [apply succeeds_ret|].
  destruct (N.ltb_spec (r - 82 - 12) 6); [apply succeeds_ret|lia].
Qed.

Lemma succeeds_order_step (today : Z) (users : list User.t) (products : list Product.t)
    (oid : Z) (st : orders_state) :
  users ≠ [] → products ≠ [] → wf_products products →
  succeeds (order_step today users products oid st).
Proof.
  intros Hu Hp [Hpr Hnd]. unfold order_step.
  assert (Hlen : 1 ≤ Z.of_nat (length products)).
  { destruct products; [done|]. cbn [length]. lia. }
  eapply succeeds_bind with (P := λ _, True); [by apply succeeds_choice|done|intros user _].
  eapply succeeds_bind with (P := λ _, True); [|done|intros order_date _].
  { apply succeeds_random_date. unfold Clock.timedelta_days, Clock.seconds_per_day,
      Clock.us_per_second. lia. }
  eapply succeeds_bind; [apply succeeds_randint; lia|apply always_randint|].
  intros k Hk. cbv beta in Hk.
  eapply succeeds_bind; [apply succeeds_sample; lia|apply always_sample|].
  intros choices [Hsub _].
  eapply succeeds_bind with (P := λ _, True); [|done|intros [[line_total items] next] _].
  { apply succeeds_add_items. rewrite Forall_forall in Hpr |- *.
    intros p Hin. apply Hpr. by eapply elem_of_submseteq. }
  eapply succeeds_bind with (P := λ _, True);
    [apply succeeds_choices1_statuses|done|intros status _].
  eapply succeeds_bind with (P := λ _, True); [by apply succeeds_choice|done|intros m _].
  eapply succeeds_bind with (P := λ _, True);
    [by apply succeeds_randint|done|intros; apply succeeds_ret].
Qed.

Lemma succeeds_generate_orders (today : Z) (users : list User.t)
    (products : list Product.t) (order_count : Z) :
  users ≠ [] → products ≠ [] → wf_products products →
  succeeds (generate_orders today users products order_count).
Proof.
  intros Hu Hp Hwf. unfold generate_orders.
  eapply succeeds_bind with (P := λ _, True); [|done|intros; apply succeeds_ret].
  apply succeeds_for_each with (I := λ _ _, True); [done|..].
  { intros. by apply always_weaken with (P := λ _, True). }
  intros. by apply succeeds_order_step.
Qed.

Lemma range1_cons (n : Z) : 1 ≤ n → range1 n = 1 :: seqZ 2 (n - 1).
Proof. intros Hn. unfold range1. by rewrite seqZ_cons by lia. Qed.

(** With at least one user and one product, generation returns. *)
Lemma succeeds_generate (today_users today_orders user_count product_count order_count : Z) :
  1 ≤ user_count → 1 ≤ product_count →
  succeeds (generate today_users today_orders user_count product_count order_count).
Proof.
  intros Huc Hpc. unfold generate.
  eapply succeeds_bind;
    [apply succeeds_generate_users|apply always_generate_users|intros us Hus].
  eapply succeeds_bind;
    [apply succeeds_generate_products|apply always_generate_products|intros ps [Hwf Hlen]].
  eapply succeeds_bind with (P := λ _, True); [|done|intros [[? ?] ?] _; apply succeeds_ret].
  apply succeeds_generate_orders; [| |done].
  - intros ->. by rewrite range1_cons in Hus.
  - intros ->. cbn in Hlen. lia.
Qed.



End GenerateFacts.

(** * Properties of generated data sets *)

Module DatasetFacts.

Import Generate Inv.

Lemma generated_run_ok (ds : dataset) :
  Spec.generated ds → ∃ uc pc oc, run_ok uc pc oc ds.
Proof.
  intros (t1 & t2 & uc & pc & oc & tape & tape' & Hrun).
  exists uc, pc, oc. by eapply GenerateFacts.generate_run_ok.
Qed.

Lemma seqZ_of_to_nat (m n : Z) : seqZ m (Z.of_nat (Z.to_nat n)) = seqZ m n.
Proof. unfold seqZ. by rewrite Nat2Z.id. Qed.

Lemma range1_length (n : Z) : seqZ 1 (Z.of_nat (length (range1 n))) = range1 n.
Proof. unfold range1. by rewrite length_seqZ, seqZ_of_to_nat. Qed.

(** The payments and the orders of a run go in pairs, in the same order. *)
Lemma run_ok_pairs (uc pc oc : Z) (ds : dataset) :
  run_ok uc pc oc ds →
  Order.order_id <$> orders ds = range1 oc ∧
  Payment.payment_id <$> payments ds = range1 oc ∧
  Forall2 pay_ok (orders ds) (payments ds).
Proof.
  intros (_ & _ & _ & st & (Hoids & Hpay & Hpids & _) & -> & _ & ->).
  by rewrite Hpids, range1_length.
Qed.

Lemma pay_ok_order_ids (os : list Order.t) (ps : list Payment.t) :
  Forall2 pay_ok os ps → Payment.order_id <$> ps = Order.order_id <$> os.
Proof.
  induction 1 as [|o p os ps (Hid & _) _ IH]; [done|]. cbn. by rewrite Hid, IH.
Qed.

(** With distinct order ids, the payments that reference an order are
    exactly the one generated with it. *)
Lemma payment_of_order (os : list Order.t) (ps : list Payment.t) (o : Order.t) :
  Forall2 pay_ok os ps → NoDup (Order.order_id <$> os) → o ∈ os →
  ∃ p, filter (λ p, Payment.order_id p = Order.order_id o) ps = [p] ∧ pay_ok o p.
Proof.
  induction 1 as [|o' p' os ps Hop Hrest IH]; intros Hnd Ho.
  { by apply elem_of_nil in Ho. }
  cbn in Hnd. apply NoDup_cons in Hnd as [Hnotin Hnd].
  pose proof (pay_ok_order_ids _ _ Hrest) as Hids.
  apply elem_of_cons in Ho as [->|Ho].
  - exists p'. split; [|done].
    rewrite filter_cons_True by apply Hop.
    rewrite GenerateFacts.filter_none; [done|].
    apply Forall_forall. intros q Hq Heq. apply Hnotin.
    rewrite <- Heq, <- Hids. by apply list_elem_of_fmap_2.
  - destruct (IH Hnd Ho) as (p & Hp & Hok). exists p. split; [|done].
    rewrite filter_cons_False; [done|].
    destruct Hop as (-> & _). intros Heq. apply Hnotin.
    rewrite Heq. by apply list_elem_of_fmap_2.
Qed.

Lemma run_ok_payment (uc pc oc : Z) (ds : dataset) (o : Order.t) :
  run_ok uc pc oc ds → o ∈ orders ds →
  ∃ p, Spec.payments_of ds o = [p] ∧ pay_ok o p.
Proof.
  intros Hrun Ho. destruct (run_ok_pairs _ _ _ _ Hrun) as (Hoids & _ & Hpay).
  unfold Spec.payments_of. apply (payment_of_order (orders ds)); [done| |done].
  rewrite Hoids. apply NoDup_seqZ.
Qed.

Lemma run_ok_order (uc pc oc : Z) (ds : dataset) (o : Order.t) :
  run_ok uc pc oc ds → o ∈ orders ds →
  wf_products (products ds) ∧ length (products ds) = Z.to_nat pc ∧
  order_ok (products ds) o (Spec.items_of ds o).
Proof.
  intros (_ & Hwf & Hlen & st & Hinv & Eo & Ei & _) Ho.
  destruct Hinv as (_ & _ & _ & _ & _ & _ & _ & _ & Hok).
  split; [done|]. split; [done|].
  unfold Spec.items_of. rewrite Ei. rewrite Forall_forall in Hok. apply Hok.
  by rewrite <- Eo.
Qed.

(** ** The total of the specification, on priced items *)

Lemma foldl_add_cents (ds : list Dec.Decimal) (c : Z) :
  Forall (λ d, Dec.exp d = -2) ds →
  foldl Dec.add (Dec.mkDecimal c (-2)) ds
  = Dec.mkDecimal (c + foldr (λ d acc, Dec.coef d + acc) 0 ds) (-2).
Proof.
  intros Hds. revert c. induction Hds as [|[x e] ds He _ IH]; intros c; cbn.
  { f_equal; lia. }
  cbn in He. subst e. unfold Dec.add at 2. cbn.
  unfold Dec.pow10. change (10 ^ (-2 - Z.min (-2) (-2))) with 1.
  rewrite !Z.mul_1_r, IH. f_equal; lia.
Qed.

Lemma decimal_sum_cents (ds : list Dec.Decimal) :
  Forall (λ d, Dec.exp d = -2) ds →
  Dec.quantize_cents (Spec.decimal_sum ds) = foldr (λ d acc, Dec.coef d + acc) 0 ds.
Proof.
  intros Hds. unfold Spec.decimal_sum. destruct Hds as [|[x e] ds He Hds]; [done|].
  cbn in He. subst e. cbn [foldl]. unfold Dec.add at 2. cbn.
  unfold Dec.pow10. change (10 ^ (0 - Z.min 0 (-2))) with 100.
  change (10 ^ (-2 - Z.min 0 (-2))) with 1.
  rewrite foldl_add_cents by done. rewrite DecFacts.quantize_cents_exact. lia.
Qed.

Lemma order_total_priced (its : list OrderItem.t) :
  Forall (λ it, priced 2000 120000 (OrderItem.unit_price it)) its →
  Spec.order_total its = Some (Dec.str_cents (items_cents its)).
Proof.
  intros Hits. unfold Spec.order_total.
  set (amount := λ it, Dec.mkDecimal
         (cents_of (OrderItem.unit_price it) * OrderItem.quantity it) (-2)).
  rewrite (mapM_Some_2 _ its (amount <$> its)).
  - cbn. f_equal. unfold money. f_equal.
    rewrite decimal_sum_cents.
    + clear Hits. induction its as [|it its IH]; [done|]. cbn. by rewrite IH.
    + apply Forall_fmap, Forall_forall. done.
  - apply Forall2_fmap_r, Forall_Forall2_diag.
    eapply Forall_impl; [exact Hits|]. intros it (c & Hc & Hprice).
    unfold Spec.item_amount, amount, cents_of. cbn.
    rewrite Hprice, DecFacts.of_string_str_cents by lia. cbn.
    unfold Dec.quantize, Dec.mul_int. cbn [Dec.coef Dec.exp].
    by rewrite DecFacts.quantize_cents_exact.
Qed.

Lemma order_ok_priced (products : list Product.t) (o : Order.t) (its : list OrderItem.t) :
  wf_products products → order_ok products o its →
  Forall (λ it, priced 2000 120000 (OrderItem.unit_price it)) its.
Proof.
  intros [Hpr _] (_ & _ & _ & Hfor & _).
  eapply Forall_impl; [exact Hfor|]. intros it (p & Hp & _ & _ & -> & _).
  rewrite Forall_forall in Hpr. by apply Hpr.
Qed.

(** The cents of an order stay far below the 28 digits of the default
    decimal context. *)
Lemma total_cents_small (products : list Product.t) (o : Order.t) (its : list OrderItem.t) :
  wf_products products → order_ok products o its →
  0 ≤ items_cents its ≤ 1440000.
Proof.
  intros Hwf Hok. pose proof (order_ok_priced _ _ _ Hwf Hok) as Hpr.
  destruct Hok as ([_ Hlen] & _ & _ & Hfor & _).
  assert (Hb : 0 ≤ items_cents its ≤ 360000 * Z.of_nat (length its)); [|lia].
  clear Hlen. induction its as [|it its IH]; [cbn; lia|].
  apply Forall_cons in Hpr as [(c & Hc & Hprice) Hpr].
  apply Forall_cons in Hfor as [(p & _ & _ & _ & _ & Hq) Hfor].
  specialize (IH Hfor Hpr). cbn [items_cents foldr length].
  fold (items_cents its). rewrite Hprice, GenerateFacts.cents_of_str_cents by lia. nia.
Qed.

End DatasetFacts.

Module DatasetClaims.

Import Generate Inv DatasetFacts.

(** C1: in every generated data set, the [total_amount] of each order is the
    decimal sum, over the line items that share its [order_id], of
    [unit_price * quantity], each item rounded half up to two decimals before
    the sum and the sum rounded half up to two decimals. *)
Theorem order_total_is_rounded_item_sum (ds : dataset) (o : Order.t) :
  Spec.generated ds → o ∈ orders ds →
  Spec.order_total (Spec.items_of ds o) = Some (Order.total_amount o).
Proof.
  intros (uc & pc & oc & Hrun)%generated_run_ok Ho.
  destruct (run_ok_order _ _ _ _ _ Hrun Ho) as (Hwf & _ & Hok).
  rewrite order_total_priced by (by eapply order_ok_priced).
  by destruct Hok as (_ & _ & _ & _ & ->).
Qed.

Lemma order_total_is_rounded_item_sum_witness :
  Spec.generated Examples.ds1 ∧
  Examples.order1 ∈ orders Examples.ds1 ∧
  Spec.order_total (Spec.items_of Examples.ds1 Examples.order1)
  = Some (Order.total_amount Examples.order1).
Proof.
  assert (Hg : Spec.generated Examples.ds1).
  { exists Examples.now1, Examples.now1, 2, 3, 3, Examples.tape1, Examples.rest1.
    vm_compute. reflexivity. }
  assert (Ho : Examples.order1 ∈ orders Examples.ds1) by apply list_elem_of_here.
  exact (conj Hg (conj Ho (order_total_is_rounded_item_sum _ _ Hg Ho))).
Defined.

(** C4: in every generated data set, exactly one payment row references each
    order, and its [amount] is the order's [total_amount], as the same
    string. *)
Theorem one_payment_per_order_with_its_total (ds : dataset) (o : Order.t) :
  Spec.generated ds → o ∈ orders ds →
  ∃ p, Spec.payments_of ds o = [p] ∧ Payment.amount p = Order.total_amount o.
Proof.
  intros (uc & pc & oc & Hrun)%generated_run_ok Ho.
  destruct (run_ok_payment _ _ _ _ _ Hrun Ho) as (p & Hp & _ & Hamount & _).
  by exists p.
Qed.

Lemma one_payment_per_order_with_its_total_witness :
  Spec.generated Examples.ds1 ∧
  Examples.order1 ∈ orders Examples.ds1 ∧
  ∃ p, Spec.payments_of Examples.ds1 Examples.order1 = [p]
       ∧ Payment.amount p = Order.total_amount Examples.order1.
Proof.
  assert (Hg : Spec.generated Examples.ds1).
  { exists Examples.now1, Examples.now1, 2, 3, 3, Examples.tape1, Examples.rest1.
    vm_compute. reflexivity. }
  assert (Ho : Examples.order1 ∈ orders Examples.ds1) by apply list_elem_of_here.
  exact (conj Hg (conj Ho (one_payment_per_order_with_its_total _ _ Hg Ho))).
Defined.

(** C6: in every data set generated with [product_count >= 1], each order
    has between 1 and 4 line items, their [product_id]s are pairwise
    distinct, and with [product_count = 1] each order has exactly 1 item. *)
Theorem order_has_1_to_4_distinct_items
    (today_users today_orders user_count product_count order_count : Z)
    (tape tape' : list N) (ds : dataset) (o : Order.t) :
  generate today_users today_orders user_count product_count order_count tape
  = Ok (ds, tape') →
  1 ≤ product_count →
  o ∈ orders ds →
  (1 ≤ length (Spec.items_of ds o) ≤ 4)%nat ∧
  NoDup (OrderItem.product_id <$> Spec.items_of ds o) ∧
  (product_count = 1 → length (Spec.items_of ds o) = 1%nat).
Proof.
  intros Hrun%GenerateFacts.generate_run_ok Hpc Ho.
  destruct (run_ok_order _ _ _ _ _ Hrun Ho) as (_ & Hlen & Hbounds & Hle & Hnd & _).
  split; [done|]. split; [done|]. intros ->. rewrite Hlen in Hle.
  change (Z.to_nat 1) with 1%nat in Hle. lia.
Qed.

Lemma order_has_1_to_4_distinct_items_witness :
  generate Examples.now1 Examples.now1 1 1 1 Examples.tape_late = Ok (Examples.ds_late, []) ∧
  1 ≤ 1 ∧
  Examples.order_late ∈ orders Examples.ds_late ∧
  (1 ≤ length (Spec.items_of Examples.ds_late Examples.order_late) ≤ 4)%nat ∧
  NoDup (OrderItem.product_id <$> Spec.items_of Examples.ds_late Examples.order_late) ∧
  (1 = 1 → length (Spec.items_of Examples.ds_late Examples.order_late) = 1%nat).
Proof.
  assert (Hrun : generate Examples.now1 Examples.now1 1 1 1 Examples.tape_late = Ok (Examples.ds_late, []))
    by (vm_compute; reflexivity).
  assert (Hpc : 1 ≤ 1) by lia.
  assert (Ho : Examples.order_late ∈ orders Examples.ds_late) by apply list_elem_of_here.
  exact (conj Hrun (conj Hpc (conj Ho
           (order_has_1_to_4_distinct_items _ _ _ _ _ _ _ _ _ Hrun Hpc Ho)))).
Defined.

(** C7, as stated, fails: an order placed at 23:59:59 and paid 48 hours later
    has a [paid_at] almost 72 hours after its recorded [order_date], which
    keeps the day only. *)
Lemma paid_at_not_within_48_hours_of_order_date :
  ¬ (∀ ds, Spec.generated ds → Spec.paid_within_48_hours ds).
Proof.
  intros H.
  assert (Hg : Spec.generated Examples.ds_late).
  { exists Examples.now1, Examples.now1, 1, 1, 1, Examples.tape_late, []. vm_compute. reflexivity. }
  destruct (H _ Hg Examples.order_late Examples.payment_late) as [_ Hle];
    [apply list_elem_of_here..|reflexivity|].
  change (259199 ≤ 172800) in Hle. lia.
Qed.

(** C7, amended: in every generated data set, the [paid_at] of a payment is
    later than the midnight of its order's recorded [order_date] by at least
    1 hour and less than 72 hours: by [h] hours and [t] seconds, for some
    whole [h] between 1 and 48 and some [t] of less than a day. *)
Theorem paid_at_after_order_date (ds : dataset) (o : Order.t) (p : Payment.t) :
  Spec.generated ds → o ∈ orders ds → p ∈ payments ds →
  Payment.order_id p = Order.order_id o →
  (∃ h t, 1 ≤ h ≤ 48 ∧ 0 ≤ t < Clock.seconds_per_day ∧
          Payment.paid_at p
          = Order.order_date o * Clock.seconds_per_day + t + h * Clock.seconds_per_hour) ∧
  1 * Clock.seconds_per_hour
  ≤ Payment.paid_at p - Order.order_date o * Clock.seconds_per_day
  < 72 * Clock.seconds_per_hour.
Proof.
  intros (uc & pc & oc & Hrun)%generated_run_ok Ho Hp Hid.
  destruct (run_ok_payment _ _ _ _ _ Hrun Ho) as (p' & Hp' & _ & _ & Htime).
  assert (p = p') as <-.
  { assert (Hin : p ∈ Spec.payments_of ds o) by (by apply list_elem_of_filter).
    rewrite Hp' in Hin. by apply list_elem_of_singleton in Hin. }
  split; [done|]. destruct Htime as (h & t & Hh & Ht & ->).
  unfold Clock.seconds_per_day, Clock.seconds_per_hour in *. lia.
Qed.

Lemma paid_at_after_order_date_witness :
  Spec.generated Examples.ds_late ∧
  Examples.order_late ∈ orders Examples.ds_late ∧
  Examples.payment_late ∈ payments Examples.ds_late ∧
  Payment.order_id Examples.payment_late = Order.order_id Examples.order_late ∧
  (∃ h t, 1 ≤ h ≤ 48 ∧ 0 ≤ t < Clock.seconds_per_day ∧
          Payment.paid_at Examples.payment_late
          = Order.order_date Examples.order_late * Clock.seconds_per_day + t
            + h * Clock.seconds_per_hour) ∧
  1 * Clock.seconds_per_hour
  ≤ Payment.paid_at Examples.payment_late
    - Order.order_date Examples.order_late * Clock.seconds_per_day
  < 72 * Clock.seconds_per_hour.
Proof.
  assert (Hg : Spec.generated Examples.ds_late).
  { exists Examples.now1, Examples.now1, 1, 1, 1, Examples.tape_late, []. vm_compute. reflexivity. }
  assert (Ho : Examples.order_late ∈ orders Examples.ds_late) by apply list_elem_of_here.
  assert (Hp : Examples.payment_late ∈ payments Examples.ds_late) by apply list_elem_of_here.
  assert (Hid : Payment.order_id Examples.payment_late = Order.order_id Examples.order_late)
    by reflexivity.
  exact (conj Hg (conj Ho (conj Hp (conj Hid
           (paid_at_after_order_date _ _ _ Hg Ho Hp Hid))))).
Defined.

Lemma fmap_eq_Forall {A B} (f g : A → B) (l : list A) :
  f <$> l = g <$> l → Forall (λ x, f x = g x) l.
Proof.
  induction l as [|x l IH]; [constructor|]. cbn. intros [= Hx Hl]. constructor; auto.
Qed.

(** C10: in every generated data set, the [payment_id] of each payment is the
    [order_id] of the order it pays; the payment ids are 1, 2, ... without
    gap, and the payments reference the orders one for one, in order. *)
Theorem payment_id_is_order_id (ds : dataset) :
  Spec.generated ds →
  Forall (λ p, Payment.payment_id p = Payment.order_id p) (payments ds) ∧
  Payment.payment_id <$> payments ds = seqZ 1 (Z.of_nat (length (payments ds))) ∧
  Payment.order_id <$> payments ds = Order.order_id <$> orders ds.
Proof.
  intros (uc & pc & oc & Hrun)%generated_run_ok.
  destruct (run_ok_pairs _ _ _ _ Hrun) as (Hoids & Hpids & Hpay).
  pose proof (pay_ok_order_ids _ _ Hpay) as Hrefs.
  split; [|split; [|done]].
  - apply fmap_eq_Forall. by rewrite Hpids, Hrefs, Hoids.
  - rewrite <- (length_fmap Payment.payment_id), Hpids. by rewrite range1_length.
Qed.

Lemma payment_id_is_order_id_witness :
  Spec.generated Examples.ds1 ∧
  Forall (λ p, Payment.payment_id p = Payment.order_id p) (payments Examples.ds1) ∧
  Payment.payment_id <$> payments Examples.ds1
  = seqZ 1 (Z.of_nat (length (payments Examples.ds1))) ∧
  Payment.order_id <$> payments Examples.ds1 = Order.order_id <$> orders Examples.ds1.
Proof.
  assert (Hg : Spec.generated Examples.ds1).
  { exists Examples.now1, Examples.now1, 2, 3, 3, Examples.tape1, Examples.rest1.
    vm_compute. reflexivity. }
  exact (conj Hg (payment_id_is_order_id _ Hg)).
Defined.

End DatasetClaims.

(** * The generator's [main]: failing before anything is written *)

Module ExporterClaims.

Import Generate Inv Exporter.


(** With fewer than four products the bound of the sample size is clamped to
    their number, and the run returns normally: here two products, and an
    order with two line items. *)
Lemma two_products_are_clamped_not_rejected :
  ∃ ds rest,
    generate Examples.now1 Examples.now1 1 2 1 [0; 0; 0; 0; 0; 0; 0; 0; 0; 0; 0; 0; 0; 0; 0;
                                                 0; 0; 3]%N
    = Ok (ds, rest) ∧
    length (order_items ds) = 2%nat.
Proof. eexists _, _. split; vm_compute; reflexivity. Qed.



(** With at least one user and one product the run returns normally, however
    few the products. *)
Lemma main_succeeds (a : args) (today_users today_orders : Z) (tape : list N) (fs : Fs.t) :
  1 ≤ arg_users a → 1 ≤ arg_products a →
  ∃ msg, (main a today_users today_orders tape fs).2 = Ok msg.
Proof.
  intros Hu Hp.
  destruct (GenerateFacts.succeeds_generate today_users today_orders
              (arg_users a) (arg_products a) (arg_orders a) Hu Hp tape)
    as (ds & rest & Hrun).
  unfold main. rewrite Hrun. by eexists.
Qed.

End ExporterClaims.

(** * The loader: what a failed load leaves in the store *)

Module IngestFacts.

Section Loader.

Variable real : Type.
Variable py_int : string → option Z.
Variable py_float : string → option real.

(** Deleting children before parents never trips a foreign key: the tables
    are all empty, and committed so. *)
Lemma clear_tables_empties (c : Db.conn real) :
  Ingest.clear_tables real c = Ok (Db.mkConn Db.empty Db.empty).
Proof. reflexivity. Qed.

(** A missing data directory ends the run before the store is opened. *)
Lemma main_without_data_dir (fs : Fs.t) (db : option (Db.store real)) :
  Ingest.DATA_DIR ∉ Fs.dirs fs →
  Ingest.main real py_int py_float fs db
  = (db, Raise (SystemExit ("Data directory not found at " ++ Ingest.DATA_DIR))).
Proof.
  intros Hdir. unfold Ingest.main. by rewrite bool_decide_eq_false_2.
Qed.

(** Once the directory is there, any exception during the inserts leaves
    the committed deletion: five empty tables. *)
Lemma main_failed_load (fs : Fs.t) (db : option (Db.store real)) (e : exn) :
  Ingest.DATA_DIR ∈ Fs.dirs fs →
  Ingest.insert_all real py_int py_float fs Db.empty = Raise e →
  Ingest.main real py_int py_float fs db = (Some Db.empty, Raise e).
Proof.
  intros Hdir Hfail. unfold Ingest.main.
  rewrite bool_decide_eq_true_2 by done. cbn [negb].
  rewrite clear_tables_empties. cbn [Db.pending Db.durable]. by rewrite Hfail.
Qed.

(** The first of the five files missing. *)
Lemma insert_all_without_users_file (fs : Fs.t) (s : Db.store real) :
  Fs.files fs !! "data/users.csv"%string = None →
  Ingest.insert_all real py_int py_float fs s
  = Raise (FileNotFoundError "data/users.csv").
Proof.
  intros Hnone. unfold Ingest.insert_all, Ingest.executemany, Ingest.load_users,
    Ingest.dict_reader. by rewrite Hnone.
Qed.

Lemma main_without_users_file (fs : Fs.t) (db : option (Db.store real)) :
  Ingest.DATA_DIR ∈ Fs.dirs fs →
  Fs.files fs !! "data/users.csv"%string = None →
  Ingest.main real py_int py_float fs db
  = (Some Db.empty, Raise (FileNotFoundError "data/users.csv")).
Proof.
  intros Hdir Hnone. apply main_failed_load; [done|].
  by apply insert_all_without_users_file.
Qed.

End Loader.

(** C3, on the code: with the data directory in place and [payments.csv]
    missing, the load ends on [FileNotFoundError] and the store, which held a
    row, is left with five empty tables: the earlier rows are deleted, and
    the rows of the four files that were read are not kept. *)
Theorem missing_file_empties_store :
  Ingest.main Dec.Decimal Examples.int_of_digits Examples.decimal_float
    Examples.fs1_without_payments (Some Examples.old_store)
  = (Some Db.empty, Raise (FileNotFoundError "data/payments.csv")).
Proof. vm_compute. reflexivity. Qed.

End IngestFacts.

(** * The report *)

Module ReportFacts.

Import PyStr Report.

Section Query.

Variable real : Type.
Variable printf_2f : real → string.

(** A store without line items has no report row. *)
Lemma fetch_report_no_items (s : Db.store real) :
  Db.order_items s = [] → Report.fetch_report real printf_2f s = [].
Proof. intros H. unfold Report.fetch_report, Report.joined. by rewrite H. Qed.

Lemma header_only_table :
  format_table headers []
  = Ok (join newline
          ["user_id | name | order_id | product_name | quantity | unit_price | total_amount | payment_status | payment_method";
           "--------+------+----------+--------------+----------+------------+--------------+----------------+---------------"]%string).
Proof. vm_compute. reflexivity. Qed.

End Query.

(** C8: when the query of the report returns no row, the report prints the
    no-data message, and nothing else: neither a header-only table nor an
    empty line. *)
Theorem no_rows_prints_no_data (real : Type) (printf_2f : real → string)
    (s : Db.store real) :
  Report.fetch_report real printf_2f s = [] →
  Report.main real printf_2f (Some s) = Ok [no_data_message] ∧
  (∀ table, format_table headers [] = Ok table →
            Report.main real printf_2f (Some s) ≠ Ok [table]) ∧
  Report.main real printf_2f (Some s) ≠ Ok [EmptyString].
Proof.
  intros Hrows. unfold Report.main. rewrite Hrows.
  split; [done|]. split; [|done].
  intros table. rewrite header_only_table. intros [= <-] H.
  vm_compute in H. discriminate H.
Qed.

Lemma no_rows_prints_no_data_witness :
  Report.fetch_report Dec.Decimal Examples.decimal_printf_2f Db.empty = [] ∧
  Report.main Dec.Decimal Examples.decimal_printf_2f (Some Db.empty) = Ok [no_data_message] ∧
  (∀ table, format_table headers [] = Ok table →
            Report.main Dec.Decimal Examples.decimal_printf_2f (Some Db.empty) ≠ Ok [table]) ∧
  Report.main Dec.Decimal Examples.decimal_printf_2f (Some Db.empty) ≠ Ok [EmptyString].
Proof.
  assert (Hrows : Report.fetch_report Dec.Decimal Examples.decimal_printf_2f Db.empty = [])
    by reflexivity.
  exact (conj Hrows (no_rows_prints_no_data _ _ _ Hrows)).
Defined.

End ReportFacts.

(** * [format_table]: the loop over rows computes the column widths *)

Module TableFacts.

Import PyStr Report.

Lemma length_append (a b : string) :
  String.length (a ++ b) = (String.length a + String.length b)%nat.
Proof.
  induction a as [|c a IH]; [done|].
  rewrite DecFacts.app_cons. cbn [String.length]. by rewrite IH.
Qed.

Lemma length_repeat_char (n : nat) (c : ascii) :
  String.length (string_of_list_ascii (replicate n c)) = n.
Proof. induction n as [|n IH]; [done|]. cbn. by rewrite IH. Qed.

(** A cell no longer than the width is padded to exactly the width. *)
Lemma length_ljust (s : string) (w : nat) :
  (String.length s ≤ w)%nat → String.length (ljust s w) = w.
Proof.
  intros Hle. unfold ljust, spaces. rewrite length_append, length_repeat_char. lia.
Qed.

(** One row: the widths at the positions of its cells grow to the length of
    the cell, the others stay. *)
Lemma widen_row_spec (row : list string) (idx : nat) (ws : list nat) :
  (idx + length row ≤ length ws)%nat →
  ∃ ws', widen_row row idx ws = Ok ws' ∧ length ws' = length ws ∧
         ∀ j, ws' !! j
              = (λ w, if decide (idx ≤ j)%nat
                      then Nat.max w (from_option String.length 0%nat (row !! (j - idx)%nat))
                      else w) <$> ws !! j.
Proof.
  revert idx ws. induction row as [|col rest IH]; intros idx ws Hlen.
  - exists ws. split; [done|]. split; [done|]. intros j.
    destruct (ws !! j) as [w|]; [|done]. cbn. rewrite lookup_nil. cbn.
    case_decide; f_equal; lia.
  - cbn [length] in Hlen. cbn [widen_row]. unfold widen.
    destruct (lookup_lt_is_Some_2 ws idx) as [w Hw]; [lia|]. rewrite Hw.
    cbn [and_then].
    destruct (IH (S idx) (<[idx := Nat.max w (String.length col)]> ws))
      as (ws' & Hrun & Hlen' & Hlook); [rewrite length_insert; lia|].
    exists ws'. split; [done|]. rewrite length_insert in Hlen'. split; [done|].
    intros j. rewrite Hlook.
    destruct (decide (j = idx)) as [->|Hne].
    + rewrite list_lookup_insert_eq, Hw by lia. cbn.
      rewrite decide_False, decide_True by lia. by rewrite Nat.sub_diag.
    + rewrite list_lookup_insert_ne by done.
      destruct (ws !! j) as [w'|]; [|done]. cbn. f_equal.
      destruct (decide (idx ≤ j)%nat) as [Hle|Hgt].
      * rewrite decide_True by lia.
        replace (j - idx)%nat with (S (j - S idx)) by lia. done.
      * by rewrite decide_False by lia.
Qed.

(** All rows: each width grows to the longest cell of its column. *)
Lemma widen_rows_spec (str_rows : list (list string)) (ws : list nat) :
  Forall (λ row, (length row ≤ length ws)%nat) str_rows →
  ∃ ws', widen_rows str_rows ws = Ok ws' ∧ length ws' = length ws ∧
         ∀ j, ws' !! j
              = (λ w, max_list (w :: (String.length <$> Spec.column j str_rows)))
                <$> ws !! j.
Proof.
  intros Hrows. revert ws Hrows.
  induction str_rows as [|row rows IH]; intros ws Hrows.
  - exists ws. split; [done|]. split; [done|]. intros j.
    destruct (ws !! j) as [w|]; [|done]. cbn. f_equal. lia.
  - apply Forall_cons in Hrows as [Hrow Hrows]. cbn [widen_rows].
    destruct (widen_row_spec row 0 ws) as (ws1 & Hrun1 & Hlen1 & Hlook1); [lia|].
    rewrite Hrun1. cbn [and_then].
    destruct (IH ws1) as (ws' & Hrun & Hlen & Hlook); [by rewrite Hlen1|].
    exists ws'. split; [done|]. split; [congruence|].
    intros j. rewrite Hlook, Hlook1.
    destruct (ws !! j) as [w|]; [|done]. cbn. f_equal.
    rewrite decide_True, Nat.sub_0_r by lia.
    unfold Spec.column. cbn [omap list_omap].
    destruct (row !! j) as [c|]; cbn; lia.
Qed.

(** The widths that the loop leaves are the column widths of the
    specification. *)
Lemma widen_rows_widths (headers : list string) (str_rows : list (list string)) :
  Forall (λ row, (length row ≤ length headers)%nat) str_rows →
  widen_rows str_rows (String.length <$> headers) = Ok (Spec.widths headers str_rows).
Proof.
  intros Hrows.
  destruct (widen_rows_spec str_rows (String.length <$> headers))
    as (ws' & Hrun & _ & Hlook); [by rewrite length_fmap|].
  rewrite Hrun. f_equal. apply list_eq. intros j.
  unfold Spec.widths. rewrite Hlook, list_lookup_imap, list_lookup_fmap.
  by destruct (headers !! j).
Qed.

Lemma fmt_cells_spec (ws : list nat) (row : list string) (idx : nat) :
  (idx + length row ≤ length ws)%nat →
  fmt_cells ws idx row = Ok (zip_with ljust row (drop idx ws)).
Proof.
  revert idx. induction row as [|col rest IH]; intros idx Hlen; [done|].
  cbn [length] in Hlen. cbn [fmt_cells].
  destruct (lookup_lt_is_Some_2 ws idx) as [w Hw]; [lia|].
  rewrite Hw, IH by lia. cbn [and_then]. by rewrite (drop_S _ _ _ Hw).
Qed.

Lemma fmt_row_line (ws : list nat) (row : list string) :
  (length row ≤ length ws)%nat → fmt_row ws row = Ok (Spec.line ws row).
Proof. intros Hlen. unfold fmt_row. by rewrite fmt_cells_spec by lia. Qed.

Lemma fmt_rows_lines (ws : list nat) (str_rows : list (list string)) :
  Forall (λ row, (length row ≤ length ws)%nat) str_rows →
  fmt_rows ws str_rows = Ok (Spec.line ws <$> str_rows).
Proof.
  induction 1 as [|row rows Hrow _ IH]; [done|].
  cbn [fmt_rows]. by rewrite fmt_row_line, IH.
Qed.

Lemma length_widths (headers : list string) (str_rows : list (list string)) :
  length (Spec.widths headers str_rows) = length headers.
Proof. unfold Spec.widths. by rewrite length_imap. Qed.

(** The width of a column is at least the length of each of its cells. *)
Lemma cell_fits (headers : list string) (str_rows : list (list string))
    (row : list string) (i : nat) (cell : string) (w : nat) :
  row ∈ headers :: str_rows → row !! i = Some cell →
  Spec.widths headers str_rows !! i = Some w →
  (String.length cell ≤ w)%nat.
Proof.
  intros Hrow Hcell Hw. unfold Spec.widths in Hw.
  apply list_lookup_imap_Some in Hw as (h & Hh & ->).
  apply max_list_elem_of_le. apply elem_of_cons in Hrow as [->|Hrow].
  - assert (h = cell) as -> by congruence. left.
  - right. apply list_elem_of_fmap_2. unfold Spec.column.
    apply list_elem_of_omap. by exists row.
Qed.

End TableFacts.

Module TableClaims.

Import PyStr Report TableFacts.

(** C9, as stated for every list of rows, fails: a row with more cells than
    there are headers is not rendered, [widths[idx]] raises [IndexError]. *)
Lemma row_longer_than_headers_raises :
  format_table ["id"]%string [[VInt 1; VStr "extra"]] = Raise index_error ∧
  ¬ (∀ headers rows,
       format_table headers rows = Ok (Spec.fixed_width_table headers (Spec.rendered rows))).
Proof.
  assert (H : format_table ["id"]%string [[VInt 1; VStr "extra"]] = Raise index_error)
    by (vm_compute; reflexivity).
  split; [exact H|]. intros Hall. rewrite Hall in H. discriminate H.
Qed.

(** C9, amended: for every list of headers and every list of rows none of
    which has more cells than there are headers, the rendered table is
    fixed-width: the width of each column is the maximum of the length of
    its header and of the lengths of the rendered cells of that column;
    every cell is left-justified to that width, so that it fills it exactly;
    cells are separated by [" | "]; and the line after the header is the
    divider, one run of dashes per column as long as the column is wide,
    joined by ["-+-"]. *)
Theorem format_table_is_fixed_width (headers : list string) (rows : list (list value)) :
  Forall (λ row, (length row ≤ length headers)%nat) rows →
  format_table headers rows = Ok (Spec.fixed_width_table headers (Spec.rendered rows)) ∧
  length (Spec.widths headers (Spec.rendered rows)) = length headers ∧
  (∀ row i cell,
     row ∈ headers :: Spec.rendered rows → row !! i = Some cell →
     ∃ w, Spec.widths headers (Spec.rendered rows) !! i = Some w ∧
          String.length (ljust cell w) = w ∧
          ljust cell w = (cell ++ spaces (w - String.length cell))%string) ∧
  (∀ i w, Spec.widths headers (Spec.rendered rows) !! i = Some w →
          String.length (dashes w) = w).
Proof.
  intros Hrows.
  assert (Hstr : Forall (λ row, (length row ≤ length headers)%nat) (Spec.rendered rows)).
  { unfold Spec.rendered. apply Forall_fmap. eapply Forall_impl; [exact Hrows|].
    intros row Hrow. cbn. by rewrite length_fmap. }
  pose proof (length_widths headers (Spec.rendered rows)) as Hlen.
  split_and!.
  - unfold format_table. fold (Spec.rendered rows).
    rewrite widen_rows_widths by done. cbn [and_then].
    rewrite fmt_row_line by (by rewrite Hlen).
    rewrite fmt_rows_lines by (by rewrite Hlen). done.
  - done.
  - intros row i cell Hrow Hcell.
    assert (Hshort : (length row ≤ length headers)%nat).
    { apply elem_of_cons in Hrow as [->|Hrow]; [done|].
      rewrite Forall_forall in Hstr. by apply Hstr. }
    destruct (lookup_lt_is_Some_2 (Spec.widths headers (Spec.rendered rows)) i)
      as [w Hw].
    { apply lookup_lt_Some in Hcell. lia. }
    exists w. split; [done|]. split; [|done].
    apply length_ljust. by eapply cell_fits.
  - intros i w _. apply length_repeat_char.
Qed.

Lemma format_table_is_fixed_width_witness :
  Forall (λ row, (length row ≤ length ["id"; "name"]%string)%nat)
    [[VInt 1; VStr "Alice"]; [VInt 1234]] ∧
  format_table ["id"; "name"]%string [[VInt 1; VStr "Alice"]; [VInt 1234]]
  = Ok (Spec.fixed_width_table ["id"; "name"]%string
          (Spec.rendered [[VInt 1; VStr "Alice"]; [VInt 1234]])) ∧
  length (Spec.widths ["id"; "name"]%string
            (Spec.rendered [[VInt 1; VStr "Alice"]; [VInt 1234]]))
  = length ["id"; "name"]%string ∧
  (∀ row i cell,
     row ∈ ["id"; "name"]%string :: Spec.rendered [[VInt 1; VStr "Alice"]; [VInt 1234]] →
     row !! i = Some cell →
     ∃ w, Spec.widths ["id"; "name"]%string
            (Spec.rendered [[VInt 1; VStr "Alice"]; [VInt 1234]]) !! i = Some w ∧
          String.length (ljust cell w) = w ∧
          ljust cell w = (cell ++ spaces (w - String.length cell))%string) ∧
  (∀ i w, Spec.widths ["id"; "name"]%string
            (Spec.rendered [[VInt 1; VStr "Alice"]; [VInt 1234]]) !! i = Some w →
          String.length (dashes w) = w).
Proof.
  assert (Hrows : Forall (λ row, (length row ≤ length ["id"; "name"]%string)%nat)
                    [[VInt 1; VStr "Alice"]; [VInt 1234]]).
  { repeat constructor. }
  exact (conj Hrows (format_table_is_fixed_width _ _ Hrows)).
Defined.

(** The table of the witness, as printed. *)
Example table_of_two_rows :
  format_table ["id"; "name"]%string [[VInt 1; VStr "Alice"]; [VInt 1234]]
  = Ok (join newline ["id   | name "; "-----+------"; "1    | Alice"; "1234"]%string).
Proof. vm_compute. reflexivity. Qed.

End TableClaims.

(** * The three scripts in a row, on the sample run *)

Module PipelineExample.

(** The export of the sample run, loaded and reported: the report shows the
    unit prices and totals that were generated. *)
Example report_of_sample_run :
  Report.main Float.binary64 Float.printf_2f
    (Ingest.main Float.binary64 PyStr.int_of_string Float.of_string
       Examples.fs1 None).1
  = Ok [PyStr.join Report.newline
          ["user_id | name         | order_id | product_name           | quantity | unit_price | total_amount | payment_status | payment_method";
           "--------+--------------+----------+------------------------+----------+------------+--------------+----------------+---------------";
           "1       | Sophia Patel | 2        | Cascade Wireless Mouse | 2        | 570.46     | 2101.90      | Completed      | Apple Pay     ";
           "1       | Sophia Patel | 2        | TrailRunner Smartwatch | 2        | 480.49     | 2101.90      | Completed      | Apple Pay     ";
           "1       | Sophia Patel | 3        | Summit Laptop          | 1        | 1037.74    | 1037.74      | Completed      | Credit Card   ";
           "2       | Mason Walker | 1        | TrailRunner Smartwatch | 1        | 480.49     | 480.49       | Completed      | Credit Card   "]%string].
Proof. vm_compute. reflexivity. Qed.

End PipelineExample.

(** * Further properties of the generator *)

Module MoneyProps.

Import Dec.

Lemma quantize_cents_nonneg (d : Decimal) : 0 ≤ coef d → 0 ≤ quantize_cents d.
Proof.
  intros Hc. unfold quantize_cents, pow10.
  destruct (Z.leb_spec (-2) (exp d)) as [He|He].
  - apply Z.mul_nonneg_nonneg; [done|]. apply Z.pow_nonneg. lia.
  - assert (0 < 10 ^ (-2 - exp d)) by (apply Z.pow_pos_nonneg; lia).
    apply Z.mul_nonneg_nonneg; [lia|]. apply Z.div_pos; lia.
Qed.

(** [money] of a non-negative value whose cents fit the 28 digits of the
    context (beyond them the call raises) is a string that [Decimal] reads
    back as a number of cents with exactly two fractional digits, and [money]
    of what was read is the same string: a price survives being parsed and
    rendered again, as [generate_orders] does with [product.price]. *)
Theorem money_reads_back (d : Decimal) :
  0 ≤ coef d → fits_context d →
  ∃ c, 0 ≤ c ∧
       fits_context (mkDecimal c (-2)) ∧
       of_string (money d) = Some (mkDecimal c (-2)) ∧
       money (mkDecimal c (-2)) = money d.
Proof.
  intros Hc Hfit. exists (quantize_cents d).
  pose proof (quantize_cents_nonneg d Hc) as Hq.
  split; [done|].
  split; [unfold fits_context in *; by rewrite DecFacts.quantize_cents_exact|].
  unfold money at 1 2.
  split; [by apply DecFacts.of_string_str_cents|].
  by rewrite DecFacts.quantize_cents_exact.
Qed.

Lemma money_reads_back_witness :
  0 ≤ coef (mkDecimal 12345 (-3)) ∧
  fits_context (mkDecimal 12345 (-3)) ∧
  ∃ c, 0 ≤ c ∧
       fits_context (mkDecimal c (-2)) ∧
       of_string (money (mkDecimal 12345 (-3))) = Some (mkDecimal c (-2)) ∧
       money (mkDecimal c (-2)) = money (mkDecimal 12345 (-3)).
Proof.
  assert (H : 0 ≤ coef (mkDecimal 12345 (-3))) by (cbn; lia).
  assert (Hf : fits_context (mkDecimal 12345 (-3))) by (vm_compute; reflexivity).
  exact (conj H (conj Hf (money_reads_back _ H Hf))).
Defined.

(** [money] rounds a non-negative value with more than two fractional
    digits, whose cents fit the 28 digits of the context, to the nearest
    cent, a tie going up: the string it returns reads as [c] cents, and the
    value lies in [[c - 1/2, c + 1/2)] cents. *)
Theorem money_rounds_half_up (d : Decimal) :
  0 ≤ coef d → exp d < -2 → fits_context d →
  ∃ c, of_string (money d) = Some (mkDecimal c (-2)) ∧
       (2 * c - 1) * 10 ^ (-2 - exp d) ≤ 2 * coef d
       < (2 * c + 1) * 10 ^ (-2 - exp d).
Proof.
  intros Hc He _. exists (quantize_cents d).
  pose proof (quantize_cents_nonneg d Hc) as Hq0.
  split; [by apply DecFacts.of_string_str_cents|].
  unfold quantize_cents, pow10.
  destruct (Z.leb_spec (-2) (exp d)); [lia|].
  assert (Hq : 0 < 10 ^ (-2 - exp d)) by (apply Z.pow_pos_nonneg; lia).
  set (q := 10 ^ (-2 - exp d)) in *. rewrite Z.abs_eq by done.
  destruct (decide (coef d = 0)) as [E|E].
  - rewrite E. cbn [Z.sgn]. rewrite Z.mul_0_l. lia.
  - rewrite Z.sgn_pos, Z.mul_1_l by lia.
    pose proof (Z.div_mod (2 * coef d + q) (2 * q)) as Hdm.
    pose proof (Z.mod_pos_bound (2 * coef d + q) (2 * q)) as Hmod.
    lia.
Qed.

Lemma money_rounds_half_up_witness :
  0 ≤ coef (mkDecimal 125 (-3)) ∧ exp (mkDecimal 125 (-3)) < -2 ∧
  fits_context (mkDecimal 125 (-3)) ∧
  ∃ c, of_string (money (mkDecimal 125 (-3))) = Some (mkDecimal c (-2)) ∧
       (2 * c - 1) * 10 ^ (-2 - exp (mkDecimal 125 (-3))) ≤ 2 * coef (mkDecimal 125 (-3))
       < (2 * c + 1) * 10 ^ (-2 - exp (mkDecimal 125 (-3))).
Proof.
  assert (H1 : 0 ≤ coef (mkDecimal 125 (-3))) by (cbn; lia).
  assert (H2 : exp (mkDecimal 125 (-3)) < -2) by (cbn; lia).
  assert (H3 : fits_context (mkDecimal 125 (-3))) by (vm_compute; reflexivity).
  exact (conj H1 (conj H2 (conj H3 (money_rounds_half_up _ H1 H2 H3)))).
Defined.

End MoneyProps.

Module GeneratorProps.

Import Rng RngFacts Generate Inv Fields.

(** ** [random_date] *)

Lemma always_random_date (start end_ : Z) :
  0 ≤ end_ - start < Clock.exact_span →
  always (random_date start end_)
    (λ d, start ≤ d ≤ end_ ∧ (d - start) mod Clock.us_per_second = 0).
Proof.
  intros Hle. unfold random_date.
  eapply always_bind; [apply always_randint|]. cbv beta. intros r Hr.
  apply always_ret.
  rewrite FloatFacts.total_seconds_int_exact in Hr by lia.
  unfold Clock.timedelta_seconds, Clock.us_per_second in *.
  rewrite Z.quot_div_nonneg in Hr by lia.
  split; [|rewrite Z.add_simpl_l; apply Z_mod_mult].
  Z.div_mod_to_equations. lia.
Qed.

(** [random_date(start, end)] with [start <= end] less than 2 ^ 34 seconds
    apart (the span below which [int(delta.total_seconds())] is exact)
    returns a datetime between [start] and [end], a whole number of seconds
    after [start]. *)
Theorem random_date_in_range (start end_ : Z) (tape : list N) :
  start ≤ end_ → end_ - start < Clock.exact_span →
  ∃ d tape', random_date start end_ tape = Ok (d, tape') ∧
             start ≤ d ≤ end_ ∧ (d - start) mod Clock.us_per_second = 0.
Proof.
  intros Hle Hspan.
  destruct (GenerateFacts.succeeds_random_date start end_ Hle tape) as (d & tape' & Hrun).
  exists d, tape'. split; [done|].
  apply (always_random_date start end_ ltac:(lia) _ _ _ Hrun).
Qed.

Lemma random_date_in_range_witness :
  0 ≤ 10000000 ∧ 10000000 - 0 < Clock.exact_span ∧
  ∃ d tape', random_date 0 10000000 [7%N] = Ok (d, tape') ∧
             0 ≤ d ≤ 10000000 ∧ (d - 0) mod Clock.us_per_second = 0.
Proof.
  assert (H : 0 ≤ 10000000) by lia.
  assert (H' : 10000000 - 0 < Clock.exact_span) by (vm_compute; reflexivity).
  exact (conj H (conj H' (random_date_in_range 0 10000000 [7%N] H H'))).
Defined.

(** When [end] is a second or more (and less than 2 ^ 34 seconds) before
    [start], [random_date] raises the [ValueError] of [random.randint] on an
    empty range. *)
Theorem random_date_reversed_raises (start end_ : Z) (tape : list N) :
  - Clock.exact_span < end_ - start ≤ - Clock.us_per_second →
  ∃ msg, random_date start end_ tape = Raise (ValueError msg).
Proof.
  intros Hle. unfold random_date, randint, bind.
  rewrite FloatFacts.total_seconds_int_exact by (unfold Clock.us_per_second in *; lia).
  unfold Clock.us_per_second in *.
  assert (Hq : (end_ - start) ÷ 1000000 < 0).
  { rewrite <- (Z.opp_involutive (end_ - start)), Z.quot_opp_l by lia.
    assert (1 ≤ - (end_ - start) ÷ 1000000); [|lia].
    apply Z.quot_le_lower_bound; lia. }
  destruct (Z.ltb_spec ((end_ - start) ÷ 1000000) 0); [by eexists|lia].
Qed.

Lemma random_date_reversed_raises_witness :
  - Clock.exact_span < 0 - 1000000 ≤ - Clock.us_per_second ∧
  ∃ msg, random_date 1000000 0 [] = Raise (ValueError msg).
Proof.
  assert (H : - Clock.exact_span < 0 - 1000000 ≤ - Clock.us_per_second)
    by (vm_compute; split; [reflexivity|discriminate]).
  exact (conj H (random_date_reversed_raises 1000000 0 [] H)).
Defined.

Lemma day_of_minus_days (today k : Z) :
  Clock.day_of (today - Clock.timedelta_days k) = Clock.day_of today - k.
Proof.
  unfold Clock.day_of, Clock.timedelta_days.
  replace (today - k * Clock.seconds_per_day * Clock.us_per_second)
    with (today + (- k) * (Clock.seconds_per_day * Clock.us_per_second)) by lia.
  rewrite Z.div_add by done. lia.
Qed.

Lemma day_of_mono (a b : Z) : a ≤ b → Clock.day_of a ≤ Clock.day_of b.
Proof. intros Hle. unfold Clock.day_of. by apply Z.div_le_mono. Qed.

Lemma day_in_window (today d lo hi : Z) :
  today - Clock.timedelta_days lo ≤ d ≤ today - Clock.timedelta_days hi →
  Clock.day_of today - lo ≤ Clock.day_of d ≤ Clock.day_of today - hi.
Proof.
  intros [H1 H2]. rewrite <- !day_of_minus_days. split; by apply day_of_mono.
Qed.

(** ** [generate_users] *)

Lemma always_generate_users_dates (today count : Z) :
  always (generate_users today count)
    (λ us, User.user_id <$> us = range1 count ∧
           Forall (λ u, Clock.day_of today - 365 ≤ User.created_at u
                        ≤ Clock.day_of today - 10) us).
Proof.
  unfold generate_users.
  apply always_for_each with
    (I := λ pre us, User.user_id <$> us = pre ∧
            Forall (λ u, Clock.day_of today - 365 ≤ User.created_at u
                         ≤ Clock.day_of today - 10) us); [by split|].
  intros pre uid post us0 _ [Hids Hdates].
  do 4 GenerateFacts.skip_call.
  eapply always_bind; [apply always_random_date|].
  { unfold Clock.exact_span, Clock.timedelta_days, Clock.seconds_per_day,
      Clock.us_per_second. lia. }
  cbv beta. intros created_at [Hwin _]. apply always_ret. split.
  - by rewrite fmap_app, Hids.
  - apply Forall_app. split; [done|]. constructor; [|done]. cbn.
    by apply day_in_window.
Qed.

(** [generate_users(count)] never raises; the users get the ids 1, 2, ...
    in order, as many as [count] when it is positive and none otherwise, and
    each [created_at] is a day between 365 and 10 days before today. *)
Theorem generate_users_ids_and_dates (today count : Z) (tape : list N) :
  ∃ us tape',
    generate_users today count tape = Ok (us, tape') ∧
    User.user_id <$> us = seqZ 1 count ∧
    length us = Z.to_nat count ∧
    Forall (λ u, Clock.day_of today - 365 ≤ User.created_at u ≤ Clock.day_of today - 10) us.
Proof.
  destruct (GenerateFacts.succeeds_generate_users today count tape) as (us & tape' & Hrun).
  exists us, tape'. split; [done|].
  destruct (always_generate_users_dates _ _ _ _ _ Hrun) as [Hids Hdates].
  unfold range1 in Hids. split; [done|]. split; [|done].
  apply (f_equal length) in Hids. by rewrite length_fmap, length_seqZ in Hids.
Qed.

(** ** [generate_products] *)

Lemma always_generate_products_fields (count : Z) :
  always (generate_products count)
    (λ ps, Product.product_id <$> ps = range1 count ∧
           Forall (λ p, (∃ c, 2000 ≤ c ≤ 120000 ∧ Product.price p = Dec.str_cents c) ∧
                        20 ≤ Product.stock p ≤ 400 ∧
                        Product.category p ∈ categories) ps).
Proof.
  unfold generate_products.
  apply always_for_each with
    (I := λ pre ps, Product.product_id <$> ps = pre ∧
            Forall (λ p, (∃ c, 2000 ≤ c ≤ 120000 ∧ Product.price p = Dec.str_cents c) ∧
                         20 ≤ Product.stock p ≤ 400 ∧
                         Product.category p ∈ categories) ps); [by split|].
  intros pre pid post ps0 _ [Hids Hall].
  do 2 GenerateFacts.skip_call.
  eapply always_bind; [apply (always_choice categories)|]. cbv beta. intros category Hcat.
  eapply always_bind; [apply GenerateFacts.always_uniform_money|]. cbv beta.
  intros base_price Hprice.
  eapply always_bind; [apply always_randint|]. cbv beta. intros stock Hstock.
  apply always_ret. split.
  - by rewrite fmap_app, Hids.
  - apply Forall_app. split; [done|]. constructor; [|done]. by cbn.
Qed.

(** [generate_products(count)] never raises; the products get the ids
    1, 2, ... in order, each price is a money string between 20.00 and
    1200.00, each stock lies between 20 and 400, and each category is one of
    the seven listed. *)
Theorem generate_products_ids_prices_stock (count : Z) (tape : list N) :
  ∃ ps tape',
    generate_products count tape = Ok (ps, tape') ∧
    Product.product_id <$> ps = seqZ 1 count ∧
    length ps = Z.to_nat count ∧
    Forall (λ p, (∃ c, 2000 ≤ c ≤ 120000 ∧ Product.price p = Dec.str_cents c) ∧
                 20 ≤ Product.stock p ≤ 400 ∧
                 Product.category p ∈ categories) ps.
Proof.
  destruct (GenerateFacts.succeeds_generate_products count tape) as (ps & tape' & Hrun).
  exists ps, tape'. split; [done|].
  destruct (always_generate_products_fields _ _ _ _ Hrun) as [Hids Hall].
  unfold range1 in Hids. split; [done|]. split; [|done].
  apply (f_equal length) in Hids. by rewrite length_fmap, length_seqZ in Hids.
Qed.

(** ** [generate_orders]: dates, statuses and methods *)

Lemma pick_weighted_elem {A} (xs : list (A * N)) (r : N) (x : A) :
  pick_weighted xs r = Some x → x ∈ xs.*1.
Proof.
  revert r. induction xs as [|[y w] xs IH]; intros r; cbn; [done|].
  destruct (r <? w)%N.
  - intros [= ->]. left.
  - intros H. right. by eapply IH.
Qed.

Lemma always_choices1 {A} (population : list (A * N)) :
  always (choices1 population) (λ x, x ∈ population.*1).
Proof.
  unfold choices1. destruct (_ =? _)%N; [apply always_throw|].
  GenerateFacts.skip_call.
  eapply always_weaken; [apply always_of_option|].
  intros y Hy. exact (pick_weighted_elem _ _ _ Hy).
Qed.

Lemma always_order_step_fields (today : Z) (users : list User.t)
    (products : list Product.t) (oid : Z) (st : orders_state) :
  always (order_step today users products oid st)
    (λ st', ∃ o p, st_orders st' = st_orders st ++ [o] ∧
                   st_payments st' = st_payments st ++ [p] ∧
                   order_fields_ok today o ∧ payment_fields_ok p).
Proof.
  unfold order_step.
  GenerateFacts.skip_call.
  eapply always_bind; [apply always_random_date|].
  { unfold Clock.exact_span, Clock.timedelta_days, Clock.seconds_per_day,
      Clock.us_per_second. lia. }
  cbv beta. intros order_date [Hwin _].
  do 2 GenerateFacts.skip_call.
  eapply always_bind with (P := λ _, True); [done|]. intros [[line_total items] next] _.
  eapply always_bind; [apply (always_choices1 payment_statuses)|]. cbv beta.
  intros status Hstatus.
  eapply always_bind; [apply (always_choice payment_methods)|]. cbv beta.
  intros method Hmethod.
  GenerateFacts.skip_call.
  apply always_ret. eexists _, _. cbn [st_orders st_payments].
  split; [done|]. split; [done|]. split; [|by split].
  unfold order_fields_ok. cbn [Order.order_date]. by apply day_in_window.
Qed.

Lemma always_generate_orders_fields (today : Z) (users : list User.t)
    (products : list Product.t) (order_count : Z) :
  always (generate_orders today users products order_count)
    (λ '(orders, items, payments),
       Forall (order_fields_ok today) orders ∧ Forall payment_fields_ok payments).
Proof.
  unfold generate_orders.
  eapply always_bind.
  - apply always_for_each with
      (I := λ _ st, Forall (order_fields_ok today) (st_orders st)
                    ∧ Forall payment_fields_ok (st_payments st)); [by split|].
    intros pre oid post st _ [Ho Hp].
    eapply always_weaken; [apply always_order_step_fields|].
    intros st' (o & p & -> & -> & Hof & Hpf).
    split; apply Forall_app; split; try done; by constructor.
  - intros st Hst. by apply always_ret.
Qed.

(** In every data set that [generate] returns, each [order_date] is a day
    between 120 days and 1 day before the day of the run. *)
Theorem order_dates_in_window
    (today_users today_orders user_count product_count order_count : Z)
    (tape tape' : list N) (ds : dataset) :
  generate today_users today_orders user_count product_count order_count tape
  = Ok (ds, tape') →
  Forall (λ o, Clock.day_of today_orders - 120 ≤ Order.order_date o
               ≤ Clock.day_of today_orders - 1) (orders ds).
Proof.
  revert tape ds tape'.
  change (always (generate today_users today_orders user_count product_count order_count)
            (λ ds, Forall (order_fields_ok today_orders) (orders ds))).
  unfold generate. do 2 GenerateFacts.skip_call.
  eapply always_bind; [apply always_generate_orders_fields|].
  intros [[os its] ps] [Ho _]. by apply always_ret.
Qed.

Lemma order_dates_in_window_witness :
  generate Examples.now1 Examples.now1 2 3 3 Examples.tape1
  = Ok (Examples.ds1, Examples.rest1) ∧
  Forall (λ o, Clock.day_of Examples.now1 - 120 ≤ Order.order_date o
               ≤ Clock.day_of Examples.now1 - 1) (orders Examples.ds1).
Proof.
  assert (H : generate Examples.now1 Examples.now1 2 3 3 Examples.tape1
              = Ok (Examples.ds1, Examples.rest1)) by (vm_compute; reflexivity).
  exact (conj H (order_dates_in_window _ _ _ _ _ _ _ _ H)).
Defined.

(** In every generated data set, each payment's status is one of Completed,
    Pending and Failed, and its method one of the four listed. *)
Theorem payment_status_and_method (ds : dataset) :
  Spec.generated ds →
  Forall (λ p, Payment.status p ∈ ["Completed"; "Pending"; "Failed"]%string ∧
               Payment.method p ∈ ["Credit Card"; "Debit Card"; "PayPal"; "Apple Pay"]%string)
         (payments ds).
Proof.
  intros (t1 & t2 & uc & pc & oc & tape & tape' & Hrun).
  revert tape ds tape' Hrun.
  change (always (generate t1 t2 uc pc oc) (λ ds, Forall payment_fields_ok (payments ds))).
  unfold generate. do 2 GenerateFacts.skip_call.
  eapply always_bind; [apply always_generate_orders_fields|].
  intros [[os its] ps] [_ Hp]. by apply always_ret.
Qed.

Lemma payment_status_and_method_witness :
  Spec.generated Examples.ds1 ∧
  Forall (λ p, Payment.status p ∈ ["Completed"; "Pending"; "Failed"]%string ∧
               Payment.method p ∈ ["Credit Card"; "Debit Card"; "PayPal"; "Apple Pay"]%string)
         (payments Examples.ds1).
Proof.
  assert (Hg : Spec.generated Examples.ds1).
  { exists Examples.now1, Examples.now1, 2, 3, 3, Examples.tape1, Examples.rest1.
    vm_compute. reflexivity. }
  exact (conj Hg (payment_status_and_method _ Hg)).
Defined.

(** ** Cross-references of a generated data set *)

(** A line item of a run belongs to an order of the run, and was made of a
    product of the run. *)
Lemma run_ok_item (uc pc oc : Z) (ds : dataset) (it : OrderItem.t) :
  run_ok uc pc oc ds → it ∈ order_items ds →
  ∃ o p, o ∈ orders ds ∧ p ∈ products ds ∧ item_for (Order.order_id o) p it.
Proof.
  intros (_ & _ & _ & st & Hinv & Eo & Ei & _) Hit.
  destruct Hinv as (Hoids & _ & _ & _ & _ & _ & _ & Hitems & Hok).
  rewrite Ei in Hit. rewrite Forall_forall in Hitems. rewrite Forall_forall in Hok.
  pose proof (Hitems _ Hit) as Hin. rewrite <- Hoids in Hin.
  apply list_elem_of_fmap in Hin as (o & Hid & Ho).
  destruct (Hok _ Ho) as (_ & _ & _ & Hfor & _).
  rewrite Forall_forall in Hfor.
  destruct (Hfor it) as (p & Hp & Hitem); [by apply list_elem_of_filter|].
  exists o, p. by rewrite Eo.
Qed.

(** In every generated data set no reference dangles: the [user_id] of each
    order is the id of a user, the [order_id] and [product_id] of each line
    item are the ids of an order and of a product, and the [order_id] of each
    payment is the id of an order. *)
Theorem references_resolve (ds : dataset) :
  Spec.generated ds →
  Forall (λ o, Order.user_id o ∈ User.user_id <$> users ds) (orders ds) ∧
  Forall (λ it, OrderItem.order_id it ∈ Order.order_id <$> orders ds ∧
                OrderItem.product_id it ∈ Product.product_id <$> products ds)
         (order_items ds) ∧
  Forall (λ p, Payment.order_id p ∈ Order.order_id <$> orders ds) (payments ds).
Proof.
  intros (uc & pc & oc & Hrun)%DatasetFacts.generated_run_ok.
  split_and!.
  - destruct Hrun as (_ & _ & _ & st & Hinv & -> & _ & _).
    by destruct Hinv as (_ & _ & _ & _ & _ & _ & Husers & _).
  - apply Forall_forall. intros it Hit.
    destruct (run_ok_item _ _ _ _ _ Hrun Hit) as (o & p & Ho & Hp & Hoid & Hpid & _).
    rewrite Hoid, Hpid. split; by apply list_elem_of_fmap_2.
  - destruct (DatasetFacts.run_ok_pairs _ _ _ _ Hrun) as (_ & _ & Hpay).
    pose proof (DatasetFacts.pay_ok_order_ids _ _ Hpay) as Hids.
    apply Forall_forall. intros p Hp. rewrite <- Hids. by apply list_elem_of_fmap_2.
Qed.

Lemma references_resolve_witness :
  Spec.generated Examples.ds1 ∧
  Forall (λ o, Order.user_id o ∈ User.user_id <$> users Examples.ds1)
         (orders Examples.ds1) ∧
  Forall (λ it, OrderItem.order_id it ∈ Order.order_id <$> orders Examples.ds1 ∧
                OrderItem.product_id it ∈ Product.product_id <$> products Examples.ds1)
         (order_items Examples.ds1) ∧
  Forall (λ p, Payment.order_id p ∈ Order.order_id <$> orders Examples.ds1)
         (payments Examples.ds1).
Proof.
  assert (Hg : Spec.generated Examples.ds1).
  { exists Examples.now1, Examples.now1, 2, 3, 3, Examples.tape1, Examples.rest1.
    vm_compute. reflexivity. }
  exact (conj Hg (references_resolve _ Hg)).
Defined.

(** In every generated data set, each line item carries the price string of
    the product it references, unchanged, and a quantity between 1 and 3. *)
Theorem item_price_is_product_price (ds : dataset) (it : OrderItem.t) :
  Spec.generated ds → it ∈ order_items ds →
  1 ≤ OrderItem.quantity it ≤ 3 ∧
  ∃ p, p ∈ products ds ∧
       Product.product_id p = OrderItem.product_id it ∧
       Product.price p = OrderItem.unit_price it.
Proof.
  intros (uc & pc & oc & Hrun)%DatasetFacts.generated_run_ok Hit.
  destruct (run_ok_item _ _ _ _ _ Hrun Hit) as (o & p & _ & Hp & _ & Hpid & Hprice & Hq).
  split; [done|]. by exists p.
Qed.

Lemma item_price_is_product_price_witness :
  Spec.generated Examples.ds1 ∧
  default (OrderItem.mk 0 0 0 0 "") (head (order_items Examples.ds1))
  ∈ order_items Examples.ds1 ∧
  1 ≤ OrderItem.quantity
        (default (OrderItem.mk 0 0 0 0 "") (head (order_items Examples.ds1))) ≤ 3 ∧
  ∃ p, p ∈ products Examples.ds1 ∧
       Product.product_id p
       = OrderItem.product_id
           (default (OrderItem.mk 0 0 0 0 "") (head (order_items Examples.ds1))) ∧
       Product.price p
       = OrderItem.unit_price
           (default (OrderItem.mk 0 0 0 0 "") (head (order_items Examples.ds1))).
Proof.
  assert (Hg : Spec.generated Examples.ds1).
  { exists Examples.now1, Examples.now1, 2, 3, 3, Examples.tape1, Examples.rest1.
    vm_compute. reflexivity. }
  assert (Hit : default (OrderItem.mk 0 0 0 0 "") (head (order_items Examples.ds1))
                ∈ order_items Examples.ds1) by apply list_elem_of_here.
  exact (conj Hg (conj Hit (item_price_is_product_price _ _ Hg Hit))).
Defined.

(** In every data set that [generate] returns, the ids of each collection
    are 1, 2, ... in order, without gap; there are as many users, products
    and orders as asked for (none for a count below 1), one payment per
    order, and the line item ids run over all orders. *)
Theorem ids_are_dense
    (today_users today_orders user_count product_count order_count : Z)
    (tape tape' : list N) (ds : dataset) :
  generate today_users today_orders user_count product_count order_count tape
  = Ok (ds, tape') →
  User.user_id <$> users ds = seqZ 1 user_count ∧
  Product.product_id <$> products ds = seqZ 1 product_count ∧
  Order.order_id <$> orders ds = seqZ 1 order_count ∧
  Payment.payment_id <$> payments ds = seqZ 1 order_count ∧
  OrderItem.order_item_id <$> order_items ds
  = seqZ 1 (Z.of_nat (length (order_items ds))).
Proof.
  intros Hrun.
  pose proof (GenerateFacts.generate_run_ok _ _ _ _ _ _ _ _ Hrun) as Hok.
  destruct (DatasetFacts.run_ok_pairs _ _ _ _ Hok) as (Hoids & Hpids & _).
  destruct Hok as (Hus & _ & _ & st & Hinv & _ & -> & _).
  destruct Hinv as (_ & _ & _ & _ & Hiids & _).
  split; [done|]. split; [|done].
  revert tape ds tape' Hrun Hoids Hpids Hus. 
  assert (Halways : always
            (generate today_users today_orders user_count product_count order_count)
            (λ ds, Product.product_id <$> products ds = range1 product_count)).
  { unfold generate. GenerateFacts.skip_call.
    eapply always_bind; [apply always_generate_products_fields|]. cbv beta.
    intros ps [Hids _]. GenerateFacts.skip_call. destruct x0 as [[os its] pays].
    by apply always_ret. }
  intros tape ds tape' Hrun _ _ _. exact (Halways _ _ _ Hrun).
Qed.

Lemma ids_are_dense_witness :
  generate Examples.now1 Examples.now1 2 3 3 Examples.tape1
  = Ok (Examples.ds1, Examples.rest1) ∧
  User.user_id <$> users Examples.ds1 = seqZ 1 2 ∧
  Product.product_id <$> products Examples.ds1 = seqZ 1 3 ∧
  Order.order_id <$> orders Examples.ds1 = seqZ 1 3 ∧
  Payment.payment_id <$> payments Examples.ds1 = seqZ 1 3 ∧
  OrderItem.order_item_id <$> order_items Examples.ds1
  = seqZ 1 (Z.of_nat (length (order_items Examples.ds1))).
Proof.
  assert (H : generate Examples.now1 Examples.now1 2 3 3 Examples.tape1
              = Ok (Examples.ds1, Examples.rest1)) by (vm_compute; reflexivity).
  exact (conj H (ids_are_dense _ _ _ _ _ _ _ _ H)).
Defined.

(** ** Runs without users, and runs without orders *)

(** With no user and at least one order asked for, generation raises the
    [IndexError] of [random.choice] on the first order, whatever the number of
    products. *)
Theorem no_users_raises_index_error
    (today_users today_orders user_count product_count order_count : Z) (tape : list N) :
  user_count < 1 → 1 ≤ order_count →
  generate today_users today_orders user_count product_count order_count tape
  = Raise (IndexError "Cannot choose from an empty sequence").
Proof.
  intros Huc Hoc.
  assert (Hfails : fails
            (generate today_users today_orders user_count product_count order_count)
            (λ e, e = IndexError "Cannot choose from an empty sequence")).
  { unfold generate.
    eapply fails_bind_r;
      [apply GenerateFacts.succeeds_generate_users|apply always_generate_users_dates|].
    intros us [Hids _]. cbv beta in Hids.
    assert (us = []) as ->.
    { apply (f_equal length) in Hids. unfold range1 in Hids.
      rewrite length_fmap, length_seqZ in Hids. apply length_zero_iff_nil. lia. }
    eapply fails_bind_r with (Q := λ _, True);
      [apply GenerateFacts.succeeds_generate_products|done|intros ps _].
    apply fails_bind_l. unfold generate_orders. apply fails_bind_l.
    rewrite GenerateFacts.range1_cons by done. cbn [for_each]. apply fails_bind_l.
    unfold order_step. by apply fails_bind_l, fails_throw. }
  destruct (Hfails tape) as (e & -> & ->). done.
Qed.

Lemma no_users_raises_index_error_witness :
  0 < 1 ∧ 1 ≤ 1 ∧
  generate Examples.now1 Examples.now1 0 3 1 Examples.tape1
  = Raise (IndexError "Cannot choose from an empty sequence").
Proof.
  assert (H1 : 0 < 1) by lia. assert (H2 : 1 ≤ 1) by lia.
  exact (conj H1 (conj H2
           (no_users_raises_index_error Examples.now1 Examples.now1 0 3 1 Examples.tape1
              H1 H2))).
Defined.

(** With no order asked for, generation returns whatever the other counts
    are, with no order, line item or payment. *)
Theorem no_orders_always_returns
    (today_users today_orders user_count product_count order_count : Z) (tape : list N) :
  order_count < 1 →
  ∃ ds tape',
    generate today_users today_orders user_count product_count order_count tape
    = Ok (ds, tape') ∧
    orders ds = [] ∧ order_items ds = [] ∧ payments ds = [] ∧
    length (users ds) = Z.to_nat user_count ∧
    length (products ds) = Z.to_nat product_count.
Proof.
  intros Hoc.
  destruct (GenerateFacts.succeeds_generate_users today_users user_count tape)
    as (us & t1 & Hus).
  destruct (GenerateFacts.succeeds_generate_products product_count t1)
    as (ps & t2 & Hps).
  assert (Hlu : length us = Z.to_nat user_count).
  { destruct (always_generate_users_dates _ _ _ _ _ Hus) as [Hids _].
    apply (f_equal length) in Hids. unfold range1 in Hids.
    by rewrite length_fmap, length_seqZ in Hids. }
  assert (Hlp : length ps = Z.to_nat product_count).
  { destruct (always_generate_products_fields _ _ _ _ Hps) as [Hids _].
    apply (f_equal length) in Hids. unfold range1 in Hids.
    by rewrite length_fmap, length_seqZ in Hids. }
  exists (mkDataset us ps [] [] []), t2.
  split; [|done]. unfold generate, bind. rewrite Hus, Hps.
  unfold generate_orders, bind, range1.
  assert (seqZ 1 order_count = []) as ->; [|done].
  unfold seqZ. by replace (Z.to_nat order_count) with 0%nat by lia.
Qed.

Lemma no_orders_always_returns_witness :
  0 < 1 ∧
  ∃ ds tape',
    generate Examples.now1 Examples.now1 2 0 0 Examples.tape1 = Ok (ds, tape') ∧
    orders ds = [] ∧ order_items ds = [] ∧ payments ds = [] ∧
    length (users ds) = Z.to_nat 2 ∧
    length (products ds) = Z.to_nat 0.
Proof.
  assert (H : 0 < 1) by lia.
  exact (conj H (no_orders_always_returns Examples.now1 Examples.now1 2 0 0
                   Examples.tape1 H)).
Defined.

End GeneratorProps.

(** * Further properties of the exporter *)

Module ExporterProps.

Import PyStr Fs Exporter.

Lemma lookup_zip_fmap (g : string → string) (hs : list string) (k : string) :
  (list_to_map (zip hs (g <$> hs)) : gmap string string) !! k
  = if decide (k ∈ hs) then Some (g k) else None.
Proof.
  induction hs as [|h hs IH]; cbn [fmap list_fmap zip zip_with list_to_map foldr].
  - rewrite lookup_empty. by rewrite decide_False by apply not_elem_of_nil.
  - cbn. destruct (decide (h = k)) as [->|Hne].
    + rewrite lookup_insert_eq. rewrite decide_True by left. done.
    + rewrite lookup_insert_ne by done. rewrite IH.
      destruct (decide (k ∈ hs)) as [Hin|Hout].
      * by rewrite decide_True by (by right).
      * rewrite decide_False; [done|]. intros [?|?]%elem_of_cons; congruence.
Qed.

Definition csv_paths : list string :=
  ["data/users.csv"; "data/products.csv"; "data/orders.csv"; "data/order_items.csv";
   "data/payments.csv"]%string.

(** A run without [--json] that returns has written the five delimited
    files, each with its header and one record per row of its collection, and
    has left every other file as it was. *)
Theorem main_writes_five_files (a : args) (today_users today_orders : Z)
    (tape tape' : list N) (fs : Fs.t) (ds : Generate.dataset) :
  Generate.generate today_users today_orders (arg_users a) (arg_products a)
    (arg_orders a) tape = Ok (ds, tape') →
  arg_json a = false →
  let fs' := (main a today_users today_orders tape fs).1 in
  (∃ rs, files fs' !! "data/users.csv"%string = Some (CsvFile (users_fields :: rs))
         ∧ length rs = length (Generate.users ds)) ∧
  (∃ rs, files fs' !! "data/products.csv"%string = Some (CsvFile (products_fields :: rs))
         ∧ length rs = length (Generate.products ds)) ∧
  (∃ rs, files fs' !! "data/orders.csv"%string = Some (CsvFile (orders_fields :: rs))
         ∧ length rs = length (Generate.orders ds)) ∧
  (∃ rs, files fs' !! "data/order_items.csv"%string
         = Some (CsvFile (order_items_fields :: rs))
         ∧ length rs = length (Generate.order_items ds)) ∧
  (∃ rs, files fs' !! "data/payments.csv"%string = Some (CsvFile (payments_fields :: rs))
         ∧ length rs = length (Generate.payments ds)) ∧
  (∀ path, path ∉ csv_paths → files fs' !! path = files fs !! path) ∧
  data_dir ∈ dirs fs'.
Proof.
  intros Hrun Hjson. unfold main. rewrite Hrun, Hjson. cbn [fst].
  unfold write_all_csv, write_csv, write, makedirs. cbn [files dirs].
  split_and!.
  - eexists. rewrite !lookup_insert_ne by done. rewrite lookup_insert_eq.
    split; [done|]. by rewrite !length_fmap.
  - eexists. rewrite !lookup_insert_ne by done. rewrite lookup_insert_eq.
    split; [done|]. by rewrite !length_fmap.
  - eexists. rewrite !lookup_insert_ne by done. rewrite lookup_insert_eq.
    split; [done|]. by rewrite !length_fmap.
  - eexists. rewrite !lookup_insert_ne by done. rewrite lookup_insert_eq.
    split; [done|]. by rewrite !length_fmap.
  - eexists. rewrite lookup_insert_eq. split; [done|]. by rewrite !length_fmap.
  - intros path Hpath. unfold csv_paths in Hpath.
    rewrite !not_elem_of_cons in Hpath. destruct Hpath as (? & ? & ? & ? & ? & _).
    by rewrite !lookup_insert_ne by done.
  - apply elem_of_union. left. by apply elem_of_singleton.
Qed.

Lemma main_writes_five_files_witness :
  Generate.generate Examples.now1 Examples.now1 (arg_users (mkArgs 2 3 3 false))
    (arg_products (mkArgs 2 3 3 false)) (arg_orders (mkArgs 2 3 3 false)) Examples.tape1
  = Ok (Examples.ds1, Examples.rest1) ∧
  arg_json (mkArgs 2 3 3 false) = false ∧
  let fs' := (main (mkArgs 2 3 3 false) Examples.now1 Examples.now1 Examples.tape1
                (Fs.mk ∅ ∅)).1 in
  (∃ rs, files fs' !! "data/users.csv"%string = Some (CsvFile (users_fields :: rs))
         ∧ length rs = length (Generate.users Examples.ds1)) ∧
  (∃ rs, files fs' !! "data/products.csv"%string = Some (CsvFile (products_fields :: rs))
         ∧ length rs = length (Generate.products Examples.ds1)) ∧
  (∃ rs, files fs' !! "data/orders.csv"%string = Some (CsvFile (orders_fields :: rs))
         ∧ length rs = length (Generate.orders Examples.ds1)) ∧
  (∃ rs, files fs' !! "data/order_items.csv"%string
         = Some (CsvFile (order_items_fields :: rs))
         ∧ length rs = length (Generate.order_items Examples.ds1)) ∧
  (∃ rs, files fs' !! "data/payments.csv"%string = Some (CsvFile (payments_fields :: rs))
         ∧ length rs = length (Generate.payments Examples.ds1)) ∧
  (∀ path, path ∉ csv_paths → files fs' !! path = files (Fs.mk ∅ ∅) !! path) ∧
  data_dir ∈ dirs fs'.
Proof.
  assert (H : Generate.generate Examples.now1 Examples.now1
                (arg_users (mkArgs 2 3 3 false)) (arg_products (mkArgs 2 3 3 false))
                (arg_orders (mkArgs 2 3 3 false)) Examples.tape1
              = Ok (Examples.ds1, Examples.rest1)) by (vm_compute; reflexivity).
  assert (Hj : arg_json (mkArgs 2 3 3 false) = false) by reflexivity.
  exact (conj H (conj Hj
           (main_writes_five_files (mkArgs 2 3 3 false) Examples.now1 Examples.now1
              Examples.tape1 Examples.rest1 (Fs.mk ∅ ∅) Examples.ds1 H Hj))).
Defined.

Definition json_paths : list string :=
  ["data/users.json"; "data/products.json"; "data/orders.json"; "data/order_items.json";
   "data/payments.json"]%string.

(** With [--json] the run writes, besides the delimited files, five JSON
    documents that hold the same records in the same order; every other
    file, the delimited ones included, and the directories are as the run
    without the flag leaves them. *)
Theorem json_flag_adds_five_documents (a : args) (today_users today_orders : Z)
    (tape tape' : list N) (fs : Fs.t) (ds : Generate.dataset) :
  Generate.generate today_users today_orders (arg_users a) (arg_products a)
    (arg_orders a) tape = Ok (ds, tape') →
  arg_json a = true →
  let fs' := (main a today_users today_orders tape fs).1 in
  let fs0 := (main (mkArgs (arg_users a) (arg_products a) (arg_orders a) false)
                today_users today_orders tape fs).1 in
  files fs' !! "data/users.json"%string
  = Some (JsonFile (asdict_user <$> Generate.users ds)) ∧
  files fs' !! "data/products.json"%string
  = Some (JsonFile (asdict_product <$> Generate.products ds)) ∧
  files fs' !! "data/orders.json"%string
  = Some (JsonFile (asdict_order <$> Generate.orders ds)) ∧
  files fs' !! "data/order_items.json"%string
  = Some (JsonFile (asdict_order_item <$> Generate.order_items ds)) ∧
  files fs' !! "data/payments.json"%string
  = Some (JsonFile (asdict_payment <$> Generate.payments ds)) ∧
  (∀ path, path ∉ json_paths → files fs' !! path = files fs0 !! path) ∧
  dirs fs' = dirs fs0.
Proof.
  intros Hrun Hjson. unfold main. cbn [arg_users arg_products arg_orders arg_json].
  rewrite Hrun, Hjson. cbn [fst].
  unfold write_all_json, write_json, write. cbn [files dirs].
  split_and!; try (rewrite ?lookup_insert_ne by done; apply lookup_insert_eq).
  - intros path Hpath. unfold json_paths in Hpath.
    rewrite !not_elem_of_cons in Hpath. destruct Hpath as (? & ? & ? & ? & ? & _).
    by rewrite !lookup_insert_ne by done.
  - done.
Qed.

Lemma json_flag_adds_five_documents_witness :
  Generate.generate Examples.now1 Examples.now1 (arg_users (mkArgs 2 3 3 true))
    (arg_products (mkArgs 2 3 3 true)) (arg_orders (mkArgs 2 3 3 true)) Examples.tape1
  = Ok (Examples.ds1, Examples.rest1) ∧
  arg_json (mkArgs 2 3 3 true) = true ∧
  let fs' := (main (mkArgs 2 3 3 true) Examples.now1 Examples.now1 Examples.tape1
                (Fs.mk ∅ ∅)).1 in
  let fs0 := (main (mkArgs (arg_users (mkArgs 2 3 3 true))
                      (arg_products (mkArgs 2 3 3 true))
                      (arg_orders (mkArgs 2 3 3 true)) false)
                Examples.now1 Examples.now1 Examples.tape1 (Fs.mk ∅ ∅)).1 in
  files fs' !! "data/users.json"%string
  = Some (JsonFile (asdict_user <$> Generate.users Examples.ds1)) ∧
  files fs' !! "data/products.json"%string
  = Some (JsonFile (asdict_product <$> Generate.products Examples.ds1)) ∧
  files fs' !! "data/orders.json"%string
  = Some (JsonFile (asdict_order <$> Generate.orders Examples.ds1)) ∧
  files fs' !! "data/order_items.json"%string
  = Some (JsonFile (asdict_order_item <$> Generate.order_items Examples.ds1)) ∧
  files fs' !! "data/payments.json"%string
  = Some (JsonFile (asdict_payment <$> Generate.payments Examples.ds1)) ∧
  (∀ path, path ∉ json_paths → files fs' !! path = files fs0 !! path) ∧
  dirs fs' = dirs fs0.
Proof.
  assert (H : Generate.generate Examples.now1 Examples.now1
                (arg_users (mkArgs 2 3 3 true)) (arg_products (mkArgs 2 3 3 true))
                (arg_orders (mkArgs 2 3 3 true)) Examples.tape1
              = Ok (Examples.ds1, Examples.rest1)) by (vm_compute; reflexivity).
  assert (Hj : arg_json (mkArgs 2 3 3 true) = true) by reflexivity.
  exact (conj H (conj Hj
           (json_flag_adds_five_documents (mkArgs 2 3 3 true) Examples.now1 Examples.now1
              Examples.tape1 Examples.rest1 (Fs.mk ∅ ∅) Examples.ds1 H Hj))).
Defined.

End ExporterProps.

(** * Further properties of the loader *)

Module LoaderProps.

Section Loader.

Variable real : Type.
Variable py_int : string → option Z.
Variable py_float : string → option real.

Lemma has_key_elem {R} (key : R → Z) (k : Z) (rows : list R) :
  Db.has_key key k rows = true ↔ k ∈ key <$> rows.
Proof.
  unfold Db.has_key. rewrite existsb_exists, list_elem_of_fmap.
  split.
  - intros (r & Hr%list_elem_of_In & Heq%Z.eqb_eq). by exists r.
  - intros (r & -> & Hr). exists r. split; [by apply list_elem_of_In|apply Z.eqb_refl].
Qed.

Lemma has_key_not_elem {R} (key : R → Z) (k : Z) (rows : list R) :
  Db.has_key key k rows = false ↔ k ∉ key <$> rows.
Proof. rewrite <- has_key_elem. by destruct (Db.has_key key k rows). Qed.

Lemma NoDup_snoc (l : list Z) (k : Z) : NoDup l → k ∉ l → NoDup (l ++ [k]).
Proof.
  intros Hl Hk. apply NoDup_app. split; [done|]. split; [|apply NoDup_singleton].
  intros x Hx ->%list_elem_of_singleton. done.
Qed.

Lemma elem_of_snoc (l : list Z) (k x : Z) : x ∈ l → x ∈ l ++ [k].
Proof. intros. apply elem_of_app. by left. Qed.

(** Each insert appends its row to its table and keeps the store
    consistent. *)
Lemma insert_user_spec (r : Db.users_row) (s s' : Db.store real) :
  Db.insert_user r s = Ok s' →
  s' = Db.mkStore (Db.users s ++ [r]) (Db.products s) (Db.orders s) (Db.order_items s)
         (Db.payments s) ∧
  (Integrity.consistent real s → Integrity.consistent real s').
Proof.
  unfold Db.insert_user. destruct (Db.has_key _ _ _) eqn:Hk; [done|].
  intros [= <-]. split; [done|]. apply has_key_not_elem in Hk.
  intros [(Hu & Hp & Ho & Hi & Hy) (Fo & Fi & Fy)].
  split; [split_and!|split_and!]; cbn; try done.
  - rewrite fmap_app. by apply NoDup_snoc.
  - eapply Forall_impl; [exact Fo|]. intros o Ho'. rewrite fmap_app. by apply elem_of_snoc.
Qed.

Lemma insert_product_spec (r : Db.products_row real) (s s' : Db.store real) :
  Db.insert_product r s = Ok s' →
  s' = Db.mkStore (Db.users s) (Db.products s ++ [r]) (Db.orders s) (Db.order_items s)
         (Db.payments s) ∧
  (Integrity.consistent real s → Integrity.consistent real s').
Proof.
  unfold Db.insert_product. destruct (Db.has_key _ _ _) eqn:Hk; [done|].
  intros [= <-]. split; [done|]. apply has_key_not_elem in Hk.
  intros [(Hu & Hp & Ho & Hi & Hy) (Fo & Fi & Fy)].
  split; [split_and!|split_and!]; cbn; try done.
  - rewrite fmap_app. by apply NoDup_snoc.
  - eapply Forall_impl; [exact Fi|]. intros i [Hio Hip]. split; [done|].
    rewrite fmap_app. by apply elem_of_snoc.
Qed.

Lemma insert_order_spec (r : Db.orders_row real) (s s' : Db.store real) :
  Db.insert_order r s = Ok s' →
  s' = Db.mkStore (Db.users s) (Db.products s) (Db.orders s ++ [r]) (Db.order_items s)
         (Db.payments s) ∧
  (Integrity.consistent real s → Integrity.consistent real s').
Proof.
  unfold Db.insert_order. destruct (Db.has_key _ _ (Db.orders s)) eqn:Hk; [done|].
  destruct (Db.has_key _ _ (Db.users s)) eqn:Hfk; cbn [negb]; [|done].
  intros [= <-]. split; [done|].
  apply has_key_not_elem in Hk. apply has_key_elem in Hfk.
  intros [(Hu & Hp & Ho & Hi & Hy) (Fo & Fi & Fy)].
  split; [split_and!|split_and!]; cbn; try done.
  - rewrite fmap_app. by apply NoDup_snoc.
  - apply Forall_app. split; [done|]. by constructor.
  - eapply Forall_impl; [exact Fi|]. intros i [Hio Hip]. split; [|done].
    rewrite fmap_app. by apply elem_of_snoc.
  - eapply Forall_impl; [exact Fy|]. intros y Hy'. rewrite fmap_app. by apply elem_of_snoc.
Qed.

Lemma insert_order_item_spec (r : Db.order_items_row real) (s s' : Db.store real) :
  Db.insert_order_item r s = Ok s' →
  s' = Db.mkStore (Db.users s) (Db.products s) (Db.orders s) (Db.order_items s ++ [r])
         (Db.payments s) ∧
  (Integrity.consistent real s → Integrity.consistent real s').
Proof.
  unfold Db.insert_order_item.
  destruct (Db.has_key _ _ (Db.order_items s)) eqn:Hk; [done|].
  destruct (Db.has_key _ _ (Db.orders s)) eqn:Hfo; cbn [andb negb]; [|done].
  destruct (Db.has_key _ _ (Db.products s)) eqn:Hfp; cbn [negb]; [|done].
  intros [= <-]. split; [done|].
  apply has_key_not_elem in Hk. apply has_key_elem in Hfo, Hfp.
  intros [(Hu & Hp & Ho & Hi & Hy) (Fo & Fi & Fy)].
  split; [split_and!|split_and!]; cbn; try done.
  - rewrite fmap_app. by apply NoDup_snoc.
  - apply Forall_app. split; [done|]. by constructor.
Qed.

Lemma insert_payment_spec (r : Db.payments_row real) (s s' : Db.store real) :
  Db.insert_payment r s = Ok s' →
  s' = Db.mkStore (Db.users s) (Db.products s) (Db.orders s) (Db.order_items s)
         (Db.payments s ++ [r]) ∧
  (Integrity.consistent real s → Integrity.consistent real s').
Proof.
  unfold Db.insert_payment. destruct (Db.has_key _ _ (Db.payments s)) eqn:Hk; [done|].
  destruct (Db.has_key _ _ (Db.orders s)) eqn:Hfk; cbn [negb]; [|done].
  intros [= <-]. split; [done|].
  apply has_key_not_elem in Hk. apply has_key_elem in Hfk.
  intros [(Hu & Hp & Ho & Hi & Hy) (Fo & Fi & Fy)].
  split; [split_and!|split_and!]; cbn; try done.
  - rewrite fmap_app. by apply NoDup_snoc.
  - apply Forall_app. split; [done|]. by constructor.
Qed.

(** [executemany] that returns has consumed rows that all converted, and
    has applied the inserts in order. *)
Lemma insert_each_spec {R} (insert : R → Db.store real → result (Db.store real))
    (rel : list R → Db.store real → Db.store real → Prop)
    (rows : list (result R)) (s s' : Db.store real) :
  (∀ s0, rel [] s0 s0) →
  (∀ r rs s0 s1 s2, insert r s0 = Ok s1 → rel rs s1 s2 → rel (r :: rs) s0 s2) →
  Ingest.insert_each real insert rows s = Ok s' →
  ∃ rs, rows = Ok <$> rs ∧ rel rs s s'.
Proof.
  intros Hnil Hcons. revert s. induction rows as [|row rows IH]; intros s; cbn.
  - intros [= <-]. by exists [].
  - destruct row as [r|e]; cbn; [|done].
    destruct (insert r s) as [s1|e] eqn:Hins; cbn; [|done].
    intros (rs & -> & Hrel)%IH. exists (r :: rs). split; [done|]. by eapply Hcons.
Qed.

(** [executemany] with an insert that appends to one table. *)
Lemma executemany_spec {R} (insert : R → Db.store real → result (Db.store real))
    (upd : list R → Db.store real → Db.store real)
    (rows : result (list (result R))) (s s' : Db.store real) :
  (∀ s0, upd [] s0 = s0) →
  (∀ r rs s0, upd rs (upd [r] s0) = upd (r :: rs) s0) →
  (∀ r s0 s1, insert r s0 = Ok s1 →
     s1 = upd [r] s0 ∧ (Integrity.consistent real s0 → Integrity.consistent real s1)) →
  Ingest.executemany real insert rows s = Ok s' →
  ∃ rs, rows = Ok (Ok <$> rs) ∧ s' = upd rs s ∧
        (Integrity.consistent real s → Integrity.consistent real s').
Proof.
  intros Hnil Hcons Hins. unfold Ingest.executemany.
  destruct rows as [rows|e]; cbn; [|done]. intros Hrun.
  assert (Hspec : ∃ rs, rows = Ok <$> rs ∧ s' = upd rs s ∧
            (Integrity.consistent real s → Integrity.consistent real s')).
  { apply (insert_each_spec insert
             (λ rs s0 s1, s1 = upd rs s0 ∧
                (Integrity.consistent real s0 → Integrity.consistent real s1))).
    - intros s0. split; [by rewrite Hnil|auto].
    - intros r rs s0 s1 s2 [-> H1]%Hins [-> H2]. split; [by rewrite Hcons|auto].
    - done. }
  destruct Hspec as (rs & -> & Hrel). by exists rs.
Qed.

(** The five [executemany] calls, when they all return: every record of
    every file converted, the rows were appended to their tables in file
    order, and a consistent store stayed consistent. *)
Lemma insert_all_spec (fs : Fs.t) (s s' : Db.store real) :
  Ingest.insert_all real py_int py_float fs s = Ok s' →
  ∃ us ps os its ys,
    Ingest.load_users py_int fs "data/users.csv" = Ok (Ok <$> us) ∧
    Ingest.load_products real py_int py_float fs "data/products.csv" = Ok (Ok <$> ps) ∧
    Ingest.load_orders real py_int py_float fs "data/orders.csv" = Ok (Ok <$> os) ∧
    Ingest.load_order_items real py_int py_float fs "data/order_items.csv"
    = Ok (Ok <$> its) ∧
    Ingest.load_payments real py_int py_float fs "data/payments.csv" = Ok (Ok <$> ys) ∧
    s' = Db.mkStore (Db.users s ++ us) (Db.products s ++ ps) (Db.orders s ++ os)
           (Db.order_items s ++ its) (Db.payments s ++ ys) ∧
    (Integrity.consistent real s → Integrity.consistent real s').
Proof.
  unfold Ingest.insert_all.
  destruct (Ingest.executemany real Db.insert_user _ s) as [s1|] eqn:E1; cbn; [|done].
  destruct (Ingest.executemany real Db.insert_product _ s1) as [s2|] eqn:E2; cbn; [|done].
  destruct (Ingest.executemany real Db.insert_order _ s2) as [s3|] eqn:E3; cbn; [|done].
  destruct (Ingest.executemany real Db.insert_order_item _ s3) as [s4|] eqn:E4; cbn; [|done].
  intros E5.
  eapply (executemany_spec _ (λ rs s0, Db.mkStore (Db.users s0 ++ rs) (Db.products s0)
            (Db.orders s0) (Db.order_items s0) (Db.payments s0))) in E1
    as (us & Hus & -> & C1);
    [|by intros []; cbn; rewrite app_nil_r
     |by intros; cbn; rewrite <- app_assoc
     |apply insert_user_spec].
  eapply (executemany_spec _ (λ rs s0, Db.mkStore (Db.users s0) (Db.products s0 ++ rs)
            (Db.orders s0) (Db.order_items s0) (Db.payments s0))) in E2
    as (ps & Hps & -> & C2);
    [|by intros []; cbn; rewrite app_nil_r
     |by intros; cbn; rewrite <- app_assoc
     |apply insert_product_spec].
  eapply (executemany_spec _ (λ rs s0, Db.mkStore (Db.users s0) (Db.products s0)
            (Db.orders s0 ++ rs) (Db.order_items s0) (Db.payments s0))) in E3
    as (os & Hos & -> & C3);
    [|by intros []; cbn; rewrite app_nil_r
     |by intros; cbn; rewrite <- app_assoc
     |apply insert_order_spec].
  eapply (executemany_spec _ (λ rs s0, Db.mkStore (Db.users s0) (Db.products s0)
            (Db.orders s0) (Db.order_items s0 ++ rs) (Db.payments s0))) in E4
    as (its & Hits & -> & C4);
    [|by intros []; cbn; rewrite app_nil_r
     |by intros; cbn; rewrite <- app_assoc
     |apply insert_order_item_spec].
  eapply (executemany_spec _ (λ rs s0, Db.mkStore (Db.users s0) (Db.products s0)
            (Db.orders s0) (Db.order_items s0) (Db.payments s0 ++ rs))) in E5
    as (ys & Hys & -> & C5);
    [|by intros []; cbn; rewrite app_nil_r
     |by intros; cbn; rewrite <- app_assoc
     |apply insert_payment_spec].
  exists us, ps, os, its, ys. cbn in *. split_and!; try done.
  intros Hc. apply C5, C4, C3, C2, C1, Hc.
Qed.

Lemma main_ok_inv (fs : Fs.t) (db : option (Db.store real)) (s : Db.store real)
    (out : list string) :
  Ingest.main real py_int py_float fs db = (Some s, Ok out) →
  Ingest.insert_all real py_int py_float fs Db.empty = Ok s ∧
  out = ["Rows inserted:"%string;
         Ingest.count_line "users" (length (Db.users s));
         Ingest.count_line "products" (length (Db.products s));
         Ingest.count_line "orders" (length (Db.orders s));
         Ingest.count_line "order_items" (length (Db.order_items s));
         Ingest.count_line "payments" (length (Db.payments s))].
Proof.
  unfold Ingest.main. destruct (negb _); [done|].
  rewrite IngestFacts.clear_tables_empties. cbn [Db.pending Db.durable].
  destruct (Ingest.insert_all _ _ _ _ _) as [s1|e]; [|done].
  cbn. by intros [= <- <-].
Qed.

Lemma consistent_empty : Integrity.consistent real Db.empty.
Proof. repeat split; cbn; constructor. Qed.

End Loader.

(** A load that returns leaves a store in which primary keys are unique in
    each table and every foreign key resolves: a duplicate id or a dangling
    reference in the files makes the load raise instead. *)
Theorem load_leaves_consistent_store (real : Type) (py_int : string → option Z)
    (py_float : string → option real) (fs : Fs.t) (db : option (Db.store real))
    (s : Db.store real) (out : list string) :
  Ingest.main real py_int py_float fs db = (Some s, Ok out) →
  Integrity.consistent real s.
Proof.
  intros [Hins _]%main_ok_inv.
  apply insert_all_spec in Hins as (us & ps & os & its & ys & _ & _ & _ & _ & _ & _ & Hc).
  apply Hc, consistent_empty.
Qed.

Lemma load_leaves_consistent_store_witness :
  Ingest.main Dec.Decimal Examples.int_of_digits Examples.decimal_float Examples.fs1
    (Some Examples.old_store)
  = (Some Examples.store1, Ok Examples.output1) ∧
  Integrity.consistent Dec.Decimal Examples.store1.
Proof.
  assert (H : Ingest.main Dec.Decimal Examples.int_of_digits Examples.decimal_float
                Examples.fs1 (Some Examples.old_store)
              = (Some Examples.store1, Ok Examples.output1)) by (vm_compute; reflexivity).
  exact (conj H (load_leaves_consistent_store _ _ _ _ _ _ _ H)).
Defined.

(** With the data directory in place, what the loader leaves and prints
    does not depend on what the store held: loading again over the result
    gives the same store and the same output. *)
Theorem reload_is_idempotent (real : Type) (py_int : string → option Z)
    (py_float : string → option real) (fs : Fs.t) (db db' : option (Db.store real)) :
  Ingest.DATA_DIR ∈ Fs.dirs fs →
  Ingest.main real py_int py_float fs db = Ingest.main real py_int py_float fs db' ∧
  Ingest.main real py_int py_float fs (Ingest.main real py_int py_float fs db).1
  = Ingest.main real py_int py_float fs db.
Proof.
  intros Hdir.
  assert (Hany : ∀ d d', Ingest.main real py_int py_float fs d
                         = Ingest.main real py_int py_float fs d').
  { intros d d'. unfold Ingest.main. rewrite bool_decide_eq_true_2 by done. cbn [negb].
    by rewrite !IngestFacts.clear_tables_empties. }
  split; apply Hany.
Qed.

Lemma reload_is_idempotent_witness :
  Ingest.DATA_DIR ∈ Fs.dirs Examples.fs1 ∧
  Ingest.main Dec.Decimal Examples.int_of_digits Examples.decimal_float Examples.fs1
    (Some Examples.old_store)
  = Ingest.main Dec.Decimal Examples.int_of_digits Examples.decimal_float Examples.fs1 None ∧
  Ingest.main Dec.Decimal Examples.int_of_digits Examples.decimal_float Examples.fs1
    (Ingest.main Dec.Decimal Examples.int_of_digits Examples.decimal_float Examples.fs1
       (Some Examples.old_store)).1
  = Ingest.main Dec.Decimal Examples.int_of_digits Examples.decimal_float Examples.fs1
      (Some Examples.old_store).
Proof.
  assert (H : Ingest.DATA_DIR ∈ Fs.dirs Examples.fs1) by (vm_compute; set_solver).
  exact (conj H (reload_is_idempotent Dec.Decimal Examples.int_of_digits
                   Examples.decimal_float Examples.fs1 (Some Examples.old_store) None H)).
Defined.

(** Once the data directory exists, a load that ends on an exception --
    whatever the exception, whatever the store held -- leaves five empty
    tables: the deletion is committed before the first file is opened, and
    nothing inserted before the failure is kept. *)
Theorem failed_load_leaves_empty_store (real : Type) (py_int : string → option Z)
    (py_float : string → option real) (fs : Fs.t) (db : option (Db.store real))
    (e : exn) :
  Ingest.DATA_DIR ∈ Fs.dirs fs →
  (Ingest.main real py_int py_float fs db).2 = Raise e →
  (Ingest.main real py_int py_float fs db).1 = Some Db.empty.
Proof.
  intros Hdir. unfold Ingest.main. rewrite bool_decide_eq_true_2 by done. cbn [negb].
  rewrite IngestFacts.clear_tables_empties. cbn [Db.pending Db.durable].
  by destruct (Ingest.insert_all _ _ _ _ _).
Qed.

Lemma failed_load_leaves_empty_store_witness :
  Ingest.DATA_DIR ∈ Fs.dirs Examples.fs1_without_payments ∧
  (Ingest.main Dec.Decimal Examples.int_of_digits Examples.decimal_float
     Examples.fs1_without_payments (Some Examples.old_store)).2
  = Raise (FileNotFoundError "data/payments.csv") ∧
  (Ingest.main Dec.Decimal Examples.int_of_digits Examples.decimal_float
     Examples.fs1_without_payments (Some Examples.old_store)).1
  = Some Db.empty.
Proof.
  assert (H1 : Ingest.DATA_DIR ∈ Fs.dirs Examples.fs1_without_payments)
    by (vm_compute; set_solver).
  assert (H2 : (Ingest.main Dec.Decimal Examples.int_of_digits Examples.decimal_float
                  Examples.fs1_without_payments (Some Examples.old_store)).2
               = Raise (FileNotFoundError "data/payments.csv"))
    by (vm_compute; reflexivity).
  exact (conj H1 (conj H2
           (failed_load_leaves_empty_store Dec.Decimal Examples.int_of_digits
              Examples.decimal_float Examples.fs1_without_payments
              (Some Examples.old_store) _ H1 H2))).
Defined.

End LoaderProps.

(** * Further properties of the report *)

Module ReportProps.

Import PyStr Report TableFacts.

(** ** [ORDER BY] *)

Lemma key_le_spec (a b : key) :
  key_le a b = true ↔
  a.1.1 < b.1.1 ∨ (a.1.1 = b.1.1 ∧ (a.1.2 < b.1.2 ∨ (a.1.2 = b.1.2 ∧ a.2 ≤ b.2))).
Proof.
  destruct a as [[a1 a2] a3], b as [[b1 b2] b3]. cbn.
  rewrite !orb_true_iff, !andb_true_iff, !orb_true_iff, !andb_true_iff.
  rewrite !Z.ltb_lt, !Z.eqb_eq, Z.leb_le. done.
Qed.

Lemma key_le_total (a b : key) : key_le a b = false → key_le b a = true.
Proof.
  intros Hab. apply key_le_spec.
  assert (Hn : ¬ (key_le a b = true)) by (rewrite Hab; done).
  rewrite key_le_spec in Hn. lia.
Qed.

Lemma key_le_trans (a b c : key) :
  key_le a b = true → key_le b c = true → key_le a c = true.
Proof. rewrite !key_le_spec. lia. Qed.

Lemma insert_sorted_perm {A} (x : key * A) (l : list (key * A)) :
  insert_sorted x l ≡ₚ x :: l.
Proof.
  induction l as [|y l IH]; cbn; [done|].
  destruct (key_le x.1 y.1); [done|]. rewrite IH. apply perm_swap.
Qed.

Lemma insert_sorted_sorted {A} (x : key * A) (l : list (key * A)) :
  StronglySorted (λ a b, key_le a.1 b.1 = true) l →
  StronglySorted (λ a b, key_le a.1 b.1 = true) (insert_sorted x l).
Proof.
  induction 1 as [|y l Hl IH Hy]; cbn.
  - repeat constructor.
  - destruct (key_le x.1 y.1) eqn:Hxy.
    + constructor; [by constructor|]. constructor; [done|].
      eapply Forall_impl; [exact Hy|]. intros z Hz. by eapply key_le_trans.
    + constructor; [done|]. rewrite insert_sorted_perm.
      constructor; [by apply key_le_total|done].
Qed.

Lemma order_by_perm {A} (l : list (key * A)) : order_by l ≡ₚ l.
Proof.
  unfold order_by. induction l as [|x l IH]; cbn; [done|].
  by rewrite insert_sorted_perm, IH.
Qed.

Lemma order_by_sorted {A} (l : list (key * A)) :
  StronglySorted (λ a b, key_le a.1 b.1 = true) (order_by l).
Proof.
  unfold order_by. induction l as [|x l IH]; cbn.
  - constructor.
  - by apply insert_sorted_sorted.
Qed.

(** ** The rows have nine cells, so the table is always rendered *)

Lemma joined_rows (real : Type) (printf_2f : real → string) (s : Db.store real)
    (kr : key * list value) :
  kr ∈ joined real printf_2f s →
  ∃ order_item_id oi_order oi_product quantity unit_price order_id o_user order_date
    total_amount user_id name product_name pay,
    (order_item_id, oi_order, oi_product, quantity, unit_price) ∈ Db.order_items s ∧
    (order_id, o_user, order_date, total_amount) ∈ Db.orders s ∧ order_id = oi_order ∧
    pay ∈ left_join_payments real s order_id ∧
    kr = ((user_id, order_id, order_item_id),
          [VInt user_id; VStr name; VInt order_id; VStr product_name; VInt quantity;
           VStr (printf_2f unit_price); VStr (printf_2f total_amount);
           VStr (coalesce ((λ p, let '(_, _, _, _, status, _) := p in status) <$> pay));
           VStr (coalesce ((λ p, let '(_, _, _, method, _, _) := p in method) <$> pay))]).
Proof.
  unfold joined. intros H.
  apply list_elem_of_bind in H as ([[[[order_item_id oi_order] oi_product] quantity]
                                     unit_price] & H & Hoi).
  apply list_elem_of_bind in H as ([[[order_id o_user] order_date] total_amount] & H & Ho).
  apply list_elem_of_filter in Ho as [Hoid Ho]. cbn in Hoid.
  apply list_elem_of_bind in H as ([[[[user_id name] email] phone] created] & H & Hu).
  apply list_elem_of_bind in H as ([[[[pid product_name] category] price] stock] & H & Hp).
  apply list_elem_of_bind in H as (pay & H & Hpay).
  apply list_elem_of_singleton in H.
  by exists order_item_id, oi_order, oi_product, quantity, unit_price, order_id, o_user,
    order_date, total_amount, user_id, name, product_name, pay.
Qed.

Lemma fetch_report_rows (real : Type) (printf_2f : real → string) (s : Db.store real)
    (row : list value) :
  row ∈ fetch_report real printf_2f s →
  ∃ k, (k, row) ∈ joined real printf_2f s.
Proof.
  unfold fetch_report. intros ([k r] & -> & H)%list_elem_of_fmap.
  exists k. by rewrite <- (order_by_perm (joined real printf_2f s)).
Qed.

Lemma format_table_ok (hs : list string) (rows : list (list value)) :
  Forall (λ row, (length row ≤ length hs)%nat) rows →
  format_table hs rows = Ok (Spec.fixed_width_table hs (Spec.rendered rows)).
Proof.
  intros Hrows.
  assert (Hstr : Forall (λ row, (length row ≤ length hs)%nat) (Spec.rendered rows)).
  { unfold Spec.rendered. apply Forall_fmap. eapply Forall_impl; [exact Hrows|].
    intros row Hrow. cbn. by rewrite length_fmap. }
  unfold format_table. fold (Spec.rendered rows).
  rewrite widen_rows_widths by done. cbn [and_then].
  rewrite fmt_row_line by (by rewrite length_widths).
  by rewrite fmt_rows_lines by (by rewrite length_widths).
Qed.

(** On an existing database the report never raises: it prints the no-data
    message when the query returns no row, and otherwise the fixed-width
    table of the rows, each of which has the nine cells of the header. *)
Theorem report_never_raises (real : Type) (printf_2f : real → string)
    (s : Db.store real) :
  Forall (λ row, length row = 9%nat) (fetch_report real printf_2f s) ∧
  Report.main real printf_2f (Some s)
  = Ok [if decide (fetch_report real printf_2f s = []) then no_data_message
        else Spec.fixed_width_table headers
               (Spec.rendered (fetch_report real printf_2f s))].
Proof.
  assert (Hnine : Forall (λ row, length row = 9%nat) (fetch_report real printf_2f s)).
  { apply Forall_forall. intros row [k Hk]%fetch_report_rows.
    apply joined_rows in Hk as (? & ? & ? & ? & ? & ? & ? & ? & ? & ? & ? & ? & ? &
                                  _ & _ & _ & _ & [= _ ->]). done. }
  split; [done|]. unfold Report.main.
  destruct (fetch_report real printf_2f s) as [|row rows] eqn:E; [done|].
  rewrite decide_False by done. rewrite format_table_ok; [done|].
  eapply Forall_impl; [exact Hnine|]. intros r ->. cbn. lia.
Qed.

(** ** The table of [format_table] *)

Lemma widen_row_raises (row : list string) (idx : nat) (ws : list nat) :
  (idx ≤ length ws < idx + length row)%nat →
  widen_row row idx ws = Raise index_error.
Proof.
  revert idx ws. induction row as [|col rest IH]; intros idx ws Hlen.
  - cbn in Hlen. lia.
  - cbn [length] in Hlen. cbn [widen_row]. unfold widen.
    destruct (ws !! idx) as [w|] eqn:Hw; [|done].
    cbn [and_then]. apply IH. rewrite length_insert.
    apply lookup_lt_Some in Hw. lia.
Qed.

Lemma widen_rows_raises (str_rows : list (list string)) (ws : list nat) :
  Exists (λ row, (length ws < length row)%nat) str_rows →
  widen_rows str_rows ws = Raise index_error.
Proof.
  intros Hex. revert ws Hex. induction str_rows as [|row rows IH]; intros ws Hex.
  - by apply Exists_nil in Hex.
  - cbn [widen_rows]. destruct (decide (length row ≤ length ws)%nat) as [Hle|Hgt].
    + destruct (widen_row_spec row 0 ws) as (ws1 & -> & Hlen1 & _); [lia|].
      cbn [and_then]. apply IH. apply Exists_cons in Hex as [Hex|Hex]; [lia|].
      by rewrite Hlen1.
    + by rewrite widen_row_raises by lia.
Qed.

(** A row with more cells than there are headers, anywhere among the rows,
    makes [format_table] raise [IndexError]: nothing is rendered. *)
Theorem long_row_raises_index_error (hs : list string) (rows : list (list value))
    (row : list value) :
  row ∈ rows → (length hs < length row)%nat →
  format_table hs rows = Raise index_error.
Proof.
  intros Hrow Hlong. unfold format_table.
  rewrite widen_rows_raises; [done|].
  apply Exists_exists. exists (str_value <$> row). split.
  - by apply (list_elem_of_fmap_2 (λ row : list value, str_value <$> row)).
  - by rewrite !length_fmap.
Qed.

Lemma long_row_raises_index_error_witness :
  [VInt 2; VStr "Bo"; VStr "extra"] ∈ [[VInt 1; VStr "Ava"]; [VInt 2; VStr "Bo"; VStr "extra"]] ∧
  (length ["id"; "name"]%string < length [VInt 2; VStr "Bo"; VStr "extra"])%nat ∧
  format_table ["id"; "name"]%string
    [[VInt 1; VStr "Ava"]; [VInt 2; VStr "Bo"; VStr "extra"]] = Raise index_error.
Proof.
  assert (H1 : [VInt 2; VStr "Bo"; VStr "extra"]
               ∈ [[VInt 1; VStr "Ava"]; [VInt 2; VStr "Bo"; VStr "extra"]])
    by (right; left).
  assert (H2 : (length ["id"; "name"]%string
                < length [VInt 2; VStr "Bo"; VStr "extra"])%nat) by (simpl; lia).
  exact (conj H1 (conj H2 (long_row_raises_index_error _ _ _ H1 H2))).
Defined.

Lemma length_join (sep : string) (parts : list string) :
  String.length (join sep parts)
  = (sum_list (String.length <$> parts) + String.length sep * (length parts - 1))%nat.
Proof.
  induction parts as [|p [|q rest] IH]; [cbn; lia|cbn; lia|].
  change (join sep (p :: q :: rest)) with (p ++ sep ++ join sep (q :: rest))%string.
  rewrite !length_append, IH.
  cbn [fmap list_fmap sum_list sum_list_with length].
  replace (S (S (length rest)) - 1)%nat with (S (S (length rest) - 1)) by lia.
  rewrite Nat.mul_succ_r. unfold id. lia.
Qed.

Lemma lengths_ljust (row : list string) (ws : list nat) :
  Forall2 (λ cell w, (String.length cell ≤ w)%nat) row ws →
  String.length <$> zip_with ljust row ws = ws.
Proof.
  induction 1 as [|cell w row ws Hfit _ IH]; [done|].
  cbn [zip_with fmap list_fmap]. rewrite length_ljust by done. f_equal. exact IH.
Qed.

Lemma lengths_dashes (ws : list nat) :
  String.length <$> ((λ w, string_of_list_ascii (replicate w "-"%char)) <$> ws) = ws.
Proof.
  induction ws as [|w ws IH]; [done|].
  cbn [fmap list_fmap]. rewrite length_repeat_char. f_equal. exact IH.
Qed.

Lemma length_line (hs : list string) (str_rows : list (list string)) (row : list string) :
  row ∈ hs :: str_rows → length row = length hs →
  String.length (Spec.line (Spec.widths hs str_rows) row)
  = (sum_list (Spec.widths hs str_rows) + 3 * (length hs - 1))%nat.
Proof.
  intros Hrow Hlen. unfold Spec.line.
  assert (Hfit : Forall2 (λ cell w, (String.length cell ≤ w)%nat) row
                   (Spec.widths hs str_rows)).
  { apply Forall2_same_length_lookup_2; [by rewrite length_widths|].
    intros i cell w Hcell Hw. by eapply cell_fits. }
  rewrite length_join, lengths_ljust by done.
  rewrite length_zip_with, length_widths, Hlen. cbn [String.length]. lia.
Qed.

(** When every row has as many cells as there are headers, the lines of the
    table -- the header line, the divider and one line per row -- all have
    the same length: the sum of the column widths plus three characters
    between neighbouring columns. *)
Theorem full_rows_give_lines_of_equal_length (hs : list string)
    (rows : list (list value)) :
  Forall (λ row, length row = length hs) rows →
  format_table hs rows
  = Ok (join newline
          (Spec.line (Spec.widths hs (Spec.rendered rows)) hs
           :: Spec.divider (Spec.widths hs (Spec.rendered rows))
           :: (Spec.line (Spec.widths hs (Spec.rendered rows)) <$> Spec.rendered rows))) ∧
  Forall (λ l, String.length l
               = (sum_list (Spec.widths hs (Spec.rendered rows))
                  + 3 * (length hs - 1))%nat)
    (Spec.line (Spec.widths hs (Spec.rendered rows)) hs
     :: Spec.divider (Spec.widths hs (Spec.rendered rows))
     :: (Spec.line (Spec.widths hs (Spec.rendered rows)) <$> Spec.rendered rows)).
Proof.
  intros Hrows. split.
  - rewrite format_table_ok; [done|].
    eapply Forall_impl; [exact Hrows|]. intros row ->. cbn. lia.
  - assert (Hstr : Forall (λ row, length row = length hs) (Spec.rendered rows)).
    { unfold Spec.rendered. apply Forall_fmap. eapply Forall_impl; [exact Hrows|].
      intros row Hrow. cbn. by rewrite length_fmap. }
    apply Forall_cons. split; [apply length_line; [left|done]|].
    apply Forall_cons. split.
    + unfold Spec.divider. rewrite length_join, lengths_dashes.
      rewrite length_fmap, length_widths. cbn [String.length]. lia.
    + apply Forall_fmap, Forall_forall. intros row Hrow. cbn.
      apply length_line; [by right|].
      by apply (proj1 (Forall_forall _ _) Hstr).
Qed.

Lemma full_rows_give_lines_of_equal_length_witness :
  Forall (λ row, length row = length ["id"; "name"]%string)
    [[VInt 1; VStr "Ava"]; [VInt 20; VStr "Bo"]] ∧
  format_table ["id"; "name"]%string [[VInt 1; VStr "Ava"]; [VInt 20; VStr "Bo"]]
  = Ok (join newline
          (Spec.line (Spec.widths ["id"; "name"]%string
                        (Spec.rendered [[VInt 1; VStr "Ava"]; [VInt 20; VStr "Bo"]]))
             ["id"; "name"]%string
           :: Spec.divider (Spec.widths ["id"; "name"]%string
                              (Spec.rendered [[VInt 1; VStr "Ava"]; [VInt 20; VStr "Bo"]]))
           :: (Spec.line (Spec.widths ["id"; "name"]%string
                            (Spec.rendered [[VInt 1; VStr "Ava"]; [VInt 20; VStr "Bo"]]))
               <$> Spec.rendered [[VInt 1; VStr "Ava"]; [VInt 20; VStr "Bo"]]))) ∧
  Forall (λ l, String.length l
               = (sum_list (Spec.widths ["id"; "name"]%string
                              (Spec.rendered [[VInt 1; VStr "Ava"]; [VInt 20; VStr "Bo"]]))
                  + 3 * (length ["id"; "name"]%string - 1))%nat)
    (Spec.line (Spec.widths ["id"; "name"]%string
                  (Spec.rendered [[VInt 1; VStr "Ava"]; [VInt 20; VStr "Bo"]]))
       ["id"; "name"]%string
     :: Spec.divider (Spec.widths ["id"; "name"]%string
                        (Spec.rendered [[VInt 1; VStr "Ava"]; [VInt 20; VStr "Bo"]]))
     :: (Spec.line (Spec.widths ["id"; "name"]%string
                      (Spec.rendered [[VInt 1; VStr "Ava"]; [VInt 20; VStr "Bo"]]))
         <$> Spec.rendered [[VInt 1; VStr "Ava"]; [VInt 20; VStr "Bo"]])).
Proof.
  assert (H : Forall (λ row, length row = length ["id"; "name"]%string)
                [[VInt 1; VStr "Ava"]; [VInt 20; VStr "Bo"]])
    by (repeat constructor).
  exact (conj H (full_rows_give_lines_of_equal_length _ _ H)).
Defined.

(** ** One row per line item *)

Lemma filter_key_unique {R} (key : R → Z) (k : Z) (l : list R) :
  NoDup (key <$> l) → k ∈ key <$> l →
  ∃ r, r ∈ l ∧ key r = k ∧ filter (λ x, key x = k) l = [r].
Proof.
  induction l as [|x l IH]; cbn [fmap list_fmap]; intros Hnd Hin;
    [by apply elem_of_nil in Hin|].
  apply NoDup_cons in Hnd as [Hx Hnd].
  destruct (decide (key x = k)) as [Heq|Hne].
  - exists x. split; [left|]. split; [done|]. rewrite filter_cons_True by done. f_equal.
    apply GenerateFacts.filter_none, Forall_forall. intros y Hy Hyk. apply Hx.
    rewrite Heq, <- Hyk. by apply list_elem_of_fmap_2.
  - apply elem_of_cons in Hin as [Hin|Hin]; [congruence|].
    destruct (IH Hnd Hin) as (r & Hr & Hk & Hf). exists r. split; [by right|].
    split; [done|]. by rewrite filter_cons_False.
Qed.

Lemma filter_key_at_most_one {R} (key : R → Z) (k : Z) (l : list R) :
  NoDup (key <$> l) → (length (filter (λ x, key x = k) l) ≤ 1)%nat.
Proof.
  induction l as [|x l IH]; cbn [fmap list_fmap]; intros Hnd; [cbn; lia|].
  apply NoDup_cons in Hnd as [Hx Hnd].
  destruct (decide (key x = k)) as [Heq|Hne].
  - rewrite filter_cons_True by done. rewrite GenerateFacts.filter_none; [cbn; lia|].
    apply Forall_forall. intros y Hy Hyk. apply Hx.
    rewrite Heq, <- Hyk. by apply list_elem_of_fmap_2.
  - rewrite filter_cons_False by done. by apply IH.
Qed.

Lemma length_left_join_payments (real : Type) (s : Db.store real) (order_id : Z) :
  NoDup (Db.payments_order real <$> Db.payments s) →
  length (left_join_payments real s order_id) = 1%nat.
Proof.
  intros Hnd. unfold left_join_payments.
  pose proof (filter_key_at_most_one (Db.payments_order real) order_id _ Hnd) as Hle.
  destruct (filter _ _) as [|p [|p' ps]]; cbn in *; [done|done|lia].
Qed.

Lemma length_bind_ones {A B} (f : A → list B) (l : list A) :
  Forall (λ a, length (f a) = 1%nat) l → length (l ≫= f) = length l.
Proof.
  induction 1 as [|a l Ha _ IH]; [done|].
  rewrite bind_cons, length_app, Ha, IH. done.
Qed.

Lemma length_bind_single {A B} (f : A → list B) (l : list A) (x : A) :
  l = [x] → length (l ≫= f) = length (f x).
Proof. intros ->. cbn. by rewrite app_nil_r. Qed.

(** On a store whose keys are unique and whose references resolve, and in
    which no order has two payments, the report has exactly one row per line
    item: the joins drop none and repeat none. *)
Theorem one_row_per_line_item (real : Type) (printf_2f : real → string)
    (s : Db.store real) :
  Integrity.consistent real s →
  NoDup (Db.payments_order real <$> Db.payments s) →
  length (fetch_report real printf_2f s) = length (Db.order_items s).
Proof.
  intros [(Hu & Hp & Ho & _) (Fo & Fi & _)] Hpay.
  unfold fetch_report. rewrite length_fmap.
  rewrite (Permutation_length (order_by_perm _)).
  unfold joined. apply length_bind_ones.
  eapply Forall_impl; [exact Fi|].
  intros [[[[iid oo] op] q] up] [Hoo Hop]. cbn in Hoo, Hop.
  destruct (filter_key_unique (Db.orders_key real) oo _ Ho Hoo)
    as ([[[oid ouser] odate] total] & Hin & Hk & Hfo).
  rewrite Forall_forall in Fo. pose proof (Fo _ Hin) as Huser. cbn in Huser.
  destruct (filter_key_unique Db.users_key ouser _ Hu Huser)
    as ([[[[uid name] email] phone] created] & _ & _ & Hfu).
  destruct (filter_key_unique (Db.products_key real) op _ Hp Hop)
    as ([[[[pid pname] cat] price] stock] & _ & _ & Hfp).
  etrans; [exact (length_bind_single _ _ _ Hfo)|]. cbv beta iota.
  etrans; [exact (length_bind_single _ _ _ Hfu)|]. cbv beta iota.
  etrans; [exact (length_bind_single _ _ _ Hfp)|]. cbv beta iota.
  rewrite length_bind_ones.
  - by apply length_left_join_payments.
  - apply Forall_forall. by intros pay _.
Qed.

Lemma one_row_per_line_item_witness :
  Integrity.consistent Dec.Decimal Examples.store1 ∧
  NoDup (Db.payments_order Dec.Decimal <$> Db.payments Examples.store1) ∧
  length (fetch_report Dec.Decimal Examples.decimal_printf_2f Examples.store1)
  = length (Db.order_items Examples.store1).
Proof.
  assert (Hc : Integrity.consistent Dec.Decimal Examples.store1).
  { unfold Integrity.consistent, Integrity.keys_unique, Integrity.references_ok.
    cbn. split_and!; compute_done. }
  assert (Hp : NoDup (Db.payments_order Dec.Decimal <$> Db.payments Examples.store1)).
  { cbn. compute_done. }
  exact (conj Hc (conj Hp
           (one_row_per_line_item Dec.Decimal Examples.decimal_printf_2f Examples.store1
              Hc Hp))).
Defined.

(** ** The rows of a consistent store *)

Lemma bind_single {A B} (f : A → list B) (l : list A) (x : A) :
  l = [x] → l ≫= f = f x.
Proof. intros ->. cbn. by rewrite app_nil_r. Qed.

Lemma Forall2_bind_single {A B} (f : A → list B) (R : A → B → Prop) (l : list A) :
  Forall (λ a, ∃ b, f a = [b] ∧ R a b) l → Forall2 R l (l ≫= f).
Proof.
  induction 1 as [|a l (b & Hb & HR) _ IH]; [constructor|].
  rewrite bind_cons, Hb. by constructor.
Qed.

Lemma Forall2_fmap_eq {A B C} (R : A → B → Prop) (f : A → C) (g : B → C)
    (l : list A) (k : list B) :
  (∀ a b, R a b → g b = f a) → Forall2 R l k → g <$> k = f <$> l.
Proof.
  intros Hkey. induction 1 as [|a b l k HR _ IH]; [done|].
  cbn. by rewrite (Hkey _ _ HR), IH.
Qed.

(** The row that the query makes of a line item with its order, the user of
    the order, its product and a payment of the order, if any. *)
Definition joined_row {real} (printf_2f : real → string)
    (item : Db.order_items_row real) (o : Db.orders_row real) (u : Db.users_row)
    (p : Db.products_row real) (pay : option (Db.payments_row real))
  : key * list value :=
  let '(order_item_id, _, _, quantity, unit_price) := item in
  let '(order_id, _, _, total_amount) := o in
  let '(user_id, name, _, _, _) := u in
  let '(_, product_name, _, _, _) := p in
  ((user_id, order_id, order_item_id),
   [VInt user_id; VStr name; VInt order_id; VStr product_name; VInt quantity;
    VStr (printf_2f unit_price); VStr (printf_2f total_amount);
    VStr (coalesce ((λ p, let '(_, _, _, _, status, _) := p in status) <$> pay));
    VStr (coalesce ((λ p, let '(_, _, _, method, _, _) := p in method) <$> pay))]).

(** What a line item contributes to the join when keys are unique and
    references resolve: one row per payment of its order, or one row without
    payment. *)
Lemma joined_of_item (real : Type) (printf_2f : real → string) (s : Db.store real)
    (item : Db.order_items_row real) :
  Integrity.consistent real s → item ∈ Db.order_items s →
  ∃ o u p,
    o ∈ Db.orders s ∧ Db.orders_key real o = Db.order_items_order real item ∧
    u ∈ Db.users s ∧ Db.users_key u = Db.orders_user real o ∧
    p ∈ Db.products s ∧ Db.products_key real p = Db.order_items_product real item ∧
    (let '(order_item_id, oi_order, oi_product, quantity, unit_price) := item in
     '(order_id, o_user, _, total_amount) ←
        filter (λ o, Db.orders_key real o = oi_order) (Db.orders s);
     '(user_id, name, _, _, _) ← filter (λ u, Db.users_key u = o_user) (Db.users s);
     '(_, product_name, _, _, _) ←
        filter (λ p, Db.products_key real p = oi_product) (Db.products s);
     pay ← left_join_payments real s order_id;
     [((user_id, order_id, order_item_id),
       [VInt user_id; VStr name; VInt order_id; VStr product_name; VInt quantity;
        VStr (printf_2f unit_price); VStr (printf_2f total_amount);
        VStr (coalesce ((λ p, let '(_, _, _, _, status, _) := p in status) <$> pay));
        VStr (coalesce ((λ p, let '(_, _, _, method, _, _) := p in method) <$> pay))])])
    = joined_row printf_2f item o u p
      <$> left_join_payments real s (Db.orders_key real o).
Proof.
  intros [(Hu & Hp & Ho & _) (Fo & Fi & _)] Hitem.
  rewrite Forall_forall in Fi. destruct (Fi _ Hitem) as [Hoo Hop].
  destruct item as [[[[iid oo] op] q] up]. cbn in Hoo, Hop.
  destruct (filter_key_unique (Db.orders_key real) oo _ Ho Hoo)
    as ([[[oid ouser] odate] total] & Hin & Hk & Hfo).
  rewrite Forall_forall in Fo. pose proof (Fo _ Hin) as Huser. cbn in Huser.
  destruct (filter_key_unique Db.users_key ouser _ Hu Huser)
    as ([[[[uid name] email] phone] created] & Hinu & Hku & Hfu).
  destruct (filter_key_unique (Db.products_key real) op _ Hp Hop)
    as ([[[[pid pname] cat] price] stock] & Hinp & Hkp & Hfp).
  exists (oid, ouser, odate, total), (uid, name, email, phone, created),
    (pid, pname, cat, price, stock).
  split_and!; try done.
  etrans; [exact (bind_single _ _ _ Hfo)|]. cbv beta iota.
  etrans; [exact (bind_single _ _ _ Hfu)|]. cbv beta iota.
  etrans; [exact (bind_single _ _ _ Hfp)|]. cbv beta iota.
  cbn [Db.orders_key]. induction (left_join_payments real s oid) as [|pay pays IH];
    [done|]. rewrite bind_cons, IH. done.
Qed.

(** With at most one payment per order, each line item gives one row. *)
Lemma joined_per_item (real : Type) (printf_2f : real → string) (s : Db.store real) :
  Integrity.consistent real s →
  NoDup (Db.payments_order real <$> Db.payments s) →
  Forall2 (λ item kr,
             ∃ o u p pay,
               o ∈ Db.orders s ∧ Db.orders_key real o = Db.order_items_order real item ∧
               u ∈ Db.users s ∧ Db.users_key u = Db.orders_user real o ∧
               p ∈ Db.products s ∧
               Db.products_key real p = Db.order_items_product real item ∧
               left_join_payments real s (Db.orders_key real o) = [pay] ∧
               kr = joined_row printf_2f item o u p pay)
          (Db.order_items s) (joined real printf_2f s).
Proof.
  intros Hc Hpay. unfold joined. apply Forall2_bind_single, Forall_forall.
  intros item Hitem.
  destruct (joined_of_item real printf_2f s item Hc Hitem)
    as (o & u & p & Ho & Hko & Hu & Hku & Hp & Hkp & Heq).
  pose proof (length_left_join_payments real s (Db.orders_key real o) Hpay) as Hlen.
  destruct (left_join_payments real s (Db.orders_key real o)) as [|pay [|pay' pays]] eqn:E;
    try done.
  exists (joined_row printf_2f item o u p pay). split.
  - destruct item as [[[[iid oo] op] q] up]. exact Heq.
  - by exists o, u, p, pay.
Qed.

(** ** [ORDER BY] on a consistent store *)

Lemma strictly_sorted {A} (l : list (key * A)) :
  StronglySorted (λ a b, key_le a.1 b.1 = true) l →
  NoDup ((λ kr, kr.1.2) <$> l) →
  StronglySorted (λ a b, Spec.key_before a.1 b.1) l.
Proof.
  induction 1 as [|x l Hl IH Hx]; cbn [fmap list_fmap]; intros Hnd; [constructor|].
  apply NoDup_cons in Hnd as [Hnotin Hnd].
  constructor; [by apply IH|].
  apply Forall_forall. intros y Hy.
  rewrite Forall_forall in Hx. pose proof (Hx _ Hy) as Hle.
  apply key_le_spec in Hle.
  assert (x.1.2 ≠ y.1.2).
  { intros Heq. apply Hnotin. apply list_elem_of_fmap. by exists y. }
  unfold Spec.key_before. lia.
Qed.

(** On a store whose primary keys are unique and whose foreign keys resolve,
    and in which no order has two payments, the rows that [fetch_report]
    returns are the joined rows, each once, in strictly increasing order of
    [(user_id, order_id, order_item_id)]: no two rows share a key, so the
    order of the rows is the one [ORDER BY] determines. *)
Theorem report_rows_are_ordered (real : Type) (printf_2f : real → string)
    (s : Db.store real) :
  Integrity.consistent real s →
  NoDup (Db.payments_order real <$> Db.payments s) →
  ∃ keyed,
    keyed ≡ₚ joined real printf_2f s ∧
    fetch_report real printf_2f s = keyed.*2 ∧
    StronglySorted (λ a b, Spec.key_before a.1 b.1) keyed.
Proof.
  intros Hc Hpay. exists (order_by (joined real printf_2f s)).
  split; [apply order_by_perm|]. split; [done|].
  apply strictly_sorted; [apply order_by_sorted|].
  rewrite (order_by_perm (joined real printf_2f s)).
  assert (Hkeys : (λ kr : key * list value, kr.1.2) <$> joined real printf_2f s
                  = Db.order_items_key real <$> Db.order_items s).
  { eapply Forall2_fmap_eq; [|exact (joined_per_item real printf_2f s Hc Hpay)].
    intros [[[[iid oo] op] q] up] kr (o & u & p & pay & _ & _ & _ & _ & _ & _ & _ & ->).
    by destruct o as [[[? ?] ?] ?], u as [[[[? ?] ?] ?] ?], p as [[[[? ?] ?] ?] ?]. }
  destruct Hc as [(_ & _ & _ & Hi & _) _]. rewrite <- Hkeys in Hi. exact Hi.
Qed.

Lemma report_rows_are_ordered_witness :
  Integrity.consistent Dec.Decimal Examples.store1 ∧
  NoDup (Db.payments_order Dec.Decimal <$> Db.payments Examples.store1) ∧
  ∃ keyed,
    keyed ≡ₚ joined Dec.Decimal Examples.decimal_printf_2f Examples.store1 ∧
    fetch_report Dec.Decimal Examples.decimal_printf_2f Examples.store1 = keyed.*2 ∧
    StronglySorted (λ a b, Spec.key_before a.1 b.1) keyed.
Proof.
  assert (Hc : Integrity.consistent Dec.Decimal Examples.store1).
  { unfold Integrity.consistent, Integrity.keys_unique, Integrity.references_ok.
    cbn. split_and!; compute_done. }
  assert (Hp : NoDup (Db.payments_order Dec.Decimal <$> Db.payments Examples.store1)).
  { cbn. compute_done. }
  exact (conj Hc (conj Hp
           (report_rows_are_ordered Dec.Decimal Examples.decimal_printf_2f Examples.store1
              Hc Hp))).
Defined.

(** ** Orders without payment *)

(** On a store whose primary keys are unique and whose foreign keys resolve,
    a line item of an order without payment still appears in the report
    (the payments are joined on the left): some row shows its order, its
    quantity and its unit price, and every row of that order shows "N/A" as
    payment status and as payment method. *)
Theorem unpaid_order_shows_na (real : Type) (printf_2f : real → string)
    (s : Db.store real) (order_item_id order_id product_id quantity : Z)
    (unit_price : real) :
  Integrity.consistent real s →
  (order_item_id, order_id, product_id, quantity, unit_price) ∈ Db.order_items s →
  (∀ pay, pay ∈ Db.payments s → Db.payments_order real pay ≠ order_id) →
  (∃ row, row ∈ fetch_report real printf_2f s ∧
          row !! 2%nat = Some (VInt order_id) ∧
          row !! 4%nat = Some (VInt quantity) ∧
          row !! 5%nat = Some (VStr (printf_2f unit_price)) ∧
          row !! 7%nat = Some (VStr "N/A") ∧ row !! 8%nat = Some (VStr "N/A")) ∧
  (∀ row, row ∈ fetch_report real printf_2f s →
          row !! 2%nat = Some (VInt order_id) →
          row !! 7%nat = Some (VStr "N/A") ∧ row !! 8%nat = Some (VStr "N/A")).
Proof.
  intros Hc Hitem Hnone.
  assert (Hleft : left_join_payments real s order_id = [None]).
  { unfold left_join_payments. rewrite GenerateFacts.filter_none; [done|].
    apply Forall_forall. intros p Hp. by apply Hnone. }
  split.
  - destruct (joined_of_item real printf_2f s _ Hc Hitem)
      as (o & u & p & Ho & Hko & Hu & Hku & Hp & Hkp & Heq).
    cbn in Hko. rewrite Hko, Hleft in Heq. cbn [fmap list_fmap] in Heq.
    exists (joined_row printf_2f (order_item_id, order_id, product_id, quantity, unit_price)
              o u p None).2.
    split.
    + unfold fetch_report. apply (list_elem_of_fmap_2 snd).
      rewrite (order_by_perm (joined real printf_2f s)).
      unfold joined. apply list_elem_of_bind. eexists. split; [|exact Hitem].
      assert (Hin : joined_row printf_2f
                      (order_item_id, order_id, product_id, quantity, unit_price) o u p None
                    ∈ [joined_row printf_2f
                         (order_item_id, order_id, product_id, quantity, unit_price)
                         o u p None]) by apply list_elem_of_here.
      rewrite <- Heq in Hin. exact Hin.
    + destruct o as [[[oid ouser] odate] total], u as [[[[uid name] email] phone] created],
        p as [[[[pid pname] cat] price] stock]. cbn in Hko. subst oid. done.
  - intros row [k Hk]%fetch_report_rows Hcell.
    apply joined_rows in Hk as (? & ? & ? & ? & ? & oid & ? & ? & ? & ? & ? & ? & pay &
                                  _ & _ & _ & Hpay & [= _ ->]).
    cbn in Hcell. injection Hcell as ->.
    rewrite Hleft in Hpay. apply list_elem_of_singleton in Hpay as ->. done.
Qed.

Lemma unpaid_order_shows_na_witness :
  Integrity.consistent Dec.Decimal
    (Db.mkStore [(1, "Ava", "ava@example.com", "555", "2025-01-01")]%string
       [(4, "Mug", "Kitchen", Dec.mkDecimal 350 (-2), 10)]%string
       [(7, 1, "2025-02-02", Dec.mkDecimal 700 (-2))]%string
       [(1, 7, 4, 2, Dec.mkDecimal 350 (-2))] []) ∧
  (1, 7, 4, 2, Dec.mkDecimal 350 (-2))
  ∈ Db.order_items
      (Db.mkStore [(1, "Ava", "ava@example.com", "555", "2025-01-01")]%string
         [(4, "Mug", "Kitchen", Dec.mkDecimal 350 (-2), 10)]%string
         [(7, 1, "2025-02-02", Dec.mkDecimal 700 (-2))]%string
         [(1, 7, 4, 2, Dec.mkDecimal 350 (-2))] []) ∧
  (∀ pay, pay ∈ Db.payments
                  (Db.mkStore [(1, "Ava", "ava@example.com", "555", "2025-01-01")]%string
                     [(4, "Mug", "Kitchen", Dec.mkDecimal 350 (-2), 10)]%string
                     [(7, 1, "2025-02-02", Dec.mkDecimal 700 (-2))]%string
                     [(1, 7, 4, 2, Dec.mkDecimal 350 (-2))] []) →
          Db.payments_order Dec.Decimal pay ≠ 7) ∧
  (∃ row, row ∈ fetch_report Dec.Decimal Examples.decimal_printf_2f
                  (Db.mkStore [(1, "Ava", "ava@example.com", "555", "2025-01-01")]%string
                     [(4, "Mug", "Kitchen", Dec.mkDecimal 350 (-2), 10)]%string
                     [(7, 1, "2025-02-02", Dec.mkDecimal 700 (-2))]%string
                     [(1, 7, 4, 2, Dec.mkDecimal 350 (-2))] []) ∧
          row !! 2%nat = Some (VInt 7) ∧
          row !! 4%nat = Some (VInt 2) ∧
          row !! 5%nat
          = Some (VStr (Examples.decimal_printf_2f (Dec.mkDecimal 350 (-2)))) ∧
          row !! 7%nat = Some (VStr "N/A") ∧ row !! 8%nat = Some (VStr "N/A")) ∧
  (∀ row, row ∈ fetch_report Dec.Decimal Examples.decimal_printf_2f
                  (Db.mkStore [(1, "Ava", "ava@example.com", "555", "2025-01-01")]%string
                     [(4, "Mug", "Kitchen", Dec.mkDecimal 350 (-2), 10)]%string
                     [(7, 1, "2025-02-02", Dec.mkDecimal 700 (-2))]%string
                     [(1, 7, 4, 2, Dec.mkDecimal 350 (-2))] []) →
          row !! 2%nat = Some (VInt 7) →
          row !! 7%nat = Some (VStr "N/A") ∧ row !! 8%nat = Some (VStr "N/A")).
Proof.
  set (s := Db.mkStore [(1, "Ava", "ava@example.com", "555", "2025-01-01")]%string
              [(4, "Mug", "Kitchen", Dec.mkDecimal 350 (-2), 10)]%string
              [(7, 1, "2025-02-02", Dec.mkDecimal 700 (-2))]%string
              [(1, 7, 4, 2, Dec.mkDecimal 350 (-2))] []).
  assert (H1 : Integrity.consistent Dec.Decimal s).
  { unfold Integrity.consistent, Integrity.keys_unique, Integrity.references_ok.
    cbn. split_and!; compute_done. }
  assert (H2 : (1, 7, 4, 2, Dec.mkDecimal 350 (-2)) ∈ Db.order_items s)
    by apply list_elem_of_here.
  assert (H3 : ∀ pay, pay ∈ Db.payments s → Db.payments_order Dec.Decimal pay ≠ 7).
  { intros pay Hpay. cbn in Hpay. by apply elem_of_nil in Hpay. }
  exact (conj H1 (conj H2 (conj H3
           (unpaid_order_shows_na Dec.Decimal Examples.decimal_printf_2f s 1 7 4 2
              (Dec.mkDecimal 350 (-2)) H1 H2 H3)))).
Defined.

End ReportProps.

(** * From the generator to the store *)

Module PipelineProps.

Import PyStr Generate Inv.

(** The row that the loader binds for a user. *)
Definition users_row_of (u : User.t) : Db.users_row :=
  (User.user_id u, User.name u, User.email u, User.phone u,
   Calendar.format_date (User.created_at u)).

Ltac field_in_header :=
  repeat first [apply list_elem_of_here | apply list_elem_of_further].

Lemma get_written (fields : list string) (d : list (string * value)) (k : string) :
  k ∈ fields →
  Ingest.get (list_to_map (zip fields (Exporter.writerow fields d))) k
  = Ok (from_option str_value EmptyString (Exporter.dict_get k d)).
Proof.
  intros Hk. unfold Ingest.get, Exporter.writerow.
  by rewrite ExporterProps.lookup_zip_fmap, decide_True by done.
Qed.

Lemma fmap_results {A B} (f : A → result B) (R : A → B → Prop) (l : list A) :
  Forall (λ a, ∃ b, f a = Ok b ∧ R a b) l →
  ∃ bs, f <$> l = Ok <$> bs ∧ Forall2 R l bs.
Proof.
  induction 1 as [|a l (b & Hb & HR) _ (bs & Hbs & HRs)].
  - by exists [].
  - exists (b :: bs). cbn. rewrite Hb, Hbs. split; [done|by constructor].
Qed.

Lemma Forall2_keys {A B} (R : A → B → Prop) (f : A → Z) (g : B → Z)
    (l : list A) (k : list B) :
  (∀ a b, R a b → g b = f a) → Forall2 R l k → g <$> k = f <$> l.
Proof.
  intros Hkey. induction 1 as [|a b l k HR _ IH]; [done|].
  cbn. by rewrite (Hkey _ _ HR), IH.
Qed.

Lemma Forall2_transfer {A B} (R : A → B → Prop) (P : A → Prop) (Q : B → Prop)
    (l : list A) (k : list B) :
  (∀ a b, R a b → P a → Q b) → Forall2 R l k → Forall P l → Forall Q k.
Proof.
  intros Himp. induction 1 as [|a b l k HR _ IH]; [done|].
  intros [Ha Hl]%Forall_cons. constructor; [by eapply Himp|by apply IH].
Qed.

Lemma Forall2_left {A B} (R : A → B → Prop) (l : list A) (k : list B) :
  Forall2 R l k → Forall (λ b, ∃ a, a ∈ l ∧ R a b) k.
Proof.
  induction 1 as [|a b l k HR _ IH]; constructor.
  - exists a. split; [left|done].
  - eapply Forall_impl; [exact IH|]. intros b' (a' & Ha' & HR').
    exists a'. split; [by right|done].
Qed.

Lemma exported_files (a : Exporter.args) (today_users today_orders : Z)
    (tape tape' : list N) (fs : Fs.t) (ds : dataset) :
  generate today_users today_orders (Exporter.arg_users a) (Exporter.arg_products a)
    (Exporter.arg_orders a) tape = Ok (ds, tape') →
  Ingest.DATA_DIR ∈ Fs.dirs (Exporter.main a today_users today_orders tape fs).1 ∧
  Fs.files (Exporter.main a today_users today_orders tape fs).1 !! "data/users.csv"%string
  = Some (Fs.CsvFile (Exporter.users_fields
                      :: (Exporter.writerow Exporter.users_fields
                          <$> (Exporter.asdict_user <$> users ds)))) ∧
  Fs.files (Exporter.main a today_users today_orders tape fs).1 !! "data/products.csv"%string
  = Some (Fs.CsvFile (Exporter.products_fields
                      :: (Exporter.writerow Exporter.products_fields
                          <$> (Exporter.asdict_product <$> products ds)))) ∧
  Fs.files (Exporter.main a today_users today_orders tape fs).1 !! "data/orders.csv"%string
  = Some (Fs.CsvFile (Exporter.orders_fields
                      :: (Exporter.writerow Exporter.orders_fields
                          <$> (Exporter.asdict_order <$> orders ds)))) ∧
  Fs.files (Exporter.main a today_users today_orders tape fs).1
    !! "data/order_items.csv"%string
  = Some (Fs.CsvFile (Exporter.order_items_fields
                      :: (Exporter.writerow Exporter.order_items_fields
                          <$> (Exporter.asdict_order_item <$> order_items ds)))) ∧
  Fs.files (Exporter.main a today_users today_orders tape fs).1 !! "data/payments.csv"%string
  = Some (Fs.CsvFile (Exporter.payments_fields
                      :: (Exporter.writerow Exporter.payments_fields
                          <$> (Exporter.asdict_payment <$> payments ds)))).
Proof.
  intros Hrun. unfold Exporter.main. rewrite Hrun. cbn [fst].
  split.
  { destruct (Exporter.arg_json a); cbn; apply elem_of_union; left;
      by apply elem_of_singleton. }
  destruct (Exporter.arg_json a);
    unfold Exporter.write_all_json, Exporter.write_all_csv, Exporter.write_csv,
      Exporter.write_json, Fs.write, Fs.makedirs; cbn [Fs.files Fs.dirs];
    split_and!; rewrite ?lookup_insert_ne by done; apply lookup_insert_eq.
Qed.

Section Loader.

Variable real : Type.
Variable py_int : string → option Z.
Variable py_float : string → option real.

(** The rows that the loader binds for the other records: the money field
    is whatever [float] makes of the money string. *)
Definition products_row_of (p : Product.t) (r : Db.products_row real) : Prop :=
  ∃ x, py_float (Product.price p) = Some x ∧
       r = (Product.product_id p, Product.name p, Product.category p, x, Product.stock p).

Definition orders_row_of (o : Order.t) (r : Db.orders_row real) : Prop :=
  ∃ x, py_float (Order.total_amount o) = Some x ∧
       r = (Order.order_id o, Order.user_id o,
            Calendar.format_date (Order.order_date o), x).

Definition order_items_row_of (it : OrderItem.t) (r : Db.order_items_row real) : Prop :=
  ∃ x, py_float (OrderItem.unit_price it) = Some x ∧
       r = (OrderItem.order_item_id it, OrderItem.order_id it, OrderItem.product_id it,
            OrderItem.quantity it, x).

Definition payments_row_of (p : Payment.t) (r : Db.payments_row real) : Prop :=
  ∃ x, py_float (Payment.amount p) = Some x ∧
       r = (Payment.payment_id p, Payment.order_id p, x, Payment.method p,
            Payment.status p, Calendar.format_datetime (Payment.paid_at p)).

Hypothesis py_int_str : ∀ n, 0 ≤ n → py_int (str_int n) = Some n.

Lemma int_str (n : Z) : 0 ≤ n → Ingest.int py_int (str_int n) = Ok n.
Proof. intros Hn. unfold Ingest.int. by rewrite py_int_str. Qed.

Lemma float_some (s : string) (x : real) :
  py_float s = Some x → Ingest.float real py_float s = Ok x.
Proof. intros Hs. unfold Ingest.float. by rewrite Hs. Qed.

Ltac read_fields :=
  rewrite !get_written by (unfold Exporter.users_fields, Exporter.products_fields,
    Exporter.orders_fields, Exporter.order_items_fields, Exporter.payments_fields;
    field_in_header);
  cbn [Exporter.dict_get Exporter.asdict_user Exporter.asdict_product
       Exporter.asdict_order Exporter.asdict_order_item Exporter.asdict_payment
       String.eqb Ascii.eqb Bool.eqb from_option str_value and_then].

Lemma load_users_written (fs : Fs.t) (us : list User.t) :
  Fs.files fs !! "data/users.csv"%string
  = Some (Fs.CsvFile (Exporter.users_fields
                      :: (Exporter.writerow Exporter.users_fields
                          <$> (Exporter.asdict_user <$> us)))) →
  Forall (λ u, 0 ≤ User.user_id u) us →
  Ingest.load_users py_int fs "data/users.csv" = Ok (Ok <$> (users_row_of <$> us)).
Proof.
  intros Hfile Hus. unfold Ingest.load_users, Ingest.dict_reader. rewrite Hfile.
  cbn [and_then]. f_equal. rewrite <- !list_fmap_compose.
  apply Forall_fmap_ext. eapply Forall_impl; [exact Hus|].
  intros u Hu. cbn [compose]. read_fields.
  rewrite int_str by done. done.
Qed.

Lemma load_products_written (fs : Fs.t) (ps : list Product.t) :
  Fs.files fs !! "data/products.csv"%string
  = Some (Fs.CsvFile (Exporter.products_fields
                      :: (Exporter.writerow Exporter.products_fields
                          <$> (Exporter.asdict_product <$> ps)))) →
  Forall (λ p, 0 ≤ Product.product_id p ∧ 0 ≤ Product.stock p ∧
               is_Some (py_float (Product.price p))) ps →
  ∃ rs, Ingest.load_products real py_int py_float fs "data/products.csv"
        = Ok (Ok <$> rs) ∧
        Forall2 products_row_of ps rs.
Proof.
  intros Hfile Hps. unfold Ingest.load_products, Ingest.dict_reader. rewrite Hfile.
  cbn [and_then]. rewrite <- !list_fmap_compose.
  match goal with |- context [?f <$> ps] =>
    destruct (fmap_results f products_row_of ps) as (rs & Hrs & HR) end.
  - eapply Forall_impl; [exact Hps|]. intros p (Hid & Hstock & [x Hx]).
    cbn [compose]. read_fields.
    rewrite !int_str, (float_some _ _ Hx) by done. cbn [and_then].
    eexists. split; [reflexivity|]. by exists x.
  - exists rs. by rewrite Hrs.
Qed.

Lemma load_orders_written (fs : Fs.t) (os : list Order.t) :
  Fs.files fs !! "data/orders.csv"%string
  = Some (Fs.CsvFile (Exporter.orders_fields
                      :: (Exporter.writerow Exporter.orders_fields
                          <$> (Exporter.asdict_order <$> os)))) →
  Forall (λ o, 0 ≤ Order.order_id o ∧ 0 ≤ Order.user_id o ∧
               is_Some (py_float (Order.total_amount o))) os →
  ∃ rs, Ingest.load_orders real py_int py_float fs "data/orders.csv" = Ok (Ok <$> rs) ∧
        Forall2 orders_row_of os rs.
Proof.
  intros Hfile Hos. unfold Ingest.load_orders, Ingest.dict_reader. rewrite Hfile.
  cbn [and_then]. rewrite <- !list_fmap_compose.
  match goal with |- context [?f <$> os] =>
    destruct (fmap_results f orders_row_of os) as (rs & Hrs & HR) end.
  - eapply Forall_impl; [exact Hos|]. intros o (Hid & Huid & [x Hx]).
    cbn [compose]. read_fields.
    rewrite !int_str, (float_some _ _ Hx) by done. cbn [and_then].
    eexists. split; [reflexivity|]. by exists x.
  - exists rs. by rewrite Hrs.
Qed.

Lemma load_order_items_written (fs : Fs.t) (its : list OrderItem.t) :
  Fs.files fs !! "data/order_items.csv"%string
  = Some (Fs.CsvFile (Exporter.order_items_fields
                      :: (Exporter.writerow Exporter.order_items_fields
                          <$> (Exporter.asdict_order_item <$> its)))) →
  Forall (λ it, 0 ≤ OrderItem.order_item_id it ∧ 0 ≤ OrderItem.order_id it ∧
                0 ≤ OrderItem.product_id it ∧ 0 ≤ OrderItem.quantity it ∧
                is_Some (py_float (OrderItem.unit_price it))) its →
  ∃ rs, Ingest.load_order_items real py_int py_float fs "data/order_items.csv"
        = Ok (Ok <$> rs) ∧
        Forall2 order_items_row_of its rs.
Proof.
  intros Hfile Hits. unfold Ingest.load_order_items, Ingest.dict_reader. rewrite Hfile.
  cbn [and_then]. rewrite <- !list_fmap_compose.
  match goal with |- context [?f <$> its] =>
    destruct (fmap_results f order_items_row_of its) as (rs & Hrs & HR) end.
  - eapply Forall_impl; [exact Hits|]. intros it (Hid & Hoid & Hpid & Hq & [x Hx]).
    cbn [compose]. read_fields.
    rewrite !int_str, (float_some _ _ Hx) by done. cbn [and_then].
    eexists. split; [reflexivity|]. by exists x.
  - exists rs. by rewrite Hrs.
Qed.

Lemma load_payments_written (fs : Fs.t) (ys : list Payment.t) :
  Fs.files fs !! "data/payments.csv"%string
  = Some (Fs.CsvFile (Exporter.payments_fields
                      :: (Exporter.writerow Exporter.payments_fields
                          <$> (Exporter.asdict_payment <$> ys)))) →
  Forall (λ y, 0 ≤ Payment.payment_id y ∧ 0 ≤ Payment.order_id y ∧
               is_Some (py_float (Payment.amount y))) ys →
  ∃ rs, Ingest.load_payments real py_int py_float fs "data/payments.csv"
        = Ok (Ok <$> rs) ∧
        Forall2 payments_row_of ys rs.
Proof.
  intros Hfile Hys. unfold Ingest.load_payments, Ingest.dict_reader. rewrite Hfile.
  cbn [and_then]. rewrite <- !list_fmap_compose.
  match goal with |- context [?f <$> ys] =>
    destruct (fmap_results f payments_row_of ys) as (rs & Hrs & HR) end.
  - eapply Forall_impl; [exact Hys|]. intros y (Hid & Hoid & [x Hx]).
    cbn [compose]. read_fields.
    rewrite !int_str, (float_some _ _ Hx) by done. cbn [and_then].
    eexists. split; [reflexivity|]. by exists x.
  - exists rs. by rewrite Hrs.
Qed.

(** ** Inserting rows with new keys and resolving references *)

Lemma insert_each_append {R} (insert : R → Db.store real → result (Db.store real))
    (upd : list R → Db.store real → Db.store real)
    (P : list R → Db.store real → Prop) (rs : list R) (s : Db.store real) :
  (∀ s0, upd [] s0 = s0) →
  (∀ r rs s0, upd rs (upd [r] s0) = upd (r :: rs) s0) →
  (∀ r rs s0, P (r :: rs) s0 → insert r s0 = Ok (upd [r] s0) ∧ P rs (upd [r] s0)) →
  P rs s → Ingest.insert_each real insert (Ok <$> rs) s = Ok (upd rs s).
Proof.
  intros Hnil Hcons Hstep. revert s. induction rs as [|r rs IH]; intros s HP; cbn.
  - by rewrite Hnil.
  - destruct (Hstep _ _ _ HP) as [-> HP']. cbn. rewrite IH by done. by rewrite Hcons.
Qed.

Lemma new_key {R} (key : R → Z) (rows : list R) (r : R) (rs : list R) :
  NoDup (key <$> (rows ++ r :: rs)) →
  Db.has_key key (key r) rows = false ∧ NoDup (key <$> ((rows ++ [r]) ++ rs)).
Proof.
  intros Hnd. split.
  - apply LoaderProps.has_key_not_elem. rewrite fmap_app in Hnd.
    apply NoDup_app in Hnd as (_ & Hdisj & _). intros Hin.
    apply (Hdisj _ Hin). cbn. left.
  - by rewrite <- app_assoc.
Qed.

Lemma insert_users_ok (us : list Db.users_row) (s : Db.store real) :
  NoDup (Db.users_key <$> (Db.users s ++ us)) →
  Ingest.insert_each real Db.insert_user (Ok <$> us) s
  = Ok (Db.mkStore (Db.users s ++ us) (Db.products s) (Db.orders s) (Db.order_items s)
          (Db.payments s)).
Proof.
  apply (insert_each_append Db.insert_user
           (λ rs s0, Db.mkStore (Db.users s0 ++ rs) (Db.products s0) (Db.orders s0)
                       (Db.order_items s0) (Db.payments s0))
           (λ rs s0, NoDup (Db.users_key <$> (Db.users s0 ++ rs)))).
  - intros []. cbn. by rewrite app_nil_r.
  - intros. cbn. by rewrite <- app_assoc.
  - intros r rs s0 [Hnew Hnd]%new_key. unfold Db.insert_user. by rewrite Hnew.
Qed.

Lemma insert_products_ok (ps : list (Db.products_row real)) (s : Db.store real) :
  NoDup (Db.products_key real <$> (Db.products s ++ ps)) →
  Ingest.insert_each real Db.insert_product (Ok <$> ps) s
  = Ok (Db.mkStore (Db.users s) (Db.products s ++ ps) (Db.orders s) (Db.order_items s)
          (Db.payments s)).
Proof.
  apply (insert_each_append Db.insert_product
           (λ rs s0, Db.mkStore (Db.users s0) (Db.products s0 ++ rs) (Db.orders s0)
                       (Db.order_items s0) (Db.payments s0))
           (λ rs s0, NoDup (Db.products_key real <$> (Db.products s0 ++ rs)))).
  - intros []. cbn. by rewrite app_nil_r.
  - intros. cbn. by rewrite <- app_assoc.
  - intros r rs s0 [Hnew Hnd]%new_key. unfold Db.insert_product. by rewrite Hnew.
Qed.

Lemma insert_orders_ok (os : list (Db.orders_row real)) (s : Db.store real) :
  NoDup (Db.orders_key real <$> (Db.orders s ++ os)) →
  Forall (λ r, Db.orders_user real r ∈ Db.users_key <$> Db.users s) os →
  Ingest.insert_each real Db.insert_order (Ok <$> os) s
  = Ok (Db.mkStore (Db.users s) (Db.products s) (Db.orders s ++ os) (Db.order_items s)
          (Db.payments s)).
Proof.
  intros Hnd Hfk.
  apply (insert_each_append Db.insert_order
           (λ rs s0, Db.mkStore (Db.users s0) (Db.products s0) (Db.orders s0 ++ rs)
                       (Db.order_items s0) (Db.payments s0))
           (λ rs s0, NoDup (Db.orders_key real <$> (Db.orders s0 ++ rs)) ∧
                     Forall (λ r, Db.orders_user real r ∈ Db.users_key <$> Db.users s0) rs));
    [| | |done].
  - intros []. cbn. by rewrite app_nil_r.
  - intros. cbn. by rewrite <- app_assoc.
  - intros r rs s0 [[Hnew Hnd']%new_key [Hr Hrs]%Forall_cons].
    apply LoaderProps.has_key_elem in Hr.
    unfold Db.insert_order. by rewrite Hnew, Hr.
Qed.

Lemma insert_order_items_ok (its : list (Db.order_items_row real)) (s : Db.store real) :
  NoDup (Db.order_items_key real <$> (Db.order_items s ++ its)) →
  Forall (λ r, Db.order_items_order real r ∈ Db.orders_key real <$> Db.orders s ∧
               Db.order_items_product real r ∈ Db.products_key real <$> Db.products s)
         its →
  Ingest.insert_each real Db.insert_order_item (Ok <$> its) s
  = Ok (Db.mkStore (Db.users s) (Db.products s) (Db.orders s) (Db.order_items s ++ its)
          (Db.payments s)).
Proof.
  intros Hnd Hfk.
  apply (insert_each_append Db.insert_order_item
           (λ rs s0, Db.mkStore (Db.users s0) (Db.products s0) (Db.orders s0)
                       (Db.order_items s0 ++ rs) (Db.payments s0))
           (λ rs s0, NoDup (Db.order_items_key real <$> (Db.order_items s0 ++ rs)) ∧
                     Forall (λ r, Db.order_items_order real r
                                  ∈ Db.orders_key real <$> Db.orders s0 ∧
                                  Db.order_items_product real r
                                  ∈ Db.products_key real <$> Db.products s0) rs));
    [| | |done].
  - intros []. cbn. by rewrite app_nil_r.
  - intros. cbn. by rewrite <- app_assoc.
  - intros r rs s0 [[Hnew Hnd']%new_key [[Ho Hp] Hrs]%Forall_cons].
    apply LoaderProps.has_key_elem in Ho, Hp.
    unfold Db.insert_order_item. by rewrite Hnew, Ho, Hp.
Qed.

Lemma insert_payments_ok (ys : list (Db.payments_row real)) (s : Db.store real) :
  NoDup (Db.payments_key real <$> (Db.payments s ++ ys)) →
  Forall (λ r, Db.payments_order real r ∈ Db.orders_key real <$> Db.orders s) ys →
  Ingest.insert_each real Db.insert_payment (Ok <$> ys) s
  = Ok (Db.mkStore (Db.users s) (Db.products s) (Db.orders s) (Db.order_items s)
          (Db.payments s ++ ys)).
Proof.
  intros Hnd Hfk.
  apply (insert_each_append Db.insert_payment
           (λ rs s0, Db.mkStore (Db.users s0) (Db.products s0) (Db.orders s0)
                       (Db.order_items s0) (Db.payments s0 ++ rs))
           (λ rs s0, NoDup (Db.payments_key real <$> (Db.payments s0 ++ rs)) ∧
                     Forall (λ r, Db.payments_order real r
                                  ∈ Db.orders_key real <$> Db.orders s0) rs));
    [| | |done].
  - intros []. cbn. by rewrite app_nil_r.
  - intros. cbn. by rewrite <- app_assoc.
  - intros r rs s0 [[Hnew Hnd']%new_key [Hr Hrs]%Forall_cons].
    apply LoaderProps.has_key_elem in Hr.
    unfold Db.insert_payment. by rewrite Hnew, Hr.
Qed.

End Loader.

(** ** What a run of the generator gives the loader *)

Lemma generated_products
    (today_users today_orders user_count product_count order_count : Z)
    (tape tape' : list N) (ds : dataset) :
  generate today_users today_orders user_count product_count order_count tape
  = Ok (ds, tape') →
  Product.product_id <$> products ds = range1 product_count ∧
  Forall (λ p, (∃ c, 2000 ≤ c ≤ 120000 ∧ Product.price p = Dec.str_cents c) ∧
               20 ≤ Product.stock p ≤ 400 ∧
               Product.category p ∈ categories) (products ds).
Proof.
  assert (Halways : Rng.always
            (generate today_users today_orders user_count product_count order_count)
            (λ ds, Product.product_id <$> products ds = range1 product_count ∧
                   Forall (λ p, (∃ c, 2000 ≤ c ≤ 120000 ∧
                                      Product.price p = Dec.str_cents c) ∧
                                20 ≤ Product.stock p ≤ 400 ∧
                                Product.category p ∈ categories) (products ds))).
  { unfold generate. GenerateFacts.skip_call.
    eapply RngFacts.always_bind; [apply GeneratorProps.always_generate_products_fields|].
    cbv beta. intros ps Hps. GenerateFacts.skip_call.
    match goal with x : (_ * _ * _)%type |- _ => destruct x as [[os its] pays] end.
    by apply RngFacts.always_ret. }
  intros Hrun. exact (Halways _ _ _ Hrun).
Qed.

Lemma range1_nonneg (n k : Z) : k ∈ range1 n → 0 ≤ k.
Proof. unfold range1. rewrite elem_of_seqZ. lia. Qed.

Lemma ids_nonneg {A} (f : A → Z) (l : list A) (n : Z) :
  f <$> l = range1 n → Forall (λ a, 0 ≤ f a) l.
Proof.
  intros Hids. apply Forall_forall. intros a Ha.
  apply (range1_nonneg n). rewrite <- Hids. by apply list_elem_of_fmap_2.
Qed.

(** The facts about a generated data set that the loader relies on. *)
Lemma generated_loadable
    (today_users today_orders user_count product_count order_count : Z)
    (tape tape' : list N) (ds : dataset) :
  generate today_users today_orders user_count product_count order_count tape
  = Ok (ds, tape') →
  (User.user_id <$> users ds = range1 user_count ∧
   Product.product_id <$> products ds = range1 product_count ∧
   Order.order_id <$> orders ds = range1 order_count ∧
   Payment.payment_id <$> payments ds = range1 order_count ∧
   OrderItem.order_item_id <$> order_items ds
   = range1 (Z.of_nat (length (order_items ds)))) ∧
  Forall (λ p, 0 ≤ Product.stock p ∧ priced 2000 120000 (Product.price p)) (products ds) ∧
  Forall (λ o, Order.user_id o ∈ User.user_id <$> users ds ∧
               ∃ c, 0 ≤ c ∧ Order.total_amount o = Dec.str_cents c) (orders ds) ∧
  Forall (λ it, OrderItem.order_id it ∈ Order.order_id <$> orders ds ∧
                OrderItem.product_id it ∈ Product.product_id <$> products ds ∧
                0 ≤ OrderItem.quantity it ∧
                priced 2000 120000 (OrderItem.unit_price it)) (order_items ds) ∧
  Forall (λ y, Payment.order_id y ∈ Order.order_id <$> orders ds ∧
               ∃ c, 0 ≤ c ∧ Payment.amount y = Dec.str_cents c) (payments ds).
Proof.
  intros Hrun.
  pose proof (GenerateFacts.generate_run_ok _ _ _ _ _ _ _ _ Hrun) as Hok.
  destruct (generated_products _ _ _ _ _ _ _ _ Hrun) as [Hpids Hpf].
  destruct (DatasetFacts.run_ok_pairs _ _ _ _ Hok) as (Hoids & Hyids & Hpay).
  assert (Htotal : Forall (λ o, Order.user_id o ∈ User.user_id <$> users ds ∧
                     ∃ c, 0 ≤ c ∧ Order.total_amount o = Dec.str_cents c) (orders ds)).
  { apply Forall_forall. intros o Ho.
    destruct (DatasetFacts.run_ok_order _ _ _ _ o Hok Ho) as (Hwf & _ & Hoo).
    split.
    - destruct Hok as (_ & _ & _ & st & Hinv & Eo & _ & _).
      destruct Hinv as (_ & _ & _ & _ & _ & _ & Husers & _).
      rewrite Forall_forall in Husers. apply Husers. by rewrite <- Eo.
    - exists (items_cents (Spec.items_of ds o)). split.
      + by destruct (DatasetFacts.total_cents_small _ _ _ Hwf Hoo).
      + by destruct Hoo as (_ & _ & _ & _ & ?). }
  split_and!.
  - by destruct Hok as (? & _).
  - done.
  - done.
  - done.
  - destruct Hok as (_ & _ & _ & st & Hinv & _ & -> & _).
    by destruct Hinv as (_ & _ & _ & _ & ? & _).
  - eapply Forall_impl; [exact Hpf|]. intros p (Hprice & Hstock & _).
    split; [lia|done].
  - done.
  - apply Forall_forall. intros it Hit.
    destruct (GeneratorProps.run_ok_item _ _ _ _ _ Hok Hit)
      as (o & p & Ho & Hp & Hoid & Hpid & Hprice & Hq).
    rewrite Hoid, Hpid, Hprice. split_and!.
    + by apply list_elem_of_fmap_2.
    + by apply list_elem_of_fmap_2.
    + lia.
    + rewrite Forall_forall in Hpf. by destruct (Hpf _ Hp) as (? & _).
  - pose proof (DatasetFacts.pay_ok_order_ids _ _ Hpay) as Hids.
    eapply Forall_impl; [exact (Forall2_left _ _ _ Hpay)|].
    intros y (o & Ho & Hyo & Hamount & _). split.
    + rewrite Hyo. by apply list_elem_of_fmap_2.
    + rewrite Forall_forall in Htotal. destruct (Htotal _ Ho) as (_ & c & Hc & Hc').
      exists c. split; [done|congruence].
Qed.

(** Stand-ins for the builtins that satisfy the two assumptions. *)
Lemma int_of_digits_str_int (n : Z) :
  0 ≤ n → Examples.int_of_digits (str_int n) = Some n.
Proof.
  intros Hn. unfold Examples.int_of_digits, str_int.
  rewrite (proj2 (Z.ltb_ge n 0)) by done.
  destruct (DecFacts.str_nonneg_head n Hn) as (c & r & d & Hs & _).
  rewrite Hs at 1. cbn [String.eqb]. by apply DecFacts.read_str_nonneg.
Qed.

Lemma decimal_float_str_cents (c : Z) :
  0 ≤ c → is_Some (Examples.decimal_float (Dec.str_cents c)).
Proof.
  intros Hc. unfold Examples.decimal_float.
  by rewrite DecFacts.of_string_str_cents.
Qed.

(** The loader on the files of a run of the generator. *)
Lemma load_generated (real : Type) (py_int : string → option Z)
    (py_float : string → option real) (a : Exporter.args)
    (today_users today_orders : Z) (tape tape' : list N) (fs : Fs.t)
    (db : option (Db.store real)) (ds : dataset) :
  (∀ n, 0 ≤ n → py_int (str_int n) = Some n) →
  (∀ c, 0 ≤ c → is_Some (py_float (Dec.str_cents c))) →
  generate today_users today_orders (Exporter.arg_users a) (Exporter.arg_products a)
    (Exporter.arg_orders a) tape = Ok (ds, tape') →
  ∃ s,
    Ingest.main real py_int py_float
      (Exporter.main a today_users today_orders tape fs).1 db
    = (Some s,
       Ok ["Rows inserted:"%string;
           Ingest.count_line "users" (length (users ds));
           Ingest.count_line "products" (length (products ds));
           Ingest.count_line "orders" (length (orders ds));
           Ingest.count_line "order_items" (length (order_items ds));
           Ingest.count_line "payments" (length (payments ds))]) ∧
    Db.users s = users_row_of <$> users ds ∧
    Forall2 (products_row_of real py_float) (products ds) (Db.products s) ∧
    Forall2 (orders_row_of real py_float) (orders ds) (Db.orders s) ∧
    Forall2 (order_items_row_of real py_float) (order_items ds) (Db.order_items s) ∧
    Forall2 (payments_row_of real py_float) (payments ds) (Db.payments s).
Proof.
  intros Hint Hfloat Hrun.
  destruct (generated_loadable _ _ _ _ _ _ _ _ Hrun)
    as ((Huids & Hpids & Hoids & Hyids & Hiids) & Hps & Hos & Hits & Hys).
  destruct (exported_files a today_users today_orders tape tape' fs ds Hrun)
    as (Hdir & Fu & Fp & Fo & Fi & Fy).
  set (fs' := (Exporter.main a today_users today_orders tape fs).1) in *.
  assert (Hpriced : ∀ s, priced 2000 120000 s → is_Some (py_float s)).
  { intros s (c & Hc & ->). apply Hfloat. lia. }
  assert (Hmoney : ∀ s, (∃ c, 0 ≤ c ∧ s = Dec.str_cents c) → is_Some (py_float s)).
  { intros s (c & Hc & ->). by apply Hfloat. }
  pose proof (load_users_written py_int Hint fs' (users ds) Fu (ids_nonneg _ _ _ Huids))
    as Lu.
  destruct (load_products_written real py_int py_float Hint fs' (products ds) Fp)
    as (ps & Lp & Rp).
  { pose proof (ids_nonneg _ _ _ Hpids) as Hnn.
    apply Forall_forall. intros p Hp.
    rewrite Forall_forall in Hnn. rewrite Forall_forall in Hps.
    destruct (Hps _ Hp) as [Hstock Hprice]. split_and!; auto. }
  destruct (load_orders_written real py_int py_float Hint fs' (orders ds) Fo)
    as (os & Lo & Ro).
  { pose proof (ids_nonneg _ _ _ Hoids) as Hnn.
    apply Forall_forall. intros o Ho.
    rewrite Forall_forall in Hnn. rewrite Forall_forall in Hos.
    destruct (Hos _ Ho) as [Huser Htotal]. split_and!; auto.
    rewrite Huids in Huser. by eapply range1_nonneg. }
  destruct (load_order_items_written real py_int py_float Hint fs' (order_items ds) Fi)
    as (its & Li & Ri).
  { pose proof (ids_nonneg _ _ _ Hiids) as Hnn.
    apply Forall_forall. intros it Hit.
    rewrite Forall_forall in Hnn. rewrite Forall_forall in Hits.
    destruct (Hits _ Hit) as (Horder & Hproduct & Hq & Hprice). split_and!; auto.
    - rewrite Hoids in Horder. by eapply range1_nonneg.
    - rewrite Hpids in Hproduct. by eapply range1_nonneg. }
  destruct (load_payments_written real py_int py_float Hint fs' (payments ds) Fy)
    as (ys & Ly & Ry).
  { pose proof (ids_nonneg _ _ _ Hyids) as Hnn.
    apply Forall_forall. intros y Hy.
    rewrite Forall_forall in Hnn. rewrite Forall_forall in Hys.
    destruct (Hys _ Hy) as [Horder Hamount]. split_and!; auto.
    rewrite Hoids in Horder. by eapply range1_nonneg. }
  assert (Ku : Db.users_key <$> (users_row_of <$> users ds) = User.user_id <$> users ds).
  { by rewrite <- list_fmap_compose. }
  assert (Kp : Db.products_key real <$> ps = Product.product_id <$> products ds).
  { apply (Forall2_keys (products_row_of real py_float)); [|done].
    by intros p r (x & _ & ->). }
  assert (Ko : Db.orders_key real <$> os = Order.order_id <$> orders ds).
  { apply (Forall2_keys (orders_row_of real py_float)); [|done].
    by intros o r (x & _ & ->). }
  assert (Ki : Db.order_items_key real <$> its
               = OrderItem.order_item_id <$> order_items ds).
  { apply (Forall2_keys (order_items_row_of real py_float)); [|done].
    by intros it r (x & _ & ->). }
  assert (Ky : Db.payments_key real <$> ys = Payment.payment_id <$> payments ds).
  { apply (Forall2_keys (payments_row_of real py_float)); [|done].
    by intros y r (x & _ & ->). }
  exists (Db.mkStore (users_row_of <$> users ds) ps os its ys).
  split; [|done].
  unfold Ingest.main. rewrite bool_decide_eq_true_2 by done. cbn [negb].
  rewrite IngestFacts.clear_tables_empties. cbn [Db.pending Db.durable].
  unfold Ingest.insert_all, Ingest.executemany.
  rewrite Lu. cbn [and_then].
  rewrite insert_users_ok
    by (cbn [Db.users Db.empty app]; rewrite Ku, Huids; apply NoDup_seqZ).
  cbn [and_then]. rewrite Lp. cbn [and_then].
  rewrite insert_products_ok
    by (cbn [Db.products Db.empty app]; rewrite Kp, Hpids; apply NoDup_seqZ).
  cbn [and_then]. rewrite Lo. cbn [and_then].
  rewrite insert_orders_ok; cycle 1.
  { cbn [Db.orders Db.empty app]. rewrite Ko, Hoids. apply NoDup_seqZ. }
  { cbn [Db.users Db.empty app]. rewrite Ku.
    eapply (Forall2_transfer (orders_row_of real py_float)); [|exact Ro|exact Hos].
    by intros o r (x & _ & ->) [Hu _]. }
  cbn [and_then]. rewrite Li. cbn [and_then].
  rewrite insert_order_items_ok; cycle 1.
  { cbn [Db.order_items Db.empty app]. rewrite Ki, Hiids. apply NoDup_seqZ. }
  { cbn [Db.orders Db.products Db.empty app]. rewrite Ko, Kp.
    eapply (Forall2_transfer (order_items_row_of real py_float)); [|exact Ri|exact Hits].
    by intros it r (x & _ & ->) (Ho & Hp & _). }
  cbn [and_then]. rewrite Ly. cbn [and_then].
  rewrite insert_payments_ok; cycle 1.
  { cbn [Db.payments Db.empty app]. rewrite Ky, Hyids. apply NoDup_seqZ. }
  { cbn [Db.orders Db.empty app]. rewrite Ko.
    eapply (Forall2_transfer (payments_row_of real py_float)); [|exact Ry|exact Hys].
    by intros y r (x & _ & ->) [Ho _]. }
  cbn [Db.commit Db.durable Db.pending Db.users Db.products Db.orders Db.order_items
       Db.payments Db.empty app].
  rewrite length_fmap.
  by rewrite <- (Forall2_length _ _ _ Rp), <- (Forall2_length _ _ _ Ro),
    <- (Forall2_length _ _ _ Ri), <- (Forall2_length _ _ _ Ry).
Qed.

(** The files of a run of the generator always load: whenever [int] reads
    back the decimal numerals of non-negative integers and [float] accepts
    the money strings, the loader, run on the files that the generator wrote,
    raises nothing -- no missing file or field, no duplicate key, no dangling
    reference -- and leaves in the store, whatever it held before, one row
    per record of the data set, in order, with the record's fields; the
    counts it prints are the sizes of the five collections. *)
Theorem generated_files_load (real : Type) (py_int : string → option Z)
    (py_float : string → option real) (a : Exporter.args)
    (today_users today_orders : Z) (tape tape' : list N) (fs : Fs.t)
    (db : option (Db.store real)) (ds : dataset) :
  (∀ n, 0 ≤ n → py_int (str_int n) = Some n) →
  (∀ c, 0 ≤ c → is_Some (py_float (Dec.str_cents c))) →
  generate today_users today_orders (Exporter.arg_users a) (Exporter.arg_products a)
    (Exporter.arg_orders a) tape = Ok (ds, tape') →
  ∃ s,
    Ingest.main real py_int py_float
      (Exporter.main a today_users today_orders tape fs).1 db
    = (Some s,
       Ok ["Rows inserted:"%string;
           Ingest.count_line "users" (length (users ds));
           Ingest.count_line "products" (length (products ds));
           Ingest.count_line "orders" (length (orders ds));
           Ingest.count_line "order_items" (length (order_items ds));
           Ingest.count_line "payments" (length (payments ds))]) ∧
    Db.users s = users_row_of <$> users ds ∧
    Forall2 (products_row_of real py_float) (products ds) (Db.products s) ∧
    Forall2 (orders_row_of real py_float) (orders ds) (Db.orders s) ∧
    Forall2 (order_items_row_of real py_float) (order_items ds) (Db.order_items s) ∧
    Forall2 (payments_row_of real py_float) (payments ds) (Db.payments s).
Proof. apply load_generated. Qed.

Lemma generated_files_load_witness :
  (∀ n, 0 ≤ n → Examples.int_of_digits (str_int n) = Some n) ∧
  (∀ c, 0 ≤ c → is_Some (Examples.decimal_float (Dec.str_cents c))) ∧
  generate Examples.now1 Examples.now1
    (Exporter.arg_users (Exporter.mkArgs 2 3 3 false))
    (Exporter.arg_products (Exporter.mkArgs 2 3 3 false))
    (Exporter.arg_orders (Exporter.mkArgs 2 3 3 false)) Examples.tape1
  = Ok (Examples.ds1, Examples.rest1) ∧
  ∃ s,
    Ingest.main Dec.Decimal Examples.int_of_digits Examples.decimal_float
      (Exporter.main (Exporter.mkArgs 2 3 3 false) Examples.now1 Examples.now1
         Examples.tape1 (Fs.mk ∅ ∅)).1 (Some Examples.old_store)
    = (Some s,
       Ok ["Rows inserted:"%string;
           Ingest.count_line "users" (length (users Examples.ds1));
           Ingest.count_line "products" (length (products Examples.ds1));
           Ingest.count_line "orders" (length (orders Examples.ds1));
           Ingest.count_line "order_items" (length (order_items Examples.ds1));
           Ingest.count_line "payments" (length (payments Examples.ds1))]) ∧
    Db.users s = users_row_of <$> users Examples.ds1 ∧
    Forall2 (products_row_of Dec.Decimal Examples.decimal_float)
      (products Examples.ds1) (Db.products s) ∧
    Forall2 (orders_row_of Dec.Decimal Examples.decimal_float)
      (orders Examples.ds1) (Db.orders s) ∧
    Forall2 (order_items_row_of Dec.Decimal Examples.decimal_float)
      (order_items Examples.ds1) (Db.order_items s) ∧
    Forall2 (payments_row_of Dec.Decimal Examples.decimal_float)
      (payments Examples.ds1) (Db.payments s).
Proof.
  assert (H : generate Examples.now1 Examples.now1
                (Exporter.arg_users (Exporter.mkArgs 2 3 3 false))
                (Exporter.arg_products (Exporter.mkArgs 2 3 3 false))
                (Exporter.arg_orders (Exporter.mkArgs 2 3 3 false)) Examples.tape1
              = Ok (Examples.ds1, Examples.rest1)) by (vm_compute; reflexivity).
  exact (conj int_of_digits_str_int (conj decimal_float_str_cents (conj H
           (generated_files_load Dec.Decimal Examples.int_of_digits Examples.decimal_float
              (Exporter.mkArgs 2 3 3 false) Examples.now1 Examples.now1 Examples.tape1
              Examples.rest1 (Fs.mk ∅ ∅) (Some Examples.old_store) Examples.ds1
              int_of_digits_str_int decimal_float_str_cents H)))).
Defined.

End PipelineProps.

(** * The whole pipeline: generate, export, load, report *)

Module RoundTripClaims.

Import PyStr Generate Inv Report.

Lemma int_of_string_str_int (n : Z) : 0 ≤ n → int_of_string (str_int n) = Some n.
Proof.
  intros Hn. unfold str_int. rewrite (proj2 (Z.ltb_ge n 0)) by done.
  destruct (DecFacts.str_nonneg_head n Hn) as (c & r & d & Hs & Hd).
  pose proof (DecFacts.read_str_nonneg n Hn) as Hread. rewrite Hs in Hread |- *.
  cbn [int_of_string].
  rewrite (DecFacts.digit_val_not c "-" d Hd), (DecFacts.digit_val_not c "+" d Hd) by done.
  exact Hread.
Qed.

Lemma float_of_money (c : Z) : 0 ≤ c → is_Some (Float.of_string (Dec.str_cents c)).
Proof.
  intros Hc. unfold Float.of_string. by rewrite DecFacts.of_string_str_cents.
Qed.

Lemma printf_2f_float (s : string) (x : Float.binary64) (c : Z) :
  0 ≤ c < 2 ^ 30 → s = Dec.str_cents c → Float.of_string s = Some x →
  Float.printf_2f x = s.
Proof.
  intros Hc -> Hx.
  destruct (FloatFacts.printf_2f_of_string c Hc) as (x' & Hx' & Hprint). congruence.
Qed.

Lemma Forall2_compose {A B C} (R1 : A → B → Prop) (R2 : B → C → Prop)
    (l : list A) (k : list B) (m : list C) :
  Forall2 R1 l k → Forall2 R2 k m → Forall2 (λ a c, ∃ b, R1 a b ∧ R2 b c) l m.
Proof.
  intros H. revert m. induction H as [|a b l k HR _ IH]; intros m Hm.
  - apply Forall2_nil_inv_l in Hm as ->. constructor.
  - apply Forall2_cons_inv_l in Hm as (c & m' & Hc & Hm' & ->).
    constructor; [by exists b|by apply IH].
Qed.

Lemma Forall2_impl_elem {A B} (R Q : A → B → Prop) (l : list A) (k : list B) :
  Forall2 R l k → (∀ a b, a ∈ l → R a b → Q a b) → Forall2 Q l k.
Proof.
  induction 1 as [|a b l k HR _ IH]; intros Himp; constructor.
  - apply Himp; [left|done].
  - apply IH. intros a' b' Ha'. apply Himp. by right.
Qed.

Lemma Forall2_right {A B} (R : A → B → Prop) (l : list A) (k : list B) (a : A) :
  Forall2 R l k → a ∈ l → ∃ b, b ∈ k ∧ R a b.
Proof.
  induction 1 as [|a' b l k HR _ IH]; intros Ha; [by apply elem_of_nil in Ha|].
  apply elem_of_cons in Ha as [->|Ha].
  - exists b. split; [left|done].
  - destruct (IH Ha) as (b' & Hb' & HR'). exists b'. split; [by right|done].
Qed.

Lemma Forall2_left_elem {A B} (R : A → B → Prop) (l : list A) (k : list B) (b : B) :
  Forall2 R l k → b ∈ k → ∃ a, a ∈ l ∧ R a b.
Proof.
  intros H Hb. pose proof (PipelineProps.Forall2_left R l k H) as Hall.
  rewrite Forall_forall in Hall. by apply Hall.
Qed.

(** The amounts of a generated data set, in cents. *)
Lemma generated_amounts
    (today_users today_orders user_count product_count order_count : Z)
    (tape tape' : list N) (ds : dataset) :
  generate today_users today_orders user_count product_count order_count tape
  = Ok (ds, tape') →
  Forall (λ it, ∃ c, 0 ≤ c < 2 ^ 30 ∧ OrderItem.unit_price it = Dec.str_cents c)
    (order_items ds) ∧
  Forall (λ o, ∃ c, 0 ≤ c < 2 ^ 30 ∧ Order.total_amount o = Dec.str_cents c) (orders ds) ∧
  Order.order_id <$> orders ds = range1 order_count ∧
  Payment.order_id <$> payments ds = Order.order_id <$> orders ds.
Proof.
  intros Hrun.
  pose proof (GenerateFacts.generate_run_ok _ _ _ _ _ _ _ _ Hrun) as Hok.
  destruct (PipelineProps.generated_loadable _ _ _ _ _ _ _ _ Hrun)
    as (_ & _ & _ & Hits & _).
  destruct (DatasetFacts.run_ok_pairs _ _ _ _ Hok) as (Hoids & _ & Hpay).
  split_and!.
  - eapply Forall_impl; [exact Hits|]. intros it (_ & _ & _ & c & Hc & ->).
    exists c. split; [lia|done].
  - apply Forall_forall. intros o Ho.
    destruct (DatasetFacts.run_ok_order _ _ _ _ o Hok Ho) as (Hwf & _ & Hoo).
    pose proof (DatasetFacts.total_cents_small _ _ _ Hwf Hoo) as Hsmall.
    exists (items_cents (Spec.items_of ds o)). split; [lia|].
    by destruct Hoo as (_ & _ & _ & _ & ?).
  - done.
  - by apply DatasetFacts.pay_ok_order_ids.
Qed.

(** C2: for every run of the generator that returns, the loader run on the
    exported files (with [int] and [float] as Python has them, the money
    columns stored as binary64 [REAL]s) returns, and the rows that the report
    then fetches (with SQLite's [printf('%.2f')]) are in one-to-one
    correspondence with the generated line items: each row shows the order
    of its line item, the product, the quantity, and the unit price and the
    order total as the very strings that were generated, two fractional
    digits included.  Hence, per order, the report shows the item set, the
    quantities, the unit prices and the total that were generated. *)
Theorem pipeline_reproduces_generated_orders (a : Exporter.args)
    (today_users today_orders : Z) (tape tape' : list N) (fs : Fs.t)
    (db : option (Db.store Float.binary64)) (ds : dataset) :
  generate today_users today_orders (Exporter.arg_users a) (Exporter.arg_products a)
    (Exporter.arg_orders a) tape = Ok (ds, tape') →
  ∃ s out items,
    Ingest.main Float.binary64 int_of_string Float.of_string
      (Exporter.main a today_users today_orders tape fs).1 db = (Some s, Ok out) ∧
    items ≡ₚ order_items ds ∧
    Forall2 (Spec.reproduces ds) items
      (fetch_report Float.binary64 Float.printf_2f s).
Proof.
  intros Hrun.
  destruct (PipelineProps.load_generated Float.binary64 int_of_string Float.of_string
              a today_users today_orders tape tape' fs db ds
              int_of_string_str_int float_of_money Hrun)
    as (s & Hmain & Hus & Rp & Ro & Ri & Ry).
  destruct (generated_amounts _ _ _ _ _ _ _ _ Hrun) as (Hprices & Htotals & Hoids & Hyo).
  assert (Hc : Integrity.consistent Float.binary64 s).
  { destruct (LoaderProps.main_ok_inv _ _ _ _ _ _ _ Hmain) as [Hins _].
    apply LoaderProps.insert_all_spec in Hins
      as (? & ? & ? & ? & ? & _ & _ & _ & _ & _ & _ & Hcons).
    apply Hcons, LoaderProps.consistent_empty. }
  assert (Kpo : Db.payments_order Float.binary64 <$> Db.payments s
                = Payment.order_id <$> payments ds).
  { apply (PipelineProps.Forall2_keys
             (PipelineProps.payments_row_of Float.binary64 Float.of_string)); [|done].
    by intros y r (x & _ & ->). }
  assert (Hpay : NoDup (Db.payments_order Float.binary64 <$> Db.payments s)).
  { rewrite Kpo, Hyo, Hoids. apply NoDup_seqZ. }
  pose proof (ReportProps.joined_per_item Float.binary64 Float.printf_2f s Hc Hpay)
    as Hjoined.
  pose proof (Forall2_compose _ _ _ _ _ Ri Hjoined) as Hcomp.
  assert (Hrows : Forall2 (λ it kr, Spec.reproduces ds it kr.2) (order_items ds)
                    (joined Float.binary64 Float.printf_2f s)).
  { eapply Forall2_impl_elem; [exact Hcomp|].
    intros it kr Hit (r & (x & Hx & ->) & os & us & ps & pay &
                        Hos & Hkos & Hu & Hkus & Hps & Hkps & Hleft & ->).
    cbn in Hkos, Hkps.
    destruct (Forall2_left_elem _ _ _ _ Ro Hos) as (o & Ho & xt & Hxt & ->).
    cbn in Hkos, Hkus, Hleft.
    rewrite Hus in Hu. apply list_elem_of_fmap in Hu as (u & -> & Hu). cbn in Hkus.
    destruct (Forall2_left_elem _ _ _ _ Rp Hps) as (p & Hp & xp & Hxp & ->).
    cbn in Hkps.
    (* the payment of the order *)
    assert (Hhas : Order.order_id o ∈ Payment.order_id <$> payments ds).
    { rewrite Hyo. by apply list_elem_of_fmap_2. }
    apply list_elem_of_fmap in Hhas as (y0 & Hy0 & Hy0in).
    destruct (Forall2_right _ _ _ _ Ry Hy0in) as (ys0 & Hys0 & xy0 & Hxy0 & ->).
    unfold left_join_payments in Hleft.
    destruct (filter _ (Db.payments s)) as [|ys1 rest] eqn:Hf.
    { exfalso. eapply (not_elem_of_nil (A := Db.payments_row Float.binary64)).
      rewrite <- Hf. apply list_elem_of_filter. split; [|exact Hys0]. cbn. done. }
    cbn [fmap list_fmap] in Hleft. injection Hleft as <- Hrest.
    assert (Hys1 : ys1 ∈ filter (λ pay, Db.payments_order Float.binary64 pay
                                        = Order.order_id o) (Db.payments s))
      by (rewrite Hf; left).
    apply list_elem_of_filter in Hys1 as [Hko1 Hys1].
    destruct (Forall2_left_elem _ _ _ _ Ry Hys1) as (y & Hy & xy & Hxy & ->).
    cbn in Hko1.
    rewrite Forall_forall in Hprices. destruct (Hprices _ Hit) as (c & Hcb & Hprice).
    rewrite Forall_forall in Htotals. destruct (Htotals _ Ho) as (ct & Hctb & Htotal).
    exists o, u, p, y. split_and!; try done.
    cbn. unfold Spec.report_row.
    by rewrite (printf_2f_float _ _ _ Hcb Hprice Hx),
      (printf_2f_float _ _ _ Hctb Htotal Hxt). }
  apply Forall2_flip in Hrows.
  destruct (Permutation_Forall2
              (symmetry (ReportProps.order_by_perm
                 (joined Float.binary64 Float.printf_2f s))) Hrows)
    as (items & Hperm & Hitems).
  apply Forall2_flip in Hitems.
  exists s. eexists. exists items. split; [exact Hmain|]. split; [by symmetry|].
  unfold fetch_report. by apply Forall2_fmap_r.
Qed.

Lemma pipeline_reproduces_generated_orders_witness :
  generate Examples.now1 Examples.now1
    (Exporter.arg_users (Exporter.mkArgs 2 3 3 false))
    (Exporter.arg_products (Exporter.mkArgs 2 3 3 false))
    (Exporter.arg_orders (Exporter.mkArgs 2 3 3 false)) Examples.tape1
  = Ok (Examples.ds1, Examples.rest1) ∧
  ∃ s out items,
    Ingest.main Float.binary64 int_of_string Float.of_string
      (Exporter.main (Exporter.mkArgs 2 3 3 false) Examples.now1 Examples.now1
         Examples.tape1 (Fs.mk ∅ ∅)).1 (Some Examples.old_store)
    = (Some s, Ok out) ∧
    items ≡ₚ order_items Examples.ds1 ∧
    Forall2 (Spec.reproduces Examples.ds1) items
      (fetch_report Float.binary64 Float.printf_2f s).
Proof.
  assert (H : generate Examples.now1 Examples.now1
                (Exporter.arg_users (Exporter.mkArgs 2 3 3 false))
                (Exporter.arg_products (Exporter.mkArgs 2 3 3 false))
                (Exporter.arg_orders (Exporter.mkArgs 2 3 3 false)) Examples.tape1
              = Ok (Examples.ds1, Examples.rest1)) by (vm_compute; reflexivity).
  exact (conj H (pipeline_reproduces_generated_orders (Exporter.mkArgs 2 3 3 false)
                   Examples.now1 Examples.now1 Examples.tape1 Examples.rest1 (Fs.mk ∅ ∅)
                   (Some Examples.old_store) Examples.ds1 H)).
Defined.

End RoundTripClaims.
